(** * A shallow embedding of the compact routing structure and the growing
    algorithm of MDGE (src/compact_routing_structure.py, src/event.py,
    src/growing_algorithm.py, src/utils.py).

    Numbers: Python's [Fraction] values are exact rationals, modelled as [Q].
    Python ints (bundle sizes) are [Z]. Trigonometric geometry (cos, sin,
    asin, atan2, sqrt) is kept abstract where it occurs. *)

From Stdlib Require Import QArith Qround Lqa Lia ZArith String List.
From stdpp Require Import base gmap list.

Open Scope Q_scope.

(** Python's [<] on numbers. *)
Definition Qltb (x y : Q) : bool := negb (Qle_bool y x).

(* ------------------------------------------------------------------ *)
(** ** utils.py : angles *)

(** [2 * math.pi] as the IEEE double it is, i.e. the exact rational
    [Fraction(2 * math.pi)] used by [normalize_angle]. *)
Definition two_pi : Q := 884279719003555 # 140737488355328.

(** [while a < 0: a += full_rotation], with a fuel bound on the number
    of iterations ([None] when the fuel runs out). *)
Fixpoint raise_angle (fuel : nat) (a : Q) : option Q :=
  match fuel with
  | O => None
  | S f => if Qlt_le_dec a 0 then raise_angle f (a + two_pi) else Some a
  end.

(** [while a > 2 * math.pi: a -= full_rotation]. *)
Fixpoint lower_angle (fuel : nat) (a : Q) : option Q :=
  match fuel with
  | O => None
  | S f => if Qlt_le_dec two_pi a then lower_angle f (a - two_pi) else Some a
  end.

(** [normalize_angle(a)]: the two loops one after the other. *)
Definition normalize_angle (fuel : nat) (a : Q) : option Q :=
  match raise_angle fuel a with
  | Some a' => lower_angle fuel a'
  | None => None
  end.

(** [angle(p, q) = normalize_angle(math.atan2(dy, dx))]; [atan2] is the
    library function, passed in. *)
Definition angle (atan2 : Q -> Q -> Q) (fuel : nat) (px py qx qy : Q) : option Q :=
  normalize_angle fuel (atan2 (qy - py) (qx - px)).

(* ------------------------------------------------------------------ *)
(** ** growing_algorithm.py : [binary_search] (nested in [update_queue]) *)

(** One pass of the [for i in range(no_iter)] loop, [i] counting up from
    the current iteration index. *)
Fixpoint bs_loop (dt : Q) (func : Q -> bool) (i : nat) (n : nat) (new_t : Q) : Q :=
  match n with
  | O => new_t
  | S n' =>
      let step := dt / inject_Z (2 ^ (Z.of_nat i + 1)) in
      let t1 := new_t - step in
      let t2 := if func t1 then t1 else t1 + step in
      bs_loop dt func (S i) n' t2
  end.

Definition binary_search (dt : Q) (start_time : Q) (no_iter : nat) (func : Q -> bool) : Q :=
  bs_loop dt func 0 no_iter start_time.

(* ------------------------------------------------------------------ *)
(** ** event.py *)

(** Bundles are addressed by identifiers (object identity). *)
Definition bid := nat.

Inductive event :=
| SplitEvent (t : Q) (sb eb : bid)
| MergeEvent (t : Q) (eb : bid).

Definition ev_time (e : event) : Q :=
  match e with SplitEvent t _ _ => t | MergeEvent t _ => t end.

Definition is_merge_event (e : event) : bool :=
  match e with MergeEvent _ _ => true | _ => false end.

Definition is_split_event (e : event) : bool :=
  match e with SplitEvent _ _ _ => true | _ => false end.

Definition ev_bundles (e : event) : list bid :=
  match e with SplitEvent _ sb eb => [sb; eb] | MergeEvent _ eb => [eb] end.

(** [Event.__lt__]:
    [self.t < other.t or (self.t == other.t and type(self) == MergeEvent)]. *)
Definition event_lt (self other : event) : bool :=
  Qltb (ev_time self) (ev_time other) ||
  (Qeq_bool (ev_time self) (ev_time other) && is_merge_event self).

(* ------------------------------------------------------------------ *)
(** ** point.py, utils.py : points and orientation *)

(** A [Point] object: its identity (for [is]) and its coordinates. *)
Record point := mkPoint { pid : nat; px : Q; py : Q }.

(** [p is q]. *)
Definition pt_is (p q : point) : bool := Nat.eqb (pid p) (pid q).

(** [orientation(p, q, r)]: 0 collinear, 1 clockwise, 2 counterclockwise. *)
Definition orientation (p q r : point) : Z :=
  let val := (py q - py p) * (px r - px q) - (px q - px p) * (py r - py q) in
  if Qltb 0 val then 1%Z else if Qltb val 0 then 2%Z else 0%Z.

Definition Qmin' (a b : Q) : Q := if Qle_bool a b then a else b.
Definition Qmax' (a b : Q) : Q := if Qle_bool a b then b else a.

(** [on_segment(p, q, r)]: does [r] lie on segment [pq]. *)
Definition on_segment (p q r : point) : bool :=
  Z.eqb (orientation p q r) 0 &&
  Qle_bool (Qmin' (px p) (px q)) (px r) && Qle_bool (px r) (Qmax' (px p) (px q)) &&
  Qle_bool (Qmin' (py p) (py q)) (py r) && Qle_bool (py r) (Qmax' (py p) (py q)).

(** [on_half_line(p, q, r)]: does [r] lie on the half-line from [p]
    through [q]. *)
Definition on_half_line (p q r : point) : bool :=
  Z.eqb (orientation p q r) 0 && (on_segment p q r || on_segment p r q).

(** [check_segment_segment_intersection(p1, q1, p2, q2)]. *)
Definition check_segment_segment_intersection (p1 q1 p2 q2 : point) : bool :=
  let o1 := orientation p1 q1 p2 in
  let o2 := orientation p1 q1 q2 in
  let o3 := orientation p2 q2 p1 in
  let o4 := orientation p2 q2 q1 in
  if negb (Z.eqb o1 o2) && negb (Z.eqb o3 o4) then true
  else if Z.eqb o1 0 && on_segment p1 q1 p2 then true
  else if Z.eqb o2 0 && on_segment p1 q1 q2 then true
  else if Z.eqb o3 0 && on_segment p2 q2 p1 then true
  else if Z.eqb o4 0 && on_segment p2 q2 q1 then true
  else false.

(** [check_segment_line_intersection(p1, q1, p2, q2)]: segment [p1q1]
    against the line through [p2] and [q2]. *)
Definition check_segment_line_intersection (p1 q1 p2 q2 : point) : bool :=
  let o_p1 := orientation p2 q2 p1 in
  let o_q1 := orientation q2 p2 q1 in
  Z.eqb o_p1 0 || Z.eqb o_q1 0 || Z.eqb o_p1 o_q1.

(** [transform_point(p, t)] mutates [p] in place:
    [p.x = t[0] * p.x + t[1] * p.y + t[4]] and then
    [p.y = t[2] * p.x + t[3] * p.y + t[5]], the second line reading the
    [p.x] the first has just written. A list [t] that is too short raises
    [IndexError], after the first assignment if only [t[5]] is missing. *)
Inductive transform_result :=
| Transformed (p : point)
| TransformIndexError (p : point).

Definition transform_point (p : point) (t : list Q) : transform_result :=
  match nth_error t 0, nth_error t 1, nth_error t 4 with
  | Some t0, Some t1, Some t4 =>
      let p1 := mkPoint (pid p) (t0 * px p + t1 * py p + t4) (py p) in
      match nth_error t 2, nth_error t 3, nth_error t 5 with
      | Some t2, Some t3, Some t5 =>
          Transformed (mkPoint (pid p1) (px p1) (t2 * px p1 + t3 * py p1 + t5))
      | _, _, _ => TransformIndexError p1
      end
  | _, _, _ => TransformIndexError p
  end.

(** The signed area [val] that [orientation] tests. *)
Definition orientation_val (p q r : point) : Q :=
  (py q - py p) * (px r - px q) - (px q - px p) * (py r - py q).

(** The class [orientation] assigns to a signed area. *)
Definition sign_class (v : Q) : Z :=
  if Qltb 0 v then 1%Z else if Qltb v 0 then 2%Z else 0%Z.

(** Clockwise and counterclockwise swapped. *)
Definition mirror (o : Z) : Z :=
  if Z.eqb o 1 then 2%Z else if Z.eqb o 2 then 1%Z else o.

(* ------------------------------------------------------------------ *)
(** ** compact_routing_structure.py : bundles and the structure *)

Inductive kind := StraightBundle | ElbowBundle.

Definition kind_eqb (k1 k2 : kind) : bool :=
  match k1, k2 with
  | StraightBundle, StraightBundle | ElbowBundle, ElbowBundle => true
  | _, _ => false
  end.

(** The attributes of a [StraightBundle] or an [ElbowBundle] object;
    [None] is Python's [None]. A straight bundle has no [point], [inner],
    [layer_thickness] or [orientation] of its own. *)
Record bundle := mkBundle {
  b_kind : kind;
  b_point : option point;
  b_left : option bid;
  b_right : option bid;
  b_inner : option bid;
  b_size : option Z;
  b_thickness : option Q;
  b_layer_thickness : option Q;
  b_is_terminal : bool;
  b_orientation : Z }.

(** [StraightBundle()] and [ElbowBundle()]. *)
Definition new_straight : bundle :=
  mkBundle StraightBundle None None None None None None None false 0.
Definition new_elbow : bundle :=
  mkBundle ElbowBundle None None None None None None None false 0.

Definition set_point v (b : bundle) : bundle :=
  mkBundle (b_kind b) v (b_left b) (b_right b) (b_inner b) (b_size b)
    (b_thickness b) (b_layer_thickness b) (b_is_terminal b) (b_orientation b).
Definition set_left v (b : bundle) : bundle :=
  mkBundle (b_kind b) (b_point b) v (b_right b) (b_inner b) (b_size b)
    (b_thickness b) (b_layer_thickness b) (b_is_terminal b) (b_orientation b).
Definition set_right v (b : bundle) : bundle :=
  mkBundle (b_kind b) (b_point b) (b_left b) v (b_inner b) (b_size b)
    (b_thickness b) (b_layer_thickness b) (b_is_terminal b) (b_orientation b).
Definition set_inner v (b : bundle) : bundle :=
  mkBundle (b_kind b) (b_point b) (b_left b) (b_right b) v (b_size b)
    (b_thickness b) (b_layer_thickness b) (b_is_terminal b) (b_orientation b).
Definition set_size v (b : bundle) : bundle :=
  mkBundle (b_kind b) (b_point b) (b_left b) (b_right b) (b_inner b) v
    (b_thickness b) (b_layer_thickness b) (b_is_terminal b) (b_orientation b).
Definition set_thickness v (b : bundle) : bundle :=
  mkBundle (b_kind b) (b_point b) (b_left b) (b_right b) (b_inner b) (b_size b)
    v (b_layer_thickness b) (b_is_terminal b) (b_orientation b).
Definition set_layer_thickness v (b : bundle) : bundle :=
  mkBundle (b_kind b) (b_point b) (b_left b) (b_right b) (b_inner b) (b_size b)
    (b_thickness b) v (b_is_terminal b) (b_orientation b).
Definition set_is_terminal v (b : bundle) : bundle :=
  mkBundle (b_kind b) (b_point b) (b_left b) (b_right b) (b_inner b) (b_size b)
    (b_thickness b) (b_layer_thickness b) v (b_orientation b).

(** The heap of bundle objects together with the [CompactRoutingStructure]
    fields. Objects are never freed: [list.remove] only drops them from the
    lists, exactly as in Python. [edges] are the instance's edges, each with
    its [elbow_bundle_v1] and its [thickness]. *)
Record State := mkState {
  store : gmap bid bundle;
  straight_bundles : list bid;
  elbow_bundles : list bid;
  next_id : bid;
  edges : list (bid * Q) }.

Inductive exn :=
| Exception (msg : string)
| AttributeError
| TypeError
| ValueError
| OutOfFuel.

(** A computation either returns or raises; either way the heap it leaves
    behind is kept, as the mutations done before a [raise] persist. *)
Inductive outcome (A : Type) :=
| Ret (a : A) (s : State)
| Raise (e : exn) (s : State).
Arguments Ret {A} a s.
Arguments Raise {A} e s.

Definition M (A : Type) : Type := State -> outcome A.

#[global] Instance M_ret : MRet M := fun A a s => Ret a s.
#[global] Instance M_bind : MBind M := fun A B f m s =>
  match m s with
  | Ret a s' => f a s'
  | Raise e s' => Raise e s'
  end.

Definition raise {A} (e : exn) : M A := fun s => Raise e s.

Definition get (b : bid) : M bundle := fun s =>
  match store s !! b with
  | Some bd => Ret bd s
  | None => Raise AttributeError s
  end.

Definition modify (b : bid) (f : bundle -> bundle) : M unit := fun s =>
  match store s !! b with
  | Some bd => Ret tt (mkState (<[b := f bd]> (store s)) (straight_bundles s)
                         (elbow_bundles s) (next_id s) (edges s))
  | None => Raise AttributeError s
  end.

(** Attribute access on [None] raises. *)
Definition deref (o : option bid) : M bid :=
  match o with Some b => mret b | None => raise AttributeError end.

(** Arithmetic or ordering on [None] raises. *)
Definition req {A} (o : option A) : M A :=
  match o with Some a => mret a | None => raise TypeError end.

(** Allocation of a new object ([StraightBundle()], [ElbowBundle()],
    [copy.copy]). *)
Definition alloc (bd : bundle) : M bid := fun s =>
  Ret (next_id s) (mkState (<[next_id s := bd]> (store s)) (straight_bundles s)
                     (elbow_bundles s) (S (next_id s)) (edges s)).

Definition append_straight (b : bid) : M unit := fun s =>
  Ret tt (mkState (store s) (straight_bundles s ++ [b]) (elbow_bundles s) (next_id s) (edges s)).
Definition append_elbow (b : bid) : M unit := fun s =>
  Ret tt (mkState (store s) (straight_bundles s) (elbow_bundles s ++ [b]) (next_id s) (edges s)).

(** [list.remove(x)]: drops the first occurrence, [ValueError] if none. *)
Fixpoint remove_first (x : bid) (l : list bid) : option (list bid) :=
  match l with
  | [] => None
  | y :: l' => if Nat.eqb x y then Some l' else
                 match remove_first x l' with Some r => Some (y :: r) | None => None end
  end.

Definition remove_straight (b : bid) : M unit := fun s =>
  match remove_first b (straight_bundles s) with
  | Some l => Ret tt (mkState (store s) l (elbow_bundles s) (next_id s) (edges s))
  | None => Raise ValueError s
  end.
Definition remove_elbow (b : bid) : M unit := fun s =>
  match remove_first b (elbow_bundles s) with
  | Some l => Ret tt (mkState (store s) (straight_bundles s) l (next_id s) (edges s))
  | None => Raise ValueError s
  end.

(** Python's [==] between bundle references (identity) that may be [None]. *)
Definition ref_eqb (o1 o2 : option bid) : bool :=
  match o1, o2 with
  | Some a, Some b => Nat.eqb a b
  | None, None => true
  | _, _ => false
  end.

(** Attribute reads. *)
Definition left_of (b : bid) : M (option bid) := bd ← get b; mret (b_left bd).
Definition right_of (b : bid) : M (option bid) := bd ← get b; mret (b_right bd).
Definition size_of (b : bid) : M (option Z) := bd ← get b; mret (b_size bd).
Definition thickness_of (b : bid) : M (option Q) := bd ← get b; mret (b_thickness bd).
Definition is_terminal_of (b : bid) : M bool := bd ← get b; mret (b_is_terminal bd).
Definition orientation_of (b : bid) : M Z := bd ← get b; mret (b_orientation bd).
Definition layer_thickness_of (b : bid) : M (option Q) :=
  bd ← get b;
  match b_kind bd with
  | ElbowBundle => mret (b_layer_thickness bd)
  | StraightBundle => raise AttributeError
  end.
Definition inner_of (b : bid) : M (option bid) :=
  bd ← get b;
  match b_kind bd with
  | ElbowBundle => mret (b_inner bd)
  | StraightBundle => raise AttributeError
  end.
Definition point_of (b : bid) : M point :=
  bd ← get b;
  match b_kind bd, b_point bd with
  | ElbowBundle, Some p => mret p
  | _, _ => raise AttributeError
  end.
Definition kind_of (b : bid) : M kind := bd ← get b; mret (b_kind bd).

(** [is_connected_to]: the same body in both bundle classes. *)
Definition is_connected_to (b other : bid) : M bool :=
  bd ← get b;
  mret (ref_eqb (b_left bd) (Some other) || ref_eqb (b_right bd) (Some other)).

(** [next(prev)]: the same body in both bundle classes. *)
Definition next (b prev : bid) : M (option bid) :=
  c ← is_connected_to b prev;
  if negb c then raise (Exception "bundle is not connected") else
  bd ← get b;
  mret (if ref_eqb (b_left bd) (Some prev) then b_right bd else b_left bd).

(** [StraightBundle.is_associated_with(p)], with [or] short-circuiting. *)
Definition is_associated_with (sb : bid) (p : point) : M bool :=
  l ← left_of sb; l ← deref l; lp ← point_of l;
  if pt_is lp p then mret true else
  r ← right_of sb; r ← deref r; rp ← point_of r;
  mret (pt_is rp p).

(** Every [while] loop runs on a fuel bound; running out raises [OutOfFuel]
    (the Python loop would not have terminated, or would have run longer). *)
Section Structure.
Variable fuel : nat.

(** [x = self.inner; while x is not None: if x == target: ...; x = x.inner]:
    does the [inner] chain starting at [cur] reach [target]. *)
Fixpoint chain_contains (n : nat) (cur : option bid) (target : bid) : M bool :=
  match n with
  | O => raise OutOfFuel
  | S n' =>
      match cur with
      | None => mret false
      | Some c => if Nat.eqb c target then mret true else
                    i ← inner_of c; chain_contains n' i target
      end
  end.

(** [current.right.right if not revert else current.left.left]. *)
Definition step2 (c : bid) (revert : bool) : M bid :=
  if negb revert
  then (r ← right_of c; r ← deref r; r2 ← right_of r; deref r2)
  else (l ← left_of c; l ← deref l; l2 ← left_of l; deref l2).

(** [while current_self.point is current_eb.point: ...] *)
Fixpoint walk_pair (n : nat) (cs ce : bid) (rs re : bool) : M (bid * bid) :=
  match n with
  | O => raise OutOfFuel
  | S n' =>
      csp ← point_of cs; cep ← point_of ce;
      if pt_is csp cep
      then (cs' ← step2 cs rs; ce' ← step2 ce re; walk_pair n' cs' ce' rs re)
      else mret (cs, ce)
  end.

(** [ElbowBundle.is_closer_than(self, eb)]. *)
Definition elbow_is_closer_than (self eb : bid) : M bool :=
  sp ← point_of self; ep ← point_of eb;
  if negb (pt_is sp ep) then raise (Exception "different points") else
  ts ← is_terminal_of self;
  if (ts : bool) then mret true else
  te ← is_terminal_of eb;
  if (te : bool) then mret false else
  si ← inner_of self; c1 ← chain_contains fuel si eb;
  if (c1 : bool) then mret false else
  ei ← inner_of eb; c2 ← chain_contains fuel ei self;
  if (c2 : bool) then mret true else
  os ← orientation_of self; oe ← orientation_of eb;
  let rs := Z.eqb os 2 in
  let re := Z.eqb oe 2 in
  '(cs, ce) ← walk_pair fuel self eb rs re;
  ps ← step2 cs (negb rs); pe ← step2 ce (negb re);
  psp ← point_of ps; cep ← point_of ce;
  if pt_is psp cep
  then (po ← orientation_of ps; mret (if negb rs then Z.eqb po 2 else Z.eqb po 1))
  else
  pep ← point_of pe; csp ← point_of cs;
  if pt_is pep csp
  then (po ← orientation_of pe; mret (if negb re then Z.eqb po 1 else Z.eqb po 2))
  else
  if Z.eqb (orientation psp csp cep) 0
  then (po ← orientation_of ps;
        if (negb rs && Z.eqb po 1) || (rs && Z.eqb po 2)
        then mret (on_segment psp cep csp)
        else mret (on_segment psp csp cep))
  else mret (Z.eqb (orientation psp cep csp) 1).

(** [StraightBundle.is_closer_than(self, sb, p)]. *)
Definition straight_is_closer_than (self sb : bid) (p : point) : M bool :=
  a1 ← is_associated_with self p;
  if negb a1 then raise (Exception "not associated") else
  a2 ← is_associated_with sb p;
  if negb a2 then raise (Exception "not associated") else
  sl ← left_of self; sl ← deref sl; slp ← point_of sl;
  eb1 ← (if pt_is slp p then mret sl else (r ← right_of self; deref r));
  bl ← left_of sb; bl ← deref bl; blp ← point_of bl;
  eb2 ← (if pt_is blp p then mret bl else (r ← right_of sb; deref r));
  elbow_is_closer_than eb1 eb2.

(** [StraightBundle.has_same_orientation_as(self, sb)]. *)
Definition has_same_orientation_as (self sb : bid) : M bool :=
  bl ← left_of sb; bl ← deref bl; blp ← point_of bl;
  a1 ← is_associated_with self blp;
  a ← (if negb a1 then mret false else
         (br ← right_of sb; br ← deref br; brp ← point_of br; is_associated_with self brp));
  if negb a then raise (Exception "associated with different points") else
  sl ← left_of self; sl ← deref sl; slp ← point_of sl;
  mret (pt_is slp blp).

(** The loops that re-point the elbow bundles of an [inner] chain from
    [old] to [new]:
    [while e is not None and e.is_connected_to(old):
       if e.right == old: e.right = new else: e.left = new     (first_right)
       (or: if e.left == old: e.left = new else: e.right = new)
       e = e.inner] *)
Fixpoint repoint (n : nat) (first_right : bool) (cur : option bid) (old new : bid) : M unit :=
  match n with
  | O => raise OutOfFuel
  | S n' =>
      match cur with
      | None => mret tt
      | Some c =>
          conn ← is_connected_to c old;
          if negb conn then mret tt else
          bd ← get c;
          (if first_right
           then (if ref_eqb (b_right bd) (Some old) then modify c (set_right (Some new))
                 else modify c (set_left (Some new)))
           else (if ref_eqb (b_left bd) (Some old) then modify c (set_left (Some new))
                 else modify c (set_right (Some new))));;
          i ← inner_of c;
          repoint n' first_right i old new
      end
  end.

(** The same loop in [split] and [merge], where a terminal elbow bundle
    gets both sides re-pointed:
    [if e.is_terminal: e.left = new; e.right = new
     elif e.left == old: e.left = new else: e.right = new] *)
Fixpoint repoint_term (n : nat) (cur : option bid) (old new : bid) : M unit :=
  match n with
  | O => raise OutOfFuel
  | S n' =>
      match cur with
      | None => mret tt
      | Some c =>
          conn ← is_connected_to c old;
          if negb conn then mret tt else
          bd ← get c;
          (if b_is_terminal bd
           then (modify c (set_left (Some new));; modify c (set_right (Some new)))
           else if ref_eqb (b_left bd) (Some old) then modify c (set_left (Some new))
           else modify c (set_right (Some new)));;
          i ← inner_of c;
          repoint_term n' i old new
      end
  end.

(** [CompactRoutingStructure.union(x, y)]. The recursive calls of [union]
    from its own loops are bounded by [depth]. *)
Fixpoint union (depth : nat) (x y : bid) : M unit :=
  match depth with
  | O => raise OutOfFuel
  | S d =>
  (* Check to see if two elbows next to x must merge:
     [while e.is_connected_to(x) and e_inner.is_connected_to(x)
            and not e_inner.is_terminal:
        if e.next(x) == e_inner.next(x): self.union(e, e_inner)
        else: e = e_inner
        e_inner = e.inner] *)
  let fix unite_loop (n : nat) (e : bid) (e_inner : option bid) : M unit :=
    match n with
    | O => raise OutOfFuel
    | S n' =>
        c1 ← is_connected_to e x;
        go ← (if (c1 : bool) then
                (ei ← deref e_inner; c2 ← is_connected_to ei x;
                 if (c2 : bool) then (t ← is_terminal_of ei; mret (negb t)) else mret false)
              else mret false);
        if negb go then mret tt else
        ei ← deref e_inner;
        n1 ← next e x; n2 ← next ei x;
        e' ← (if ref_eqb n1 n2 then (union d e ei;; mret e) else mret ei);
        ei' ← inner_of e';
        unite_loop n' e' ei'
    end in
  kx ← kind_of x; ky ← kind_of y;
  if negb (kind_eqb kx ky) then raise (Exception "Cannot union") else
  tx ← is_terminal_of x;
  ty ← (if (tx : bool) then mret true else is_terminal_of y);
  if (ty : bool) then mret tt else
  xs ← size_of x; xs ← req xs; ys ← size_of y; ys ← req ys;
  modify x (set_size (Some (xs + ys)%Z));;
  xt ← thickness_of x; xt ← req xt; yt ← thickness_of y; yt ← req yt;
  modify x (set_thickness (Some (xt + yt)));;
  match kx with
  | StraightBundle =>
      (* Set left of x *)
      xl ← left_of x; xl ← deref xl; xlp ← point_of xl;
      c ← straight_is_closer_than x y xlp;
      (if (c : bool) then
         (same ← has_same_orientation_as x y;
          v ← (if (same : bool) then left_of y else right_of y);
          modify x (set_left v))
       else mret tt);;
      (* Set right of x *)
      xr ← right_of x; xr ← deref xr; xrp ← point_of xr;
      c' ← straight_is_closer_than x y xrp;
      (if (c' : bool) then
         (same ← has_same_orientation_as x y;
          v ← (if (same : bool) then right_of y else left_of y);
          modify x (set_right v))
       else mret tt);;
      (* Update the elbow bundles referencing y to reference x *)
      yl ← left_of y; repoint fuel true yl y x;;
      yr ← right_of y; repoint fuel false yr y x;;
      (* Check to see if two elbows on the left must merge *)
      el ← left_of x; el ← deref el; eli ← inner_of el;
      tl ← is_terminal_of el;
      (if (tl : bool) then mret tt else unite_loop fuel el eli);;
      (* Check to see if two elbows on the right must merge *)
      er ← right_of x; er ← deref er; eri ← inner_of er;
      tr ← is_terminal_of er;
      (if (tr : bool) then mret tt else unite_loop fuel er eri);;
      remove_straight y
  | ElbowBundle =>
      c ← elbow_is_closer_than y x;
      (if (c : bool) then
         (yi ← inner_of y; modify x (set_inner yi);;
          ylt ← layer_thickness_of y; modify x (set_layer_thickness ylt))
       else
         (sbl ← left_of y; sbl ← deref sbl; sblr ← right_of sbl;
          (if ref_eqb sblr (Some y) then modify sbl (set_right (Some x))
           else modify sbl (set_left (Some x)));;
          sbr ← right_of y; sbr ← deref sbr; sbrl ← left_of sbr;
          (if ref_eqb sbrl (Some y) then modify sbr (set_left (Some x))
           else modify sbr (set_right (Some x)))));;
      remove_elbow y
  end
  end.

End Structure.

Section Mutations.
Variable fuel depth : nat.

(** [StraightBundle.get_backbone_endpoints(t)]: trigonometric geometry
    (cos, sin, asin, atan2), a read-only query of the current heap. *)
Variable get_backbone_endpoints : State -> bid -> Q -> point * point.

Definition backbone (sb : bid) (t : Q) : M (point * point) :=
  fun s => Ret (get_backbone_endpoints s sb t) s.

(** [CompactRoutingStructure.split(sb, x, t)]. *)
Definition split (sb x : bid) (t : Q) : M (bid * bid * bid) :=
  sbd ← get sb; sb2 ← alloc sbd; append_straight sb2;;
  eb ← alloc new_elbow; append_elbow eb;;
  '(p1, p2) ← backbone sb t;
  xp ← point_of x;
  (if Z.eqb (orientation xp p1 p2) 1
   then (modify sb (set_right (Some eb));; modify sb2 (set_left (Some eb)))
   else (modify sb (set_left (Some eb));; modify sb2 (set_right (Some eb))));;
  n1 ← next sb eb; n1 ← deref n1; t1 ← is_terminal_of n1;
  modify sb (set_is_terminal t1);;
  n2 ← next sb2 eb; n2 ← deref n2; t2 ← is_terminal_of n2;
  modify sb2 (set_is_terminal t2);;
  xp' ← point_of x; modify eb (set_point (Some xp'));;
  modify eb (set_left (Some sb));;
  modify eb (set_right (Some sb2));;
  modify eb (set_inner (Some x));;
  sz ← size_of sb; modify eb (set_size sz);;
  th ← thickness_of sb; modify eb (set_thickness th);;
  xt ← is_terminal_of x;
  xlt ← layer_thickness_of x; xlt ← req xlt; xth ← thickness_of x; xth ← req xth;
  modify eb (set_layer_thickness (Some (if (xt : bool) then xlt + xth / 2 else xlt + xth)));;
  (* Update the elbow bundles on the right to point to sb2 *)
  er ← next sb2 eb; repoint_term fuel er sb sb2;;
  xt' ← is_terminal_of x;
  (if (xt' : bool) then mret tt else
     (xl ← left_of x; xl ← deref xl; elx ← next xl x; elx ← deref elx; elxp ← point_of elx;
      a ← is_associated_with sb elxp;
      (if (a : bool) then (xl' ← left_of x; xl' ← deref xl'; union fuel depth sb xl') else mret tt);;
      xr ← right_of x; xr ← deref xr; erx ← next xr x; erx ← deref erx; erxp ← point_of erx;
      a' ← is_associated_with sb2 erxp;
      (if (a' : bool) then (xr' ← right_of x; xr' ← deref xr'; union fuel depth sb2 xr') else mret tt)));;
  mret (sb, eb, sb2).

(** [while size < target.size: eb_next = eb_next.inner; size += ...;
    thickness += ...] (the first loop of [divide]). *)
Fixpoint divide_grow (n : nat) (target en : bid) (size : option Z) (th : option Q)
  : M (bid * option Z * option Q) :=
  match n with
  | O => raise OutOfFuel
  | S n' =>
      sz ← req size; ts ← size_of target; ts ← req ts;
      if Z.ltb sz ts then
        (i ← inner_of en; i ← deref i;
         isz ← size_of i; isz ← req isz;
         th0 ← req th; ith ← thickness_of i; ith ← req ith;
         divide_grow n' target i (Some (sz + isz)%Z) (Some (th0 + ith)))
      else mret (en, size, th)
  end.

(** The second loop of [divide], which also re-points each passed elbow
    bundle from [sb] to [sb2]. *)
Fixpoint divide_grow_repoint (n : nat) (sb sb2 en : bid) (size : option Z) (th : option Q)
  : M (bid * option Z * option Q) :=
  match n with
  | O => raise OutOfFuel
  | S n' =>
      sz ← req size; ts ← size_of sb2; ts ← req ts;
      if Z.ltb sz ts then
        (enl ← left_of en;
         (if ref_eqb enl (Some sb) then modify en (set_left (Some sb2))
          else modify en (set_right (Some sb2)));;
         i ← inner_of en; i ← deref i;
         isz ← size_of i; isz ← req isz;
         th0 ← req th; ith ← thickness_of i; ith ← req ith;
         divide_grow_repoint n' sb sb2 i (Some (sz + isz)%Z) (Some (th0 + ith)))
      else mret (en, size, th)
  end.

(** [if size > target.size: eb_new = copy.copy(eb_next); ...]: the
    elbow bundle [en] is cut so that its size matches [target]. *)
Definition divide_cut (target en : bid) (size : option Z) (th : option Q) : M unit :=
  sz ← req size; ts ← size_of target; ts ← req ts;
  if Z.ltb ts sz then
    (end_ ← get en; enew ← alloc end_; append_elbow enew;;
     modify en (set_inner (Some enew));;
     modify enew (set_size (Some (sz - ts)%Z));;
     th0 ← req th; tt_ ← thickness_of target; tt_ ← req tt_;
     modify enew (set_thickness (Some (th0 - tt_)));;
     es ← size_of en; es ← req es; ns ← size_of enew; ns ← req ns;
     modify en (set_size (Some (es - ns)%Z));;
     et ← thickness_of en; et ← req et; nt ← thickness_of enew; nt ← req nt;
     modify en (set_thickness (Some (et - nt)));;
     nl ← layer_thickness_of enew; nl ← req nl; nt' ← thickness_of enew; nt' ← req nt';
     modify en (set_layer_thickness (Some (nl + nt'))))
  else mret tt.

(** [CompactRoutingStructure.divide(sb, eb)]. *)
Definition divide (sb eb : bid) : M unit :=
  sbd ← get sb; sb2 ← alloc sbd; append_straight sb2;;
  (* Connect sb2 to the inner elbow bundle of eb *)
  sb2r ← right_of sb2; ebi ← inner_of eb;
  (if ref_eqb sb2r (Some eb) then modify sb2 (set_right ebi) else modify sb2 (set_left ebi));;
  ebi' ← inner_of eb; repoint fuel false ebi' sb sb2;;
  es ← size_of eb; modify sb (set_size es);;
  et ← thickness_of eb; modify sb (set_thickness et);;
  s2 ← size_of sb2; s2 ← req s2; s1 ← size_of sb; s1 ← req s1;
  modify sb2 (set_size (Some (s2 - s1)%Z));;
  t2 ← thickness_of sb2; t2 ← req t2; t1 ← thickness_of sb; t1 ← req t1;
  modify sb2 (set_thickness (Some (t2 - t1)));;
  en ← next sb eb; en ← deref en;
  size ← size_of en; th ← thickness_of en;
  ebl ← left_of eb; enr ← right_of en;
  let dir_eb := ref_eqb ebl (Some sb) in
  let dir_eb_next := ref_eqb enr (Some sb) in
  if Bool.eqb dir_eb dir_eb_next then
    ('(en', size', th') ← divide_grow fuel sb en size th;
     divide_cut sb en' size' th';;
     en2 ← inner_of en';
     sb2r' ← right_of sb2; ebi2 ← inner_of eb;
     (if ref_eqb sb2r' ebi2 then modify sb2 (set_left en2) else modify sb2 (set_right en2));;
     repoint fuel true en2 sb sb2)
  else
    ('(en', size', th') ← divide_grow_repoint fuel sb sb2 en size th;
     divide_cut sb2 en' size' th';;
     enl ← left_of en';
     (if ref_eqb enl (Some sb) then modify en' (set_left (Some sb2))
      else modify en' (set_right (Some sb2)));;
     en2 ← inner_of en';
     sbl ← left_of sb;
     (if ref_eqb sbl (Some eb) then modify sb (set_right en2) else modify sb (set_left en2))).

(** [CompactRoutingStructure.merge(sb1, eb, sb2)]. *)
Definition merge (sb1 eb sb2 : bid) : M bid :=
  c1 ← is_connected_to sb1 eb;
  if negb c1 then raise (Exception "Straight bundle is not connected to elbow bundle") else
  c2 ← is_connected_to sb2 eb;
  if negb c2 then raise (Exception "Straight bundle is not connected to elbow bundle") else
  s1 ← size_of sb1; s1 ← req s1; se ← size_of eb; se ← req se;
  (if Z.ltb se s1 then divide sb1 eb else mret tt);;
  s2 ← size_of sb2; s2 ← req s2; se' ← size_of eb; se' ← req se';
  (if Z.ltb se' s2 then divide sb2 eb else mret tt);;
  er ← next sb2 eb;
  r1 ← right_of sb1;
  (if ref_eqb r1 (Some eb) then modify sb1 (set_right er) else modify sb1 (set_left er));;
  t1 ← is_terminal_of sb1;
  t ← (if (t1 : bool) then mret true else is_terminal_of sb2);
  modify sb1 (set_is_terminal t);;
  repoint_term fuel er sb2 sb1;;
  remove_elbow eb;;
  remove_straight sb2;;
  mret sb1.

(** [while eb_right.inner.is_connected_to(b): eb_right = eb_right.inner]. *)
Fixpoint innermost_connected (n : nat) (er b : bid) : M bid :=
  match n with
  | O => raise OutOfFuel
  | S n' =>
      i ← inner_of er; i ← deref i; c ← is_connected_to i b;
      if (c : bool) then innermost_connected n' i b else mret er
  end.

(** Python's [x.size == 1] ([None == 1] is [False]). *)
Definition size_is_one (o : option Z) : bool :=
  match o with Some z => Z.eqb z 1 | None => false end.

(** [CompactRoutingStructure.tear(b)]. *)
Definition tear (b : bid) : M unit :=
  bs ← size_of b;
  if size_is_one bs then mret tt else
  c ← alloc new_straight; append_straight c;;
  modify c (set_size (Some 1%Z));;
  bs' ← size_of b; bs' ← req bs'; modify b (set_size (Some (bs' - 1)%Z));;
  el ← left_of b; er ← right_of b;
  el ← deref el; elr ← right_of el; let dir_eb_left := ref_eqb elr (Some b) in
  er ← deref er; erl ← left_of er; let dir_eb_right := ref_eqb erl (Some b) in
  (* Let eb_left become the outermost left elbow and attach to c *)
  modify c (set_left (Some el));;
  elr' ← right_of el;
  (if ref_eqb elr' (Some b) then modify el (set_right (Some c)) else modify el (set_left (Some c)));;
  els ← size_of el;
  (if size_is_one els
   then (eli ← inner_of el; modify b (set_left eli))
   else (eld ← get el; ei ← alloc eld; append_elbow ei;;
         modify el (set_size (Some 1%Z));;
         eis ← size_of ei; eis ← req eis; modify ei (set_size (Some (eis - 1)%Z));;
         modify el (set_inner (Some ei));;
         modify b (set_left (Some ei));;
         eir ← right_of ei;
         (if ref_eqb eir (Some c) then modify ei (set_right (Some b))
          else modify ei (set_left (Some b)))));;
  if Bool.eqb dir_eb_left dir_eb_right then
    (* c's right elbow is also outermost *)
    (modify c (set_right (Some er));;
     erl' ← left_of er;
     (if ref_eqb erl' (Some b) then modify er (set_left (Some c)) else modify er (set_right (Some c)));;
     ers ← size_of er;
     if size_is_one ers
     then (eri ← inner_of er; modify b (set_right eri))
     else (erd ← get er; ei ← alloc erd; append_elbow ei;;
           modify er (set_size (Some 1%Z));;
           eis ← size_of ei; eis ← req eis; modify ei (set_size (Some (eis - 1)%Z));;
           modify er (set_inner (Some ei));;
           modify b (set_right (Some ei));;
           eil ← left_of ei;
           (if ref_eqb eil (Some c) then modify ei (set_left (Some b))
            else modify ei (set_right (Some b)))))
  else
    (* c's right elbow is innermost *)
    (er' ← innermost_connected fuel er b;
     ers ← size_of er';
     ei ← (if size_is_one ers then mret er'
           else (erd ← get er'; ei ← alloc erd; append_elbow ei;;
                 modify ei (set_size (Some 1%Z));;
                 es ← size_of er'; es ← req es; modify er' (set_size (Some (es - 1)%Z));;
                 modify er' (set_inner (Some ei));;
                 mret ei));
     modify c (set_right (Some ei));;
     eil ← left_of ei;
     (if ref_eqb eil (Some b) then modify ei (set_left (Some c)) else modify ei (set_right (Some c)))).

(** [while sb.size > 1: self.tear(sb)]. *)
Fixpoint tear_down (n : nat) (sb : bid) : M unit :=
  match n with
  | O => raise OutOfFuel
  | S n' =>
      s ← size_of sb; s ← req s;
      if Z.ltb 1 s then (tear sb;; tear_down n' sb) else mret tt
  end.

Fixpoint tear_all (l : list bid) : M unit :=
  match l with
  | [] => mret tt
  | sb :: l' => tear_down fuel sb;; tear_all l'
  end.

(** [while not current_bundle.is_terminal: current_bundle.thickness =
    edge.thickness; ...] along one edge. *)
Fixpoint reset_edge (n : nat) (th : Q) (prev cur : bid) : M unit :=
  match n with
  | O => raise OutOfFuel
  | S n' =>
      t ← is_terminal_of cur;
      if (t : bool) then mret tt else
      modify cur (set_thickness (Some th));;
      nx ← next cur prev; nx ← deref nx;
      reset_edge n' th cur nx
  end.

Fixpoint reset_thickness (es : list (bid * Q)) : M unit :=
  match es with
  | [] => mret tt
  | (v1, th) :: es' =>
      prev ← right_of v1; prev ← deref prev;
      cur ← right_of prev; cur ← deref cur;
      reset_edge fuel th prev cur;;
      reset_thickness es'
  end.

(** [while eb_inner is not None: layer_thickness += ...]. *)
Fixpoint sum_layers (n : nat) (i : option bid) (acc : Q) : M Q :=
  match n with
  | O => raise OutOfFuel
  | S n' =>
      match i with
      | None => mret acc
      | Some e =>
          it ← is_terminal_of e; th ← thickness_of e; th ← req th;
          i' ← inner_of e;
          sum_layers n' i' (acc + (if (it : bool) then th / 2 else th))
      end
  end.

Fixpoint reset_layers (l : list bid) : M unit :=
  match l with
  | [] => mret tt
  | eb :: l' =>
      i ← inner_of eb; lt ← sum_layers fuel i 0;
      modify eb (set_layer_thickness (Some lt));;
      reset_layers l'
  end.

Definition get_state : M State := fun s => Ret s s.

(** [CompactRoutingStructure.unzip()]. *)
Definition unzip : M unit :=
  s ← get_state;
  tear_all (straight_bundles s);;
  s' ← get_state;
  reset_thickness (edges s');;
  s'' ← get_state;
  reset_layers (elbow_bundles s'').

End Mutations.

(** [CompactRoutingStructure.__contains__(bundle)]. *)
Definition contains (s : State) (b : bid) : bool :=
  match store s !! b with
  | Some bd => match b_kind bd with
               | StraightBundle => bool_decide (b ∈ straight_bundles s)
               | ElbowBundle => bool_decide (b ∈ elbow_bundles s)
               end
  | None => false
  end.

(* ------------------------------------------------------------------ *)
(** ** growing_algorithm.py *)

Section Growing.
Variable fuel depth : nat.
Variable get_backbone_endpoints : State -> bid -> Q -> point * point.
(** [self.dt]. *)
Variable dt : Q.
(** [b.splits(bundle, t)] and [b.merges(t)] evaluated on the current heap:
    the geometric predicates ([ElbowBundle.splits], [ElbowBundle.merges]). *)
Variable splits_at : State -> bid -> bid -> Q -> bool.
Variable merges_at : State -> bid -> Q -> bool.

(** The sample times [t + dt], [t + dt + dt], ... as the loops compute them. *)
Definition sample (t : Q) (k : nat) : Q := Nat.iter k (fun c => c + dt) (t + dt).

(** [while current_t <= limit: if p(current_t): ... break
    else: current_t += dt]. [None]: fuel exhausted; [Some None]: the loop
    ended without finding a true sample; [Some (Some c)]: [p c] was true. *)
Fixpoint scan (n : nat) (p : Q -> bool) (limit current_t : Q) : option (option Q) :=
  match n with
  | O => None
  | S n' =>
      if Qle_bool current_t limit
      then (if p current_t then Some (Some current_t) else scan n' p limit (current_t + dt))
      else Some None
  end.

(** [b.is_connected_to(bundle)] read off the heap. *)
Definition connected (s : State) (b other : bid) : bool :=
  match store s !! b with
  | Some bd => ref_eqb (b_left bd) (Some other) || ref_eqb (b_right bd) (Some other)
  | None => false
  end.

Definition is_straight (s : State) (b : bid) : bool :=
  match store s !! b with Some bd => kind_eqb (b_kind bd) StraightBundle | None => false end.

(** The first loop of [compute_next_split_event]: for each candidate
    bundle, sample forward until it splits with [b] or the current best
    time is passed; collects [(next_split_bundles, next_split_time)]. *)
Fixpoint find_split_bundles (s : State) (b : bid) (t : Q) (cands : list bid)
  (acc : list bid * Q) : option (list bid * Q) :=
  match cands with
  | [] => Some acc
  | bundle :: cands' =>
      if connected s b bundle then find_split_bundles s b t cands' acc else
      let '(nsb, nst) := acc in
      match scan fuel (splits_at s b bundle) nst (t + dt) with
      | None => None
      | Some None => find_split_bundles s b t cands' acc
      | Some (Some c) =>
          let acc' := if Qltb c nst then ([bundle], c) else (nsb ++ [bundle], nst) in
          find_split_bundles s b t cands' acc'
      end
  end.

(** The second loop: refine each found bundle by [binary_search] and keep
    the first with the smallest refined time ([new_t <= first_t]). *)
Fixpoint pick_split_bundle (s : State) (b : bid) (nst : Q) (l : list bid)
  (acc : option bid * Q) : option bid * Q :=
  match l with
  | [] => acc
  | bundle :: l' =>
      let new_t := binary_search dt nst 100 (splits_at s b bundle) in
      let acc' := if Qle_bool new_t (snd acc) then (Some bundle, new_t) else acc in
      pick_split_bundle s b nst l' acc'
  end.

(** [compute_next_split_event()]; the outer [option] is fuel. *)
Definition compute_next_split_event (s : State) (b : bid) (t : Q) : option (option event) :=
  let split_bundles := if is_straight s b then elbow_bundles s else straight_bundles s in
  match find_split_bundles s b t split_bundles ([], 1) with
  | None => None
  | Some (nsb, nst) =>
      match nsb with
      | [] => Some None
      | _ =>
          let '(nb, first_t) := pick_split_bundle s b nst nsb (None, nst) in
          match nb with
          | Some nb => Some (Some (if is_straight s b then SplitEvent first_t b nb
                                   else SplitEvent first_t nb b))
          | None => Some None
          end
      end
  end.

(** [compute_next_merge_event()]. *)
Definition compute_next_merge_event (s : State) (b : bid) (t : Q) : option (option event) :=
  match scan fuel (merges_at s b) 1 (t + dt) with
  | None => None
  | Some None => Some None
  | Some (Some c) => Some (Some (MergeEvent (binary_search dt c 100 (merges_at s b)) b))
  end.

(** [PriorityQueue.put]: the queue as the collection of its events. *)
Definition put (q : list event) (e : option event) : list event :=
  match e with Some e => q ++ [e] | None => q end.

(** [GrowingAlgorithm.update_queue(b, t)]; [None] when a sampling loop
    runs out of fuel. *)
Definition update_queue (s : State) (q : list event) (b : bid) (t : Q) : option (list event) :=
  match compute_next_split_event s b t with
  | None => None
  | Some se =>
      let q1 := put q se in
      match store s !! b with
      | Some bd =>
          if kind_eqb (b_kind bd) ElbowBundle && negb (b_is_terminal bd) then
            match compute_next_merge_event s b t with
            | None => None
            | Some me => Some (put q1 me)
            end
          else Some q1
      | None => Some q1
      end
  end.

(** [for b in bs: self.update_queue(b, t)], optionally only for the
    bundles still in the structure. *)
Fixpoint update_all (only_present : bool) (s : State) (q : list event) (bs : list bid) (t : Q)
  : option (list event) :=
  match bs with
  | [] => Some q
  | b :: bs' =>
      if negb only_present || contains s b
      then match update_queue s q b t with
           | Some q' => update_all only_present s q' bs' t
           | None => None
           end
      else update_all only_present s q bs' t
  end.

(** [event.is_valid()]. *)
Definition is_valid (s : State) (e : event) : bool :=
  match e with
  | SplitEvent t sb eb => splits_at s eb sb t
  | MergeEvent t eb => merges_at s eb t
  end.

Inductive step_result :=
| Stepped (s : State) (q : list event)
| StepRaised (e : exn) (s : State)
| StepDiverged.

Definition of_queue (s : State) (oq : option (list event)) : step_result :=
  match oq with Some q => Stepped s q | None => StepDiverged end.

(** The body of the [while not self.queue.empty()] loop of
    [compute_thick_edges], after [event = self.queue.get()] has removed
    [e] from the queue, leaving [q]. *)
Definition handle_event (s : State) (q : list event) (e : event) : step_result :=
  if existsb (fun b => negb (contains s b)) (ev_bundles e) || negb (is_valid s e) then
    of_queue s (update_all true s q (ev_bundles e) (ev_time e))
  else
    match e with
    | SplitEvent t sb eb =>
        match split fuel depth get_backbone_endpoints sb eb t s with
        | Ret (sb1, eb', sb2) s' => of_queue s' (update_all false s' q [eb; sb1; eb'; sb2] t)
        | Raise x s' => StepRaised x s'
        end
    | MergeEvent t eb =>
        match (l ← left_of eb; l ← deref l; r ← right_of eb; r ← deref r; merge fuel l eb r) s with
        | Ret sb s' => of_queue s' (update_all false s' q [sb] t)
        | Raise x s' => StepRaised x s'
        end
    end.

End Growing.

(* ------------------------------------------------------------------ *)
(** ** A small concrete structure *)

(** One edge from a terminal at (0,0) to a terminal at (4,0), and a point
    obstacle at (2,1): the terminal elbow bundles 0 and 1, the straight
    bundle 2 between them, and the obstacle's terminal elbow bundle 3
    (obstacle elbows have no adjacent straight bundle and thickness 0). *)
Definition p_a : point := mkPoint 0 0 0.
Definition p_b : point := mkPoint 1 4 0.
Definition p_x : point := mkPoint 2 2 1.

Definition ex_store : gmap bid bundle :=
  <[0%nat := mkBundle ElbowBundle (Some p_a) (Some 2%nat) (Some 2%nat) None (Some 1%Z) (Some 1) (Some 0) true 0]>
  (<[1%nat := mkBundle ElbowBundle (Some p_b) (Some 2%nat) (Some 2%nat) None (Some 1%Z) (Some 1) (Some 0) true 0]>
  (<[2%nat := mkBundle StraightBundle None (Some 0%nat) (Some 1%nat) None (Some 1%Z) (Some 1) None true 0]>
  (<[3%nat := mkBundle ElbowBundle (Some p_x) None None None (Some 1%Z) (Some 0) (Some 0) true 0]> ∅))).

Definition ex_state : State := mkState ex_store [2%nat] [0%nat; 1%nat; 3%nat] 4%nat [(0%nat, 1)].

(** Two parallel edges of a drawing, A-B and C-D, as non-terminal straight
    bundles 4 and 5 between the elbow bundles 0, 1 and 2, 3. *)
Definition p_c : point := mkPoint 3 0 4.
Definition p_d : point := mkPoint 4 4 4.

Definition bend (p : point) (sb : bid) : bundle :=
  mkBundle ElbowBundle (Some p) (Some sb) (Some sb) None (Some 1%Z) (Some 1) (Some 0) false 1.
Definition seg (l r : bid) : bundle :=
  mkBundle StraightBundle None (Some l) (Some r) None (Some 1%Z) (Some 1) None false 0.

Definition ex2_store : gmap bid bundle :=
  <[0%nat := bend p_a 4%nat]> (<[1%nat := bend p_b 4%nat]>
  (<[2%nat := bend p_c 5%nat]> (<[3%nat := bend p_d 5%nat]>
  (<[4%nat := seg 0%nat 1%nat]> (<[5%nat := seg 2%nat 3%nat]> ∅))))).

Definition ex2_state : State :=
  mkState ex2_store [4%nat; 5%nat] [0%nat; 1%nat; 2%nat; 3%nat] 6%nat [].

(** One straight bundle of size 2 between two terminal elbow bundles of
    size 2, carrying two edges. *)
Definition ex3_store : gmap bid bundle :=
  <[0%nat := mkBundle ElbowBundle (Some p_a) (Some 2%nat) (Some 2%nat) None (Some 2%Z) (Some 5) (Some 0) true 0]>
  (<[1%nat := mkBundle ElbowBundle (Some p_b) (Some 2%nat) (Some 2%nat) None (Some 2%Z) (Some 5) (Some 0) true 0]>
  (<[2%nat := mkBundle StraightBundle None (Some 0%nat) (Some 1%nat) None (Some 2%Z) (Some 5) None false 0]> ∅)).

Definition ex3_state : State :=
  mkState ex3_store [2%nat] [0%nat; 1%nat] 3%nat [(0%nat, 2); (0%nat, 3)].

(** Two nested non-terminal elbow bundles at the point A: bundle 1 is
    the [inner] bundle of bundle 0. *)
Definition ex4_store : gmap bid bundle :=
  <[0%nat := mkBundle ElbowBundle (Some p_a) None None (Some 1%nat) (Some 1%Z) (Some 1) (Some 1) false 1]>
  (<[1%nat := mkBundle ElbowBundle (Some p_a) None None None (Some 1%Z) (Some 1) (Some 0) false 1]> ∅).

Definition ex4_state : State := mkState ex4_store [] [0%nat; 1%nat] 2%nat [].

(** A split predicate that reports a split from time 1/2 on. *)
Definition splits_after_half (s : State) (a b : bid) (t : Q) : bool := Qle_bool (1 # 2) t.

(** [get_backbone_endpoints] for a straight bundle whose two elbow bundles
    are terminal: no offset is applied, the backbone runs between the two
    points themselves. *)
Definition terminal_backbone (s : State) (sb : bid) (t : Q) : point * point :=
  let pt_of (o : option bid) :=
    match o with
    | Some e => match store s !! e with
                | Some bd => match b_point bd with Some p => p | None => p_a end
                | None => p_a
                end
    | None => p_a
    end in
  match store s !! sb with
  | Some bd => (pt_of (b_left bd), pt_of (b_right bd))
  | None => (p_a, p_a)
  end.

(** The [size] and [thickness] a bundle contributes to a sum ([None]
    counts 0). *)
Definition size_at (s : State) (b : bid) : Z :=
  match store s !! b with
  | Some bd => match b_size bd with Some z => z | None => 0%Z end
  | None => 0%Z
  end.
Definition thick_at (s : State) (b : bid) : Q :=
  match store s !! b with
  | Some bd => match b_thickness bd with Some q => q | None => 0 end
  | None => 0
  end.

(** Sums of [size] and [thickness] over the live bundles. *)
Definition sum_size (s : State) (l : list bid) : Z :=
  foldr (fun b acc => (size_at s b + acc)%Z) 0%Z l.
Definition sum_thickness (s : State) (l : list bid) : Q :=
  foldr (fun b acc => thick_at s b + acc) 0 l.

Definition total_size (s : State) : Z :=
  (sum_size s (straight_bundles s) + sum_size s (elbow_bundles s))%Z.
Definition total_thickness (s : State) : Q :=
  sum_thickness s (straight_bundles s) + sum_thickness s (elbow_bundles s).

(** The fields that the sums read, and the terminal flag, as views of
    the heap. *)
Definition szv (s : State) (b : bid) : option (option Z) := b_size <$> store s !! b.
Definition thv (s : State) (b : bid) : option (option Q) := b_thickness <$> store s !! b.
Definition tmv (s : State) (b : bid) : option bool := b_is_terminal <$> store s !! b.

(** A heap change that touches no [size] or [thickness], not the terminal
    flag of [x], and neither list of live bundles. *)
Definition tame (x : bid) (s s' : State) : Prop :=
  (forall b, szv s' b = szv s b /\ thv s' b = thv s b) /\ tmv s' x = tmv s x /\
  straight_bundles s' = straight_bundles s /\ elbow_bundles s' = elbow_bundles s.

Definition tame_m {A} (x : bid) (m : M A) : Prop :=
  forall s a s', m s = Ret a s' -> tame x s s'.

(** Partial correctness of a computation that returns normally. *)
Definition run_to {A} (m : M A) (P : State -> Prop) (R : A -> State -> Prop) : Prop :=
  forall s a s', P s -> m s = Ret a s' -> R a s'.

Definition stable (x : bid) (P : State -> Prop) : Prop :=
  forall s s', tame x s s' -> P s -> P s'.

(* ------------------------------------------------------------------ *)
(** ** Views of the structure used for [unzip] *)

(** Objects are allocated at [next_id]; from there up nothing is stored. *)
Definition fresh_ids (s : State) : Prop :=
  forall k : bid, (next_id s <= k)%nat -> store s !! k = None.

(** A bundle holding at most one segment. *)
Definition small_at (s : State) (b : bid) : Prop :=
  exists z, szv s b = Some (Some z) /\ (z <= 1)%Z.

(** A step of the tear phase: freshness is kept, bundles of at most one
    segment stay so, every straight bundle listed afterwards was listed
    before or has at most one segment, and the edges are kept. *)
Definition teared (s s' : State) : Prop :=
  fresh_ids s' /\ (forall c, small_at s c -> small_at s' c) /\
  (forall b, In b (straight_bundles s') -> In b (straight_bundles s) \/ small_at s' b) /\
  edges s' = edges s.

(** A computation every normal return of which is such a step. *)
Definition mono_m {A} (m : M A) : Prop :=
  forall s a s', fresh_ids s -> m s = Ret a s' -> teared s s'.

(** Computations that only read. *)
Definition pure_m {A} (m : M A) : Prop :=
  forall s a s', m s = Ret a s' -> s' = s.

(** A bundle with its thickness, or its layer thickness, or both, blanked. *)
Definition strip_t (bd : bundle) : bundle := set_thickness None bd.
Definition strip_l (bd : bundle) : bundle := set_layer_thickness None bd.
Definition strip_tl (bd : bundle) : bundle := set_thickness None (set_layer_thickness None bd).

(** One field of the bundle stored at [b]. *)
Definition fv {X} (fld : bundle -> X) (s : State) (b : bid) : option X := fld <$> store s !! b.

(** Two structures that differ at most in the fields [f] blanks. *)
Definition agree (f : bundle -> bundle) (s1 s2 : State) : Prop :=
  straight_bundles s1 = straight_bundles s2 /\ elbow_bundles s1 = elbow_bundles s2 /\
  next_id s1 = next_id s2 /\ edges s1 = edges s2 /\
  forall k : bid, f <$> store s1 !! k = f <$> store s2 !! k.

(** [m] only reads fields [f] keeps. *)
Definition reader {A} (f : bundle -> bundle) (m : M A) : Prop :=
  forall s1 s2 v s1', agree f s1 s2 -> m s1 = Ret v s1' -> s1' = s1 /\ m s2 = Ret v s2.

(** [m] only reads fields [f] keeps and only writes fields [f] blanks;
    after running on two structures that agree, the field [fld] of each
    bundle has been written alike on both, or left as it was on both. *)
Definition sim {A X} (f : bundle -> bundle) (fld : bundle -> X) (m : M A) : Prop :=
  forall s1 s2 v s1', agree f s1 s2 -> m s1 = Ret v s1' ->
  exists s2', m s2 = Ret v s2' /\ agree f s1' s2' /\
  forall b : bid, fv fld s2' b = fv fld s1' b \/ (fv fld s1' b = fv fld s1 b /\ fv fld s2' b = fv fld s2 b).

(** [m] writes only fields [f] blanks. *)
Definition pres {A} (f : bundle -> bundle) (m : M A) : Prop :=
  forall s v s', m s = Ret v s' -> agree f s s'.

(** The [unite_loop] that [union] runs at recursion depth [d] (the local
    [fix] of [union], named). *)
Definition unite_loop (fuel d : nat) (x : bid) :=
  fix unite_loop (n : nat) (e : bid) (e_inner : option bid) : M unit :=
    match n with
    | O => raise OutOfFuel
    | S n' =>
        c1 ← is_connected_to e x;
        go ← (if (c1 : bool) then
                (ei ← deref e_inner; c2 ← is_connected_to ei x;
                 if (c2 : bool) then (t ← is_terminal_of ei; mret (negb t)) else mret false)
              else mret false);
        if negb go then mret tt else
        ei ← deref e_inner;
        n1 ← next e x; n2 ← next ei x;
        e' ← (if ref_eqb n1 n2 then (union fuel d e ei;; mret e) else mret ei);
        ei' ← inner_of e';
        unite_loop n' e' ei'
    end.

(** The structure a computation leaves behind, whether it returns or raises. *)
Definition out_state {A} (o : outcome A) : State :=
  match o with Ret _ s => s | Raise _ s => s end.

(** Sizes and thicknesses, where set, are non-negative. *)
Definition nonneg (s : State) : Prop :=
  forall b bd, store s !! b = Some bd ->
    (forall z, b_size bd = Some z -> (0 <= z)%Z) /\ (forall q, b_thickness bd = Some q -> 0 <= q).

(** From [s] to [s'] no size or thickness of a bundle shrinks or is unset. *)
Definition grows (s s' : State) : Prop :=
  nonneg s' /\
  forall b, (forall z, szv s b = Some (Some z) -> exists z', szv s' b = Some (Some z') /\ (z <= z')%Z) /\
            (forall q, thv s b = Some (Some q) -> exists q', thv s' b = Some (Some q') /\ q <= q').

Definition grows_m {A} (m : M A) : Prop :=
  forall s, nonneg s -> grows s (out_state (m s)).

Definition nonneg_bd (bd : bundle) : bool :=
  match b_size bd with Some z => Z.leb 0 z | None => true end &&
  match b_thickness bd with Some q => Qle_bool 0 q | None => true end.

(* ------------------------------------------------------------------ *)
(** ** The live bundles and the accounting of the totals *)

(** The live bundles, straight ones first. *)
Definition lists (s : State) : list bid := straight_bundles s ++ elbow_bundles s.

(** A reference that is [None] or names a live bundle. *)
Definition olisted (s : State) (o : option bid) : Prop :=
  match o with Some c => In c (lists s) | None => True end.

(** Every live bundle is in the heap, and its [left], [right] and
    [inner] references are [None] or live bundles. *)
Definition closed (s : State) : Prop :=
  forall b, In b (lists s) -> exists bd, store s !! b = Some bd /\
    olisted s (b_left bd) /\ olisted s (b_right bd) /\ olisted s (b_inner bd).

(** The shape the accounting of [divide] and [merge] relies on: no
    bundle is live twice, the ids from [next_id] on are unused, and the
    live bundles are closed under their references. *)
Definition wf (s : State) : Prop := NoDup (lists s) /\ fresh_ids s /\ closed s.

(** The heap after the write [b := bd]. *)
Definition upd (s : State) (b : bid) (bd : bundle) : State :=
  mkState (<[b := bd]> (store s)) (straight_bundles s) (elbow_bundles s) (next_id s) (edges s).

(** A bundle without its [left] and [right] references. *)
Definition strip_lr (bd : bundle) : bundle := set_left None (set_right None bd).

(** Two states with the same live bundles and the same [size] and
    [thickness] at every id. *)
Definition same (s s' : State) : Prop :=
  lists s' = lists s /\ forall c, size_at s' c = size_at s c /\ thick_at s' c = thick_at s c.

(** A computation that changes no live list, [size] or [thickness]. *)
Definition keep_m {A} (m : M A) : Prop := forall s a s', m s = Ret a s' -> same s s'.

(** A decision procedure for [wf] on concrete states. *)
Definition olisted_b (s : State) (o : option bid) : bool :=
  match o with Some c => existsb (Nat.eqb c) (lists s) | None => true end.
Definition closed_b (s : State) : bool :=
  forallb (fun b => match store s !! b with
    | Some bd => olisted_b s (b_left bd) && olisted_b s (b_right bd) && olisted_b s (b_inner bd)
    | None => false end) (lists s).
Definition fresh_b (s : State) : bool :=
  forallb (fun kv => Nat.ltb kv.1 (next_id s)) (map_to_list (store s)).
Definition wf_b (s : State) : bool := bool_decide (NoDup (lists s)) && fresh_b s && closed_b s.

(** [ex_state] after [split(2, 3, 0)]: the straight bundles 2 and 4 on
    both sides of the new elbow bundle 5 around the obstacle 3. *)
Definition ex5_state : State := out_state (split 10 10 terminal_backbone 2%nat 3%nat 0 ex_state).

(** The [inner] reference of a bundle in the heap. *)
Definition inner_view (s : State) (b : bid) : option (option bid) := b_inner <$> store s !! b.

(** The identity of the [point] of a bundle in the heap. *)
Definition pid_at (s : State) (b : bid) : option nat :=
  match store s !! b with Some bd => pid <$> b_point bd | None => None end.

(** The [inner] chains of the live bundles: the [inner] bundle of a live
    bundle is live and at the same point, no two live bundles have the same
    [inner] bundle, and following [inner] strictly lowers a rank, so that
    no chain comes back to where it started. *)
Definition inner_ok (s : State) : Prop :=
  (forall b c, In b (lists s) -> inner_view s b = Some (Some c) ->
     In c (lists s) /\ pid_at s c = pid_at s b) /\
  (forall b1 b2 c, In b1 (lists s) -> In b2 (lists s) ->
     inner_view s b1 = Some (Some c) -> inner_view s b2 = Some (Some c) -> b1 = b2) /\
  (exists r : bid -> nat, forall b c, In b (lists s) -> inner_view s b = Some (Some c) -> (r c < r b)%nat).

(** Two straight bundles [x] and [y] between the same two points: their
    ends are live bundles, [x] runs from the point [p] to a point [q] other
    than [p], and [y] from [p] to [q] or from [q] to [p]. *)
Definition parallel (s : State) (x y : bid) : Prop :=
  exists bx byy l r l' r' p q,
    store s !! x = Some bx /\ b_left bx = Some l /\ b_right bx = Some r /\
    store s !! y = Some byy /\ b_left byy = Some l' /\ b_right byy = Some r' /\
    In l (lists s) /\ In r (lists s) /\ In l' (lists s) /\ In r' (lists s) /\
    pid_at s l = Some p /\ pid_at s r = Some q /\ p <> q /\
    ((pid_at s l' = Some p /\ pid_at s r' = Some q) \/ (pid_at s l' = Some q /\ pid_at s r' = Some p)).

(** An elbow bundle at the point [pp]. *)
Definition at_pid (s : State) (pp : nat) (z : bid) : Prop :=
  exists bz, store s !! z = Some bz /\ b_kind bz = ElbowBundle /\ pid_at s z = Some pp.

(** Two straight bundles 0 and 1 between the points A and B. At A the
    elbow bundle 4 of 1 (between 1 and the straight bundle 6) has the
    elbow bundle 2 of 0 (between 0 and 6) as its [inner] bundle, and 2 has
    the terminal elbow bundle 7; at B both end at terminal elbow bundles. *)
Definition ex6_store : gmap bid bundle :=
  <[0%nat := seg 2%nat 3%nat]> (<[1%nat := seg 4%nat 5%nat]> (<[6%nat := seg 4%nat 7%nat]>
  (<[2%nat := mkBundle ElbowBundle (Some p_a) (Some 6%nat) (Some 0%nat) (Some 7%nat) (Some 1%Z) (Some 1) (Some 0) false 1]>
  (<[3%nat := mkBundle ElbowBundle (Some p_b) (Some 0%nat) (Some 0%nat) None (Some 1%Z) (Some 1) (Some 0) true 0]>
  (<[4%nat := mkBundle ElbowBundle (Some p_a) (Some 6%nat) (Some 1%nat) (Some 2%nat) (Some 1%Z) (Some 1) (Some 1) false 1]>
  (<[5%nat := mkBundle ElbowBundle (Some p_b) (Some 1%nat) (Some 1%nat) None (Some 1%Z) (Some 1) (Some 0) true 0]>
  (<[7%nat := mkBundle ElbowBundle (Some p_a) (Some 6%nat) (Some 6%nat) None (Some 1%Z) (Some 1) (Some 0) true 0]> ∅))))))).

Definition ex6_state : State :=
  mkState ex6_store [0%nat; 1%nat; 6%nat] [2%nat; 3%nat; 4%nat; 5%nat; 7%nat] 8%nat [].

(* ================================================================== *)
(** * Theorems *)

(** ** C3 *)

(** Claim C3: events are ordered by increasing time, and at equal time a
    [MergeEvent] compares less than a [SplitEvent] while the [SplitEvent]
    does not compare less than the [MergeEvent]. *)
Theorem merge_before_split_at_equal_time (tm ts : Q) (em sb eb : bid) :
  tm == ts ->
  event_lt (MergeEvent tm em) (SplitEvent ts sb eb) = true /\
  event_lt (SplitEvent ts sb eb) (MergeEvent tm em) = false /\
  (forall e1 e2 : event, ev_time e1 < ev_time e2 ->
     event_lt e1 e2 = true /\ event_lt e2 e1 = false).
Proof.
  intros Heq. unfold event_lt, Qltb; simpl.
  split; [|split].
  - apply orb_true_iff; right. apply andb_true_iff; split; [|reflexivity].
    apply Qeq_bool_iff; exact Heq.
  - apply orb_false_iff; split.
    + apply negb_false_iff, Qle_bool_iff. rewrite Heq; apply Qle_refl.
    + apply andb_false_iff; right; reflexivity.
  - intros e1 e2 Hlt. split.
    + apply orb_true_iff; left. apply negb_true_iff.
      destruct (Qle_bool (ev_time e2) (ev_time e1)) eqn:E; [|reflexivity].
      apply Qle_bool_iff in E. exfalso. apply (Qlt_not_le _ _ Hlt E).
    + apply orb_false_iff; split.
      * apply negb_false_iff, Qle_bool_iff. apply Qlt_le_weak; exact Hlt.
      * apply andb_false_iff; left.
        destruct (Qeq_bool (ev_time e2) (ev_time e1)) eqn:E; [|reflexivity].
        apply Qeq_bool_iff in E. exfalso. rewrite E in Hlt. apply (Qlt_irrefl _ Hlt).
Qed.

Lemma merge_before_split_at_equal_time_witness :
  (1 # 2) == (2 # 4) /\
  event_lt (MergeEvent (1 # 2) 0%nat) (SplitEvent (2 # 4) 1%nat 2%nat) = true /\
  event_lt (SplitEvent (2 # 4) 1%nat 2%nat) (MergeEvent (1 # 2) 0%nat) = false.
Proof.
  assert (H : (1 # 2) == (2 # 4)) by reflexivity.
  destruct (merge_before_split_at_equal_time (1 # 2) (2 # 4) 0%nat 1%nat 2%nat H) as [H1 [H2 _]].
  split; [exact H | split; [exact H1 | exact H2]].
Defined.

(** ** C5 *)







(** ** C8 *)

Lemma raise_angle_nonneg (fuel : nat) (a r : Q) :
  raise_angle fuel a = Some r -> 0 <= r.
Proof.
  revert a. induction fuel as [|f IH]; intros a H; simpl in H; [discriminate|].
  destruct (Qlt_le_dec a 0).
  - exact (IH _ H).
  - injection H as <-. exact q.
Qed.

Lemma lower_angle_range (fuel : nat) (a r : Q) :
  0 <= a -> lower_angle fuel a = Some r -> 0 <= r <= two_pi.
Proof.
  revert a. induction fuel as [|f IH]; intros a Ha H; simpl in H; [discriminate|].
  destruct (Qlt_le_dec two_pi a).
  - apply (IH (a - two_pi)); [lra|exact H].
  - injection H as <-. lra.
Qed.

Lemma normalize_angle_range (fuel : nat) (a r : Q) :
  normalize_angle fuel a = Some r -> 0 <= r <= two_pi.
Proof.
  unfold normalize_angle. destruct (raise_angle fuel a) as [a'|] eqn:E; [|discriminate].
  apply lower_angle_range. exact (raise_angle_nonneg _ _ _ E).
Qed.

(** Claim C8 as stated: [normalize_angle] returns values in [[0, 2π)].
    It does not: [2π] itself is returned unchanged. *)
Lemma normalize_angle_keeps_two_pi :
  normalize_angle 2 two_pi = Some two_pi /\ ~ (two_pi < two_pi).
Proof.
  split; [vm_compute; reflexivity|]. apply Qlt_irrefl.
Qed.

(** Claim C8, amended: [normalize_angle], and hence [angle], returns a value
    in the closed interval [[0, 2π]]. *)
Theorem normalize_angle_closed_range (atan2 : Q -> Q -> Q) (fuel : nat) (a r : Q)
  (px py qx qy r' : Q) :
  normalize_angle fuel a = Some r ->
  angle atan2 fuel px py qx qy = Some r' ->
  (0 <= r <= two_pi) /\ (0 <= r' <= two_pi).
Proof.
  intros H1 H2. split; [exact (normalize_angle_range _ _ _ H1)|].
  unfold angle in H2. exact (normalize_angle_range _ _ _ H2).
Qed.

Definition atan2_zero (y x : Q) : Q := 0.

Lemma normalize_angle_closed_range_witness :
  normalize_angle 2 two_pi = Some two_pi /\
  angle atan2_zero 2 0 0 1 0 = Some 0 /\
  (0 <= two_pi <= two_pi) /\ (0 <= 0 <= two_pi).
Proof.
  assert (H1 : normalize_angle 2 two_pi = Some two_pi) by (vm_compute; reflexivity).
  assert (H2 : angle atan2_zero 2 0 0 1 0 = Some 0) by (vm_compute; reflexivity).
  split; [exact H1|split; [exact H2|]].
  exact (normalize_angle_closed_range atan2_zero 2 two_pi two_pi 0 0 1 0 0 H1 H2).
Defined.

(** ** C10 *)

(** Claim C10: [tear(b)] on a bundle of size 1 returns at once and leaves
    the whole structure unchanged. *)
Theorem tear_size_one_noop (fuel : nat) (s : State) (b : bid) (bd : bundle) :
  store s !! b = Some bd ->
  b_size bd = Some 1%Z ->
  tear fuel b s = Ret tt s.
Proof.
  intros Hb Hs. unfold tear, size_of, get, mbind, mret, M_bind, M_ret. cbn beta.
  rewrite Hb. cbn. rewrite Hs. reflexivity.
Qed.

Lemma tear_size_one_noop_witness :
  store ex_state !! 2%nat = Some (mkBundle StraightBundle None (Some 0%nat) (Some 1%nat) None (Some 1%Z) (Some 1) None true 0) /\
  tear 5 2%nat ex_state = Ret tt ex_state.
Proof.
  assert (H : store ex_state !! 2%nat = Some (mkBundle StraightBundle None (Some 0%nat) (Some 1%nat) None (Some 1%Z) (Some 1) None true 0))
    by reflexivity.
  split; [exact H|].
  exact (tear_size_one_noop 5 ex_state 2%nat _ H eq_refl).
Defined.

(** ** C2 *)

Lemma update_all_present (fuel : nat) (dt : Q) splits_at merges_at (s : State)
  (bs : list bid) : forall (q : list event) (t : Q),
  update_all fuel dt splits_at merges_at true s q bs t =
  update_all fuel dt splits_at merges_at false s q (List.filter (fun b => contains s b) bs) t.
Proof.
  induction bs as [|b bs IH]; intros q t; [reflexivity|].
  simpl. destruct (contains s b); simpl.
  - destruct (update_queue fuel dt splits_at merges_at s q b t); [apply IH|reflexivity].
  - apply IH.
Qed.

(** Claim C2: when the popped event references a bundle no longer in the
    structure, or its predicate re-evaluates false, the loop body leaves the
    structure untouched, drops the event, and calls [update_queue(b, t)]
    for exactly the referenced bundles still in the structure. *)
Theorem stale_event_discarded (fuel depth : nat) get_backbone_endpoints (dt : Q)
  splits_at merges_at (s : State) (q : list event) (e : event) :
  (exists b, b ∈ ev_bundles e /\ contains s b = false) \/
  is_valid splits_at merges_at s e = false ->
  handle_event fuel depth get_backbone_endpoints dt splits_at merges_at s q e =
  of_queue s (update_all fuel dt splits_at merges_at false s q
                (List.filter (fun b => contains s b) (ev_bundles e)) (ev_time e)).
Proof.
  intros H. unfold handle_event.
  assert (Hc : existsb (fun b => negb (contains s b)) (ev_bundles e) ||
               negb (is_valid splits_at merges_at s e) = true).
  { destruct H as [[b [Hin Hb]]|Hv].
    - apply orb_true_iff; left. apply existsb_exists. exists b. split.
      + apply list_elem_of_In. exact Hin.
      + rewrite Hb. reflexivity.
    - rewrite Hv, orb_true_r. reflexivity. }
  rewrite Hc. rewrite update_all_present. reflexivity.
Qed.

Definition never (s : State) (a b : bid) (t : Q) : bool := false.
Definition never1 (s : State) (a : bid) (t : Q) : bool := false.

Lemma stale_event_discarded_witness :
  contains ex_state 7%nat = false /\
  handle_event 10 10 terminal_backbone (1 # 10) never never1 ex_state []
    (SplitEvent (1 # 2) 2%nat 7%nat) = Stepped ex_state [].
Proof.
  assert (H : contains ex_state 7%nat = false) by reflexivity.
  split; [exact H|].
  rewrite (stale_event_discarded 10 10 terminal_backbone (1 # 10) never never1 ex_state []
             (SplitEvent (1 # 2) 2%nat 7%nat)).
  - vm_compute. reflexivity.
  - left. exists 7%nat. split; [|exact H]. simpl. right. left.
Defined.

(** ** C7 *)

Section SamplingLoops.
Variable fuel : nat.
Variable dt : Q.
Variable splits_at : State -> bid -> bid -> Q -> bool.
Variable merges_at : State -> bid -> Q -> bool.

Lemma iter_add_dt (j : nat) (c : Q) :
  Nat.iter j (fun x => x + dt) c == c + inject_Z (Z.of_nat j) * dt.
Proof.
  induction j as [|j IH]; simpl.
  - ring.
  - rewrite IH, Nat2Z.inj_succ. unfold Z.succ. rewrite inject_Z_plus. ring.
Qed.

Lemma iter_shift (j : nat) (c : Q) :
  Nat.iter j (fun x => x + dt) (c + dt) = Nat.iter (S j) (fun x => x + dt) c.
Proof.
  induction j as [|j IH]; simpl; [reflexivity|]. rewrite IH. reflexivity.
Qed.

(** A sampling loop that is bound to pass its limit within its fuel
    never runs out of fuel, and finds nothing when the predicate is false
    at every sample up to the limit. *)
Lemma scan_exits (p : Q -> bool) (limit : Q) :
  forall n c,
    (exists j, (j < n)%nat /\ limit < Nat.iter j (fun x => x + dt) c) ->
    scan dt n p limit c <> None.
Proof.
  induction n as [|n IH]; intros c [j [Hj Hl]]; [lia|].
  simpl. destruct (Qle_bool c limit) eqn:E; [|discriminate].
  destruct (p c); [discriminate|].
  apply IH. destruct j as [|j].
  - simpl in Hl. apply Qle_bool_iff in E. exfalso. exact (Qlt_not_le _ _ Hl E).
  - exists j. split; [lia|]. rewrite iter_shift. exact Hl.
Qed.

Lemma scan_not_found (p : Q -> bool) (limit : Q) :
  forall n c,
    (exists j, (j < n)%nat /\ limit < Nat.iter j (fun x => x + dt) c) ->
    (forall j, Nat.iter j (fun x => x + dt) c <= limit ->
               p (Nat.iter j (fun x => x + dt) c) = false) ->
    scan dt n p limit c = Some None.
Proof.
  induction n as [|n IH]; intros c [j [Hj Hl]] Hp; [lia|].
  simpl. destruct (Qle_bool c limit) eqn:E; [|reflexivity].
  pose proof (Hp 0%nat (proj1 (Qle_bool_iff _ _) E)) as H0. simpl in H0. rewrite H0.
  apply IH.
  - destruct j as [|j].
    + simpl in Hl. apply Qle_bool_iff in E. exfalso. exact (Qlt_not_le _ _ Hl E).
    + exists j. split; [lia|]. rewrite iter_shift. exact Hl.
  - intros j' Hj'. rewrite iter_shift in Hj' |- *. exact (Hp (S j') Hj').
Qed.

Lemma scan_found_le (p : Q -> bool) (limit : Q) :
  forall n c c', scan dt n p limit c = Some (Some c') -> c' <= limit.
Proof.
  induction n as [|n IH]; intros c c' H; simpl in H; [discriminate|].
  destruct (Qle_bool c limit) eqn:E; [|discriminate].
  destruct (p c).
  - injection H as <-. apply Qle_bool_iff. exact E.
  - exact (IH _ _ H).
Qed.

(** The last sample a loop with [fuel] iterations can reach lies beyond
    every limit [<= 1] once [t + fuel * dt] passes [1]. *)
Lemma last_sample_beyond (t nst : Q) :
  (0 < fuel)%nat -> 1 < t + inject_Z (Z.of_nat fuel) * dt -> nst <= 1 ->
  exists j, (j < fuel)%nat /\ nst < Nat.iter j (fun x => x + dt) (t + dt).
Proof.
  intros Hf H Hn. destruct fuel as [|n]; [lia|].
  exists n. split; [lia|]. rewrite iter_add_dt.
  rewrite Nat2Z.inj_succ, <- Z.add_1_r, inject_Z_plus in H.
  set (k := inject_Z (Z.of_nat n)) in *. change (inject_Z 1) with 1 in H.
  lra.
Qed.

Lemma find_split_bundles_some (s : State) (b : bid) (t : Q) :
  (0 < fuel)%nat -> 1 < t + inject_Z (Z.of_nat fuel) * dt ->
  forall cands nsb nst, nst <= 1 ->
  find_split_bundles fuel dt splits_at s b t cands (nsb, nst) <> None.
Proof.
  intros Hf Ht. induction cands as [|c cands IH]; intros nsb nst Hn; simpl; [discriminate|].
  destruct (connected s b c); [apply IH; exact Hn|].
  destruct (scan dt fuel (splits_at s b c) nst (t + dt)) as [[c'|]|] eqn:E.
  - pose proof (scan_found_le _ _ _ _ _ E) as Hc.
    destruct (Qltb c' nst); apply IH; lra.
  - apply IH; exact Hn.
  - exfalso. refine (scan_exits _ _ _ _ _ E).
    exact (last_sample_beyond t nst Hf Ht Hn).
Qed.

Lemma find_split_bundles_none_found (s : State) (b : bid) (t : Q) :
  (0 < fuel)%nat -> 1 < t + inject_Z (Z.of_nat fuel) * dt ->
  (forall bundle, connected s b bundle = false ->
     forall j, sample dt t j <= 1 -> splits_at s b bundle (sample dt t j) = false) ->
  forall cands, find_split_bundles fuel dt splits_at s b t cands ([], 1) = Some ([], 1).
Proof.
  intros Hf Ht Hs. induction cands as [|c cands IH]; simpl; [reflexivity|].
  destruct (connected s b c) eqn:Ec; [exact IH|].
  rewrite (scan_not_found _ _ _ _ (last_sample_beyond t 1 Hf Ht (Qle_refl 1)) (Hs c Ec)).
  exact IH.
Qed.

End SamplingLoops.

Lemma filter_put (f : event -> bool) (q : list event) (e : option event) :
  List.filter f (put q e) =
  List.filter f q ++ match e with Some e => if f e then [e] else [] | None => [] end.
Proof.
  destruct e as [e|]; simpl; [rewrite List.filter_app; simpl; destruct (f e); reflexivity|].
  rewrite app_nil_r. reflexivity.
Qed.

Lemma compute_next_split_event_total (fuel : nat) (dt : Q) splits_at (s : State) (b : bid) (t : Q) :
  (0 < fuel)%nat -> 1 < t + inject_Z (Z.of_nat fuel) * dt ->
  compute_next_split_event fuel dt splits_at s b t <> None.
Proof.
  intros Hf Ht. unfold compute_next_split_event.
  pose proof (find_split_bundles_some fuel dt splits_at s b t Hf Ht
                (if is_straight s b then elbow_bundles s else straight_bundles s) [] 1 (Qle_refl 1)) as H.
  destruct (find_split_bundles _ _ _ _ _ _ _ _) as [[nsb nst]|]; [|contradiction].
  destruct nsb; [discriminate|].
  destruct (pick_split_bundle _ _ _ _ _ _ _) as [[nb|] ft]; discriminate.
Qed.

Lemma compute_next_split_event_kind (fuel : nat) (dt : Q) splits_at (s : State) (b : bid) (t : Q) e :
  compute_next_split_event fuel dt splits_at s b t = Some (Some e) -> is_split_event e = true.
Proof.
  unfold compute_next_split_event.
  destruct (find_split_bundles _ _ _ _ _ _ _ _) as [[nsb nst]|]; [|discriminate].
  destruct nsb; [discriminate|].
  destruct (pick_split_bundle _ _ _ _ _ _ _) as [[nb|] ft]; [|discriminate].
  intros H. injection H as <-. destruct (is_straight s b); reflexivity.
Qed.

Lemma compute_next_split_event_absent (fuel : nat) (dt : Q) splits_at (s : State) (b : bid) (t : Q) :
  (0 < fuel)%nat -> 1 < t + inject_Z (Z.of_nat fuel) * dt ->
  (forall bundle, connected s b bundle = false ->
     forall j, sample dt t j <= 1 -> splits_at s b bundle (sample dt t j) = false) ->
  compute_next_split_event fuel dt splits_at s b t = Some None.
Proof.
  intros Hf Ht Hs. unfold compute_next_split_event.
  rewrite (find_split_bundles_none_found fuel dt splits_at s b t Hf Ht Hs). reflexivity.
Qed.

Lemma compute_next_merge_event_total (fuel : nat) (dt : Q) merges_at (s : State) (b : bid) (t : Q) :
  (0 < fuel)%nat -> 1 < t + inject_Z (Z.of_nat fuel) * dt ->
  compute_next_merge_event fuel dt merges_at s b t <> None.
Proof.
  intros Hf Ht. unfold compute_next_merge_event.
  destruct (scan dt fuel (merges_at s b) 1 (t + dt)) as [[c|]|] eqn:E; try discriminate.
  exfalso. exact (scan_exits dt _ _ _ _ (last_sample_beyond fuel dt t 1 Hf Ht (Qle_refl 1)) E).
Qed.

Lemma compute_next_merge_event_kind (fuel : nat) (dt : Q) merges_at (s : State) (b : bid) (t : Q) e :
  compute_next_merge_event fuel dt merges_at s b t = Some (Some e) -> is_merge_event e = true.
Proof.
  unfold compute_next_merge_event.
  destruct (scan dt fuel (merges_at s b) 1 (t + dt)) as [[c|]|]; try discriminate.
  intros H. injection H as <-. reflexivity.
Qed.

Lemma compute_next_merge_event_absent (fuel : nat) (dt : Q) merges_at (s : State) (b : bid) (t : Q) :
  (0 < fuel)%nat -> 1 < t + inject_Z (Z.of_nat fuel) * dt ->
  (forall j, sample dt t j <= 1 -> merges_at s b (sample dt t j) = false) ->
  compute_next_merge_event fuel dt merges_at s b t = Some None.
Proof.
  intros Hf Ht Hm. unfold compute_next_merge_event.
  rewrite (scan_not_found dt _ _ _ _ (last_sample_beyond fuel dt t 1 Hf Ht (Qle_refl 1)) Hm).
  reflexivity.
Qed.

(** C7: when the sampling loops have enough iterations to pass time 1,
    [update_queue(b, t)] always completes and returns the queue. If
    [splits] holds at no sample [t + dt, t + 2dt, ... <= 1] for any
    candidate not connected to [b], the queue gets no new SplitEvent; if
    [merges] holds at no such sample, it gets no new MergeEvent. *)
Theorem update_queue_omits_absent_events (fuel : nat) (dt : Q) splits_at merges_at
  (s : State) (q : list event) (b : bid) (t : Q) :
  (0 < fuel)%nat -> 1 < t + inject_Z (Z.of_nat fuel) * dt ->
  exists q', update_queue fuel dt splits_at merges_at s q b t = Some q' /\
    ((forall bundle, connected s b bundle = false ->
        forall j, sample dt t j <= 1 -> splits_at s b bundle (sample dt t j) = false) ->
     List.filter is_split_event q' = List.filter is_split_event q) /\
    ((forall j, sample dt t j <= 1 -> merges_at s b (sample dt t j) = false) ->
     List.filter is_merge_event q' = List.filter is_merge_event q).
Proof.
  intros Hf Ht. unfold update_queue.
  pose proof (compute_next_split_event_total fuel dt splits_at s b t Hf Ht) as Hst.
  pose proof (compute_next_split_event_kind fuel dt splits_at s b t) as Hsk.
  pose proof (compute_next_split_event_absent fuel dt splits_at s b t Hf Ht) as Hsa.
  destruct (compute_next_split_event fuel dt splits_at s b t) as [se|] eqn:Es; [|contradiction].
  assert (Hsplit : (forall bundle, connected s b bundle = false ->
        forall j, sample dt t j <= 1 -> splits_at s b bundle (sample dt t j) = false) ->
      List.filter is_split_event (put q se) = List.filter is_split_event q).
  { intros H. specialize (Hsa H). injection Hsa as ->. reflexivity. }
  assert (Hsm : List.filter is_merge_event (put q se) = List.filter is_merge_event q).
  { rewrite filter_put. destruct se as [e|]; [|apply app_nil_r].
    specialize (Hsk e eq_refl). destruct e; [apply app_nil_r|discriminate]. }
  destruct (store s !! b) as [bd|];
    [destruct (kind_eqb (b_kind bd) ElbowBundle && negb (b_is_terminal bd))|].
  - pose proof (compute_next_merge_event_total fuel dt merges_at s b t Hf Ht) as Hmt.
    pose proof (compute_next_merge_event_kind fuel dt merges_at s b t) as Hmk.
    pose proof (compute_next_merge_event_absent fuel dt merges_at s b t Hf Ht) as Hma.
    destruct (compute_next_merge_event fuel dt merges_at s b t) as [me|]; [|contradiction].
    eexists. split; [reflexivity|split].
    + intros H. rewrite filter_put, (Hsplit H). destruct me as [e|]; [|apply app_nil_r].
      specialize (Hmk e eq_refl). destruct e; [discriminate|]. apply app_nil_r.
    + intros H. specialize (Hma H). injection Hma as ->. exact Hsm.
  - eexists. split; [reflexivity|]. split; [exact Hsplit|intros _; exact Hsm].
  - eexists. split; [reflexivity|]. split; [exact Hsplit|intros _; exact Hsm].
Qed.

Lemma update_queue_omits_absent_events_witness :
  (0 < 10)%nat /\ 1 < 0 + inject_Z (Z.of_nat 10) * (1 # 4) /\
  exists q', update_queue 10 (1 # 4) never never1 ex_state [] 3%nat 0 = Some q' /\
    ((forall bundle, connected ex_state 3%nat bundle = false ->
        forall j, sample (1 # 4) 0 j <= 1 -> never ex_state 3%nat bundle (sample (1 # 4) 0 j) = false) ->
     List.filter is_split_event q' = []) /\
    ((forall j, sample (1 # 4) 0 j <= 1 -> never1 ex_state 3%nat (sample (1 # 4) 0 j) = false) ->
     List.filter is_merge_event q' = []).
Proof.
  assert (H1 : (0 < 10)%nat) by lia.
  assert (H2 : 1 < 0 + inject_Z (Z.of_nat 10) * (1 # 4)) by (vm_compute; reflexivity).
  split; [exact H1|split; [exact H2|]].
  exact (update_queue_omits_absent_events 10 (1 # 4) never never1 ex_state [] 3%nat 0 H1 H2).
Defined.

(* ------------------------------------------------------------------ *)
(** ** C1 *)

Section Frames.
Variable x : bid.

Lemma tame_refl (s : State) : tame x s s.
Proof. repeat split; reflexivity. Qed.

Lemma tame_trans (s1 s2 s3 : State) : tame x s1 s2 -> tame x s2 s3 -> tame x s1 s3.
Proof.
  intros (A1 & B1 & C1 & D1) (A2 & B2 & C2 & D2). repeat split.
  - destruct (A2 b), (A1 b); congruence.
  - destruct (A2 b), (A1 b); congruence.
  - congruence.
  - congruence.
  - congruence.
Qed.

Lemma tame_ret {A} (a : A) : tame_m x (mret a).
Proof. intros s a' s' H. injection H as _ <-. apply tame_refl. Qed.

Lemma tame_raise {A} (e : exn) : tame_m x (@raise A e).
Proof. intros s a s' H. discriminate. Qed.

Lemma tame_bind {A B} (m : M A) (f : A -> M B) :
  tame_m x m -> (forall a, tame_m x (f a)) -> tame_m x (a ← m; f a).
Proof.
  intros Hm Hf s b s' H. unfold mbind, M_bind in H.
  destruct (m s) as [a s1|e s1] eqn:E; [|discriminate].
  exact (tame_trans _ _ _ (Hm _ _ _ E) (Hf _ _ _ _ H)).
Qed.

Lemma tame_get (b : bid) : tame_m x (get b).
Proof.
  intros s a s' H. unfold get in H. destruct (store s !! b); [|discriminate].
  injection H as _ <-. apply tame_refl.
Qed.

Lemma tame_deref (o : option bid) : tame_m x (deref o).
Proof. destruct o; [apply tame_ret|apply tame_raise]. Qed.

Lemma tame_req {A} (o : option A) : tame_m x (req o).
Proof. destruct o; [apply tame_ret|apply tame_raise]. Qed.

Lemma tame_modify (b : bid) (f : bundle -> bundle) :
  (forall bd, b_size (f bd) = b_size bd) ->
  (forall bd, b_thickness (f bd) = b_thickness bd) ->
  (b <> x \/ forall bd, b_is_terminal (f bd) = b_is_terminal bd) ->
  tame_m x (modify b f).
Proof.
  intros Hs Ht Hx s a s' H. unfold modify in H.
  destruct (store s !! b) as [bd|] eqn:E; [|discriminate].
  injection H as _ <-. unfold tame, szv, thv, tmv; cbn. repeat split; rewrite lookup_insert.
  - case_decide as Hd; [subst b0; rewrite E; cbn; rewrite Hs|]; reflexivity.
  - case_decide as Hd; [subst b0; rewrite E; cbn; rewrite Ht|]; reflexivity.
  - case_decide as Hd; [|reflexivity].
    subst b. rewrite E. cbn. destruct Hx as [Hx|Hx]; [congruence|]. rewrite Hx. reflexivity.
Qed.

Lemma tame_read {A} (f : State -> A) : tame_m x (fun s => Ret (f s) s).
Proof. intros s a s' H. injection H as _ <-. apply tame_refl. Qed.

End Frames.

Ltac tame_core extra :=
  unfold left_of, right_of, size_of, thickness_of, is_terminal_of, orientation_of,
    layer_thickness_of, inner_of, point_of, kind_of, next, is_connected_to,
    is_associated_with, backbone, get_state;
  repeat match goal with
  | |- tame_m _ (mbind _ _) => apply tame_bind; [|intros ?; cbv beta]
  | |- tame_m _ (mret _) => apply tame_ret
  | |- tame_m _ (raise _) => apply tame_raise
  | |- tame_m _ (get _) => apply tame_get
  | |- tame_m _ (deref _) => apply tame_deref
  | |- tame_m _ (req _) => apply tame_req
  | |- tame_m _ (fun s => Ret _ s) => apply tame_read
  | |- tame_m _ (modify _ _) =>
      apply tame_modify; [intros ?; reflexivity | intros ?; reflexivity
                         | first [right; intros ?; reflexivity | left; assumption]]
  | |- tame_m _ (match ?c with _ => _ end) => destruct c
  | |- tame_m _ _ => extra
  end.

Lemma tame_repoint_term (x : bid) (n : nat) :
  forall cur old new, tame_m x (repoint_term n cur old new).
Proof.
  induction n as [|n IH]; intros cur old new; simpl; [apply tame_raise|].
  destruct cur; tame_core ltac:(apply IH).
Qed.

Ltac solve_tame := tame_core ltac:(apply tame_repoint_term).

Lemma run_to_bind {A B} (m : M A) (f : A -> M B) P R Q :
  run_to m P R -> (forall a, run_to (f a) (R a) Q) -> run_to (a ← m; f a) P Q.
Proof.
  intros Hm Hf s b s' HP H. unfold mbind, M_bind in H.
  destruct (m s) as [a s1|e s1] eqn:E; [|discriminate].
  exact (Hf a s1 b s' (Hm _ _ _ HP E) H).
Qed.

Lemma run_to_bind_tame {A B} (x : bid) (m : M A) (f : A -> M B) P Q :
  stable x P -> tame_m x m -> (forall a, run_to (f a) P Q) -> run_to (a ← m; f a) P Q.
Proof.
  intros HP Hm Hf. apply (run_to_bind m f P (fun _ => P)); [|exact Hf].
  intros s a s' Hs E. exact (HP _ _ (Hm _ _ _ E) Hs).
Qed.

Lemma run_to_ret {A} (a : A) P Q : (forall s, P s -> Q a s) -> run_to (mret a) P Q.
Proof. intros H s a' s' HP E. injection E as <- <-. exact (H s HP). Qed.

Lemma run_to_size_of (b : bid) P : run_to (size_of b) P (fun z s => P s /\ szv s b = Some z).
Proof.
  intros s z s' HP E. unfold size_of, get, mbind, M_bind, mret, M_ret in E. unfold szv.
  destruct (store s !! b) eqn:L; [|discriminate]. injection E as <- <-. rewrite L. auto.
Qed.

Lemma run_to_thickness_of (b : bid) P : run_to (thickness_of b) P (fun q s => P s /\ thv s b = Some q).
Proof.
  intros s q s' HP E. unfold thickness_of, get, mbind, M_bind, mret, M_ret in E. unfold thv.
  destruct (store s !! b) eqn:L; [|discriminate]. injection E as <- <-. rewrite L. auto.
Qed.

Lemma run_to_is_terminal_of (b : bid) P : run_to (is_terminal_of b) P (fun v s => P s /\ tmv s b = Some v).
Proof.
  intros s v s' HP E. unfold is_terminal_of, get, mbind, M_bind, mret, M_ret in E. unfold tmv.
  destruct (store s !! b) eqn:L; [|discriminate]. injection E as <- <-. rewrite L. auto.
Qed.

(** A write of one field of [b]: the views at other bundles and the lists
    stay, and the view at [b] is that of the written bundle. *)
Lemma run_to_modify (b : bid) (f : bundle -> bundle) P :
  run_to (modify b f) P (fun _ s' => exists s bd, P s /\ store s !! b = Some bd /\
     store s' = <[b := f bd]> (store s) /\
     straight_bundles s' = straight_bundles s /\ elbow_bundles s' = elbow_bundles s).
Proof.
  intros s u s' HP E. unfold modify in E.
  destruct (store s !! b) as [bd|] eqn:L; [|discriminate]. injection E as _ <-.
  exists s, bd. cbn. auto.
Qed.

Lemma bind_step {A B} (m : M A) (f : A -> M B) (s : State) (a : A) (s1 : State) :
  m s = Ret a s1 -> mbind f m s = f a s1.
Proof. intros E. unfold mbind, M_bind. rewrite E. reflexivity. Qed.

Lemma views_insert (s s' : State) (k b : bid) (v : bundle) :
  store s' = <[k := v]> (store s) -> b <> k ->
  szv s' b = szv s b /\ thv s' b = thv s b /\ tmv s' b = tmv s b.
Proof.
  intros E Hb. unfold szv, thv, tmv. rewrite E, lookup_insert_ne by congruence. auto.
Qed.

Lemma lookup_some_lt (s : State) (b : bid) :
  (forall k : bid, (next_id s <= k)%nat -> store s !! k = None) ->
  is_Some (store s !! b) -> (b < next_id s)%nat.
Proof.
  intros Hf [bd Hb]. destruct (Nat.lt_ge_cases b (next_id s)) as [H|H]; [exact H|].
  pose proof (Hf b H). congruence.
Qed.

Ltac tame_step x stab :=
  apply (run_to_bind_tame x); [exact stab | solve_tame | intros ?; cbv beta].

(** Runs through the binds that leave the views alone, stopping at a read
    of [size] or [thickness] of [sb] or of the terminal flag of [x]. *)
Ltac run_tame x stab sb :=
  repeat match goal with
  | |- run_to (mbind _ (size_of sb)) _ _ => fail 1
  | |- run_to (mbind _ (thickness_of sb)) _ _ => fail 1
  | |- run_to (mbind _ (is_terminal_of x)) _ _ => fail 1
  | |- run_to (mbind _ _) _ _ => tame_step x stab
  | |- run_to (match ?c with _ => _ end) _ _ => destruct c
  end.

Lemma pure_ret {A} (a : A) : pure_m (mret a).
Proof. intros s a' s' H. injection H as _ <-. reflexivity. Qed.

Lemma pure_raise {A} (e : exn) : pure_m (@raise A e).
Proof. intros s a s' H. discriminate. Qed.

Lemma pure_bind {A B} (m : M A) (f : A -> M B) :
  pure_m m -> (forall a, pure_m (f a)) -> pure_m (a ← m; f a).
Proof.
  intros Hm Hf s b s' H. unfold mbind, M_bind in H.
  destruct (m s) as [a s1|e s1] eqn:E; [|discriminate].
  rewrite (Hf _ _ _ _ H). exact (Hm _ _ _ E).
Qed.

Lemma pure_get (b : bid) : pure_m (get b).
Proof.
  intros s a s' H. unfold get in H. destruct (store s !! b); [|discriminate].
  injection H as _ <-. reflexivity.
Qed.

Lemma pure_read {A} (f : State -> A) : pure_m (fun s => Ret (f s) s).
Proof. intros s a s' H. injection H as _ <-. reflexivity. Qed.

Ltac solve_pure :=
  unfold left_of, right_of, size_of, thickness_of, is_terminal_of, inner_of,
    kind_of, next, is_connected_to, deref, req, get_state;
  repeat match goal with
  | |- pure_m (mbind _ _) => apply pure_bind; [|intros ?; cbv beta]
  | |- pure_m (mret _) => apply pure_ret
  | |- pure_m (raise _) => apply pure_raise
  | |- pure_m (get _) => apply pure_get
  | |- pure_m (fun s => Ret _ s) => apply pure_read
  | |- pure_m (match ?c with _ => _ end) => destruct c
  end.

Lemma bind_ret_inv {A B} (m : M A) (f : A -> M B) (s : State) (b : B) (s' : State) :
  mbind f m s = Ret b s' -> exists a s1, m s = Ret a s1 /\ f a s1 = Ret b s'.
Proof. unfold mbind, M_bind. destruct (m s) as [a s1|e s1]; [eauto|discriminate]. Qed.

Lemma pure_run {A} (m : M A) (s : State) (a : A) (s1 : State) : pure_m m -> m s = Ret a s1 -> s1 = s.
Proof. intros P E. exact (P _ _ _ E). Qed.

Ltac solve_pure2 :=
  unfold is_associated_with, point_of, orientation_of, layer_thickness_of; solve_pure.

(** Steps over the first bind of [H : (a <- m; k a) s = Ret _ _] for a
    read [m]: the state stays [s]. *)
Ltac fwd_pure H :=
  let a := fresh "a" in let s1 := fresh "s" in let E := fresh "E" in
  apply bind_ret_inv in H; destruct H as (a & s1 & E & H);
  let P := fresh "P" in
  assert (P : s1 = _) by (refine (pure_run _ _ _ _ _ E); solve_pure2); subst s1.

(** Splits [H : (a <- m; k a) s = Ret _ _] at its first bind, [E] the
    run of [m]. *)
Ltac fwd_as H E :=
  let a := fresh "a" in let s1 := fresh "s" in
  apply bind_ret_inv in H; destruct H as (a & s1 & E & H).
Ltac fwd H := let E := fresh "E" in fwd_as H E.

(** Cases on the condition of an [if] at the head of [H]. *)
Ltac case_head H :=
  match type of H with
  | (if ?c then _ else _) _ = _ => destruct c
  | mbind _ (if ?c then _ else _) _ = _ => destruct c
  end.

(** [H : mret a s = Ret b s']: [s'] is [s]. *)
Ltac ret_inv H := cbv [mret M_ret] in H; injection H as ?Ea ?Es; subst.

Ltac destruct_unit := repeat match goal with u : unit |- _ => destruct u end.

Section SplitSizes.
Variables (fuel depth : nat) (gbe : State -> bid -> Q -> point * point).
Variables (s0 : State) (sb x : bid) (sbd : bundle).
Hypothesis Hfresh : forall k : bid, (next_id s0 <= k)%nat -> store s0 !! k = None.
Hypothesis Hsb : store s0 !! sb = Some sbd.
Hypothesis Hx : is_Some (store s0 !! x).
Hypothesis Hsbx : sb <> x.

(** The views after [split] allocated the copy [sb2 = next_id s0] of [sb]. *)
Definition tgt_sz (b : bid) : option (option Z) :=
  if Nat.eqb b (next_id s0) then Some (b_size sbd) else szv s0 b.
Definition tgt_th (b : bid) : option (option Q) :=
  if Nat.eqb b (next_id s0) then Some (b_thickness sbd) else thv s0 b.

Definition I0 (s : State) : Prop :=
  (forall b, b <> S (next_id s0) -> szv s b = tgt_sz b /\ thv s b = tgt_th b) /\
  straight_bundles s = straight_bundles s0 ++ [next_id s0] /\
  elbow_bundles s = elbow_bundles s0 ++ [S (next_id s0)].
Definition I1 (s : State) : Prop := I0 s /\ szv s (S (next_id s0)) = Some (b_size sbd).
Definition I2 (s : State) : Prop := I1 s /\ thv s (S (next_id s0)) = Some (b_thickness sbd).

Lemma I0_stable : stable x I0.
Proof.
  intros s s' (A & B & C & D) (HA & HC & HD). split.
  - intros b Hb. destruct (A b), (HA b Hb). split; congruence.
  - split; congruence.
Qed.

Lemma I1_stable : stable x I1.
Proof.
  intros s s' T [H0 H1]. split; [exact (I0_stable _ _ T H0)|].
  destruct T as (A & _). destruct (A (S (next_id s0))). congruence.
Qed.

Lemma I2_stable : stable x I2.
Proof.
  intros s s' T [H0 H1]. split; [exact (I1_stable _ _ T H0)|].
  destruct T as (A & _). destruct (A (S (next_id s0))). congruence.
Qed.

Lemma sb_fresh_lt : (sb < next_id s0)%nat.
Proof. apply (lookup_some_lt s0 sb Hfresh). eexists. exact Hsb. Qed.

Lemma x_fresh_lt : (x < next_id s0)%nat.
Proof. apply (lookup_some_lt s0 x Hfresh). exact Hx. Qed.

Lemma tgt_sb : tgt_sz sb = Some (b_size sbd) /\ tgt_th sb = Some (b_thickness sbd).
Proof.
  pose proof sb_fresh_lt. unfold tgt_sz, tgt_th, szv, thv.
  rewrite (proj2 (Nat.eqb_neq sb (next_id s0))) by lia. rewrite Hsb. auto.
Qed.

Lemma size_write (z : option Z) :
  run_to (modify (S (next_id s0)) (set_size z)) (fun s => I0 s /\ szv s sb = Some z) (fun _ => I1).
Proof.
  intros s u s' [(A & C & D) Hz] E. unfold modify in E.
  destruct (store s !! (S (next_id s0) : bid)) as [bd|] eqn:L; [|discriminate]. injection E as _ <-.
  pose proof sb_fresh_lt. split; [split; [|split]|].
  - intros b Hb. unfold szv, thv; cbn. rewrite lookup_insert_ne by congruence. exact (A b Hb).
  - exact C.
  - exact D.
  - unfold szv; cbn. rewrite lookup_insert_eq. cbn.
    destruct (A sb) as [A1 _]; [lia|]. rewrite (proj1 tgt_sb) in A1. congruence.
Qed.

Lemma thickness_write (q : option Q) :
  run_to (modify (S (next_id s0)) (set_thickness q)) (fun s => I1 s /\ thv s sb = Some q) (fun _ => I2).
Proof.
  intros s u s' [[(A & C & D) Hs] Hq] E. unfold modify in E.
  destruct (store s !! (S (next_id s0) : bid)) as [bd|] eqn:L; [|discriminate]. injection E as _ <-.
  pose proof sb_fresh_lt. split; [split; [split; [|split]|]|].
  - intros b Hb. unfold szv, thv; cbn. rewrite !lookup_insert_ne by congruence. exact (A b Hb).
  - exact C.
  - exact D.
  - unfold szv in *; cbn. rewrite lookup_insert_eq. rewrite L in Hs. exact Hs.
  - unfold thv; cbn. rewrite lookup_insert_eq. cbn.
    destruct (A sb) as [_ A2]; [lia|]. rewrite (proj2 tgt_sb) in A2. congruence.
Qed.

Lemma run_to_weaken {A} (m : M A) (P P' : State -> Prop) Q :
  run_to m P Q -> (forall s, P' s -> P s) -> run_to m P' Q.
Proof. intros H W s a s' HP E. exact (H s a s' (W s HP) E). Qed.

(** [split] runs its own writes up to a structure [s1] where [I2] holds,
    then at most [union(sb, _)] and [union(sb2, _)]. *)
Lemma split_sizes_run (t : Q) r s' : split fuel depth gbe sb x t s0 = Ret r s' ->
  exists s1 s2, I2 s1 /\ (s2 = s1 \/ exists b, union fuel depth sb b s1 = Ret tt s2) /\
    (s' = s2 \/ exists d, union fuel depth (next_id s0) d s2 = Ret tt s').
Proof.
  intros H. unfold split in H.
  rewrite (bind_step _ _ s0 sbd s0) in H by (unfold get; rewrite Hsb; reflexivity).
  cbv beta in H.
  do 4 (erewrite bind_step in H by reflexivity; cbv beta in H).
  cbn [store straight_bundles elbow_bundles next_id edges] in H.
  refine ((_ : run_to _ I0 (fun _ s' => exists s1 s2, I2 s1 /\
             (s2 = s1 \/ exists b, union fuel depth sb b s1 = Ret tt s2) /\
             (s' = s2 \/ exists d, union fuel depth (next_id s0) d s2 = Ret tt s'))) _ r s' _ H).
  - assert (Hnx : next_id s0 <> x) by (pose proof x_fresh_lt; lia).
    run_tame x I0_stable sb.
    apply (run_to_bind _ _ I0 (fun z s => I0 s /\ szv s sb = Some z));
      [apply run_to_size_of | intros z; cbv beta].
    apply (run_to_bind _ _ _ (fun _ => I1)); [apply size_write | intros _; cbv beta].
    apply (run_to_bind _ _ I1 (fun q s => I1 s /\ thv s sb = Some q));
      [apply run_to_thickness_of | intros q; cbv beta].
    apply (run_to_bind _ _ _ (fun _ => I2)); [apply thickness_write | intros _; cbv beta].
    tame_step x I2_stable.
    run_tame x I2_stable sb.
    intros s1 rr ss' HI Hrun. exists s1.
    fwd_pure Hrun. case_head Hrun.
    + fwd_as Hrun Ea. ret_inv Ea. ret_inv Hrun. eexists. split; [eassumption|]. split; left; reflexivity.
    + fwd_as Hrun Eb. ret_inv Hrun.
      do 6 fwd_pure Eb.
      fwd_as Eb Ec. eexists.
      split; [eassumption|]. split.
      * case_head Ec; [|ret_inv Ec; left; reflexivity].
        do 2 fwd_pure Ec. right. eexists. destruct_unit. exact Ec.
      * do 6 fwd_pure Eb. case_head Eb; [|ret_inv Eb; left; reflexivity].
        do 2 fwd_pure Eb. right. eexists. destruct_unit. exact Eb.
  - split; [|split]; cbn; try reflexivity.
    intros b Hb. unfold szv, thv, tgt_sz, tgt_th; cbn.
    rewrite !(lookup_insert_ne _ (S (next_id s0))) by congruence.
    destruct (Nat.eqb_spec b (next_id s0)) as [->|Hne].
    + rewrite !lookup_insert_eq. auto.
    + rewrite !lookup_insert_ne by congruence. auto.
Qed.

End SplitSizes.

Lemma size_at_szv (s : State) (b : bid) :
  size_at s b = match szv s b with Some (Some z) => z | _ => 0%Z end.
Proof. unfold size_at, szv. destruct (store s !! b) as [bd|]; cbn; [destruct (b_size bd)|]; reflexivity. Qed.

Lemma thick_at_thv (s : State) (b : bid) :
  thick_at s b = match thv s b with Some (Some q) => q | _ => 0 end.
Proof. unfold thick_at, thv. destruct (store s !! b) as [bd|]; cbn; [destruct (b_thickness bd)|]; reflexivity. Qed.

Lemma sum_size_app (s : State) (l1 l2 : list bid) :
  sum_size s (l1 ++ l2) = (sum_size s l1 + sum_size s l2)%Z.
Proof. induction l1 as [|b l1 IH]; simpl; [reflexivity|]. rewrite IH. lia. Qed.

Lemma sum_thickness_app (s : State) (l1 l2 : list bid) :
  sum_thickness s (l1 ++ l2) == sum_thickness s l1 + sum_thickness s l2.
Proof. induction l1 as [|b l1 IH]; simpl; [ring|]. rewrite IH. ring. Qed.

Lemma sum_size_ext (s s' : State) (l : list bid) :
  (forall b, In b l -> szv s' b = szv s b) -> sum_size s' l = sum_size s l.
Proof.
  induction l as [|b l IH]; intros H; simpl; [reflexivity|].
  rewrite !(size_at_szv _ b), (H b (or_introl eq_refl)), IH; [reflexivity|].
  intros c Hc. exact (H c (or_intror Hc)).
Qed.

Lemma sum_thickness_ext (s s' : State) (l : list bid) :
  (forall b, In b l -> thv s' b = thv s b) -> sum_thickness s' l = sum_thickness s l.
Proof.
  induction l as [|b l IH]; intros H; simpl; [reflexivity|].
  rewrite !(thick_at_thv _ b), (H b (or_introl eq_refl)), IH; [reflexivity|].
  intros c Hc. exact (H c (or_intror Hc)).
Qed.

(** Claim C1 does not hold: on the structure built for one edge and one
    obstacle, splitting the edge's straight bundle at the obstacle raises
    the total [size] from 4 to 6 and the total [thickness] from 3 to 5. *)
Lemma split_changes_totals :
  total_size ex_state = 4%Z /\ total_thickness ex_state == 3 /\
  exists r s', split 10 10 terminal_backbone 2%nat 3%nat 0 ex_state = Ret r s' /\
    total_size s' = 6%Z /\ total_thickness s' == 5.
Proof.
  split; [vm_compute; reflexivity|]. split; [vm_compute; reflexivity|].
  do 2 eexists. split; [vm_compute; reflexivity|].
  split; vm_compute; reflexivity.
Qed.

(** [split(sb, x, t)] first adds the copy [sb2] of [sb] to the straight
    bundles and a new elbow bundle [eb] with [sb]'s size and thickness to
    the elbow bundles, changing no other size or thickness: the totals
    grow by [2 * sb.size] and [2 * sb.thickness]. Afterwards it runs at
    most [union(sb, _)] and then [union(sb2, _)]. *)
Lemma split_totals (fuel depth : nat) (gbe : State -> bid -> Q -> point * point)
  (s : State) (sb x : bid) (t : Q) (sbd : bundle) r s' :
  (forall k : bid, (next_id s <= k)%nat -> store s !! k = None) ->
  (forall b, In b (straight_bundles s ++ elbow_bundles s) -> is_Some (store s !! b)) ->
  store s !! sb = Some sbd -> is_Some (store s !! x) -> sb <> x ->
  split fuel depth gbe sb x t s = Ret r s' ->
  exists s1 s2,
    total_size s1 = (total_size s + 2 * size_at s sb)%Z /\
    total_thickness s1 == total_thickness s + 2 * thick_at s sb /\
    (s2 = s1 \/ exists b, union fuel depth sb b s1 = Ret tt s2) /\
    (s' = s2 \/ exists d, union fuel depth (next_id s) d s2 = Ret tt s').
Proof.
  intros Hf Hl Hsb Hx Hsbx H.
  destruct (split_sizes_run fuel depth gbe s sb x sbd Hf Hsb Hx Hsbx t r s' H)
    as (s1 & s2 & [[(A & C & D) E1] E2] & U1 & U2).
  exists s1, s2. split; [|split; [|split; [exact U1|exact U2]]].
  all: assert (Hold : forall b, In b (straight_bundles s ++ elbow_bundles s) ->
            szv s1 b = szv s b /\ thv s1 b = thv s b).
  all: try (intros b Hb; pose proof (lookup_some_lt s b Hf (Hl b Hb));
    destruct (A b) as [A1 A2]; [lia|];
    unfold tgt_sz, tgt_th in A1, A2;
    rewrite (proj2 (Nat.eqb_neq b (next_id s))) in A1, A2 by lia; auto).
  all: assert (Hn : szv s1 (next_id s) = Some (b_size sbd) /\ thv s1 (next_id s) = Some (b_thickness sbd))
    by (destruct (A (next_id s)) as [A1 A2]; [lia|];
        unfold tgt_sz, tgt_th in A1, A2; rewrite Nat.eqb_refl in A1, A2; auto).
  all: assert (Hsz : size_at s sb = match b_size sbd with Some z => z | None => 0%Z end)
    by (unfold size_at; rewrite Hsb; reflexivity).
  all: assert (Hth : thick_at s sb = match b_thickness sbd with Some q => q | None => 0 end)
    by (unfold thick_at; rewrite Hsb; reflexivity).
  all: unfold total_size, total_thickness; rewrite C, D.
  - rewrite !sum_size_app.
    rewrite (sum_size_ext s s1 (straight_bundles s)), (sum_size_ext s s1 (elbow_bundles s)).
    + simpl. rewrite Hsz, !size_at_szv, (proj1 Hn), E1.
      destruct (b_size sbd); lia.
    + intros b Hb. apply Hold. apply in_or_app. right. exact Hb.
    + intros b Hb. apply Hold. apply in_or_app. left. exact Hb.
  - rewrite !sum_thickness_app.
    rewrite (sum_thickness_ext s s1 (straight_bundles s)), (sum_thickness_ext s s1 (elbow_bundles s)).
    + simpl. rewrite Hth, !thick_at_thv, (proj2 Hn), E2. ring.
    + intros b Hb. apply Hold. apply in_or_app. right. exact Hb.
    + intros b Hb. apply Hold. apply in_or_app. left. exact Hb.
Qed.


(* ------------------------------------------------------------------ *)
(** ** C6 *)

(** Claim C6 does not hold for [union]: called with two non-terminal
    straight bundles that are not associated with the same points, it
    raises, but only after [x.size] and [x.thickness] have been
    increased, and the raised exception leaves them changed. *)
Lemma union_raises_after_update :
  size_at ex2_state 4%nat = 1%Z /\ thick_at ex2_state 4%nat == 1 /\
  exists msg s', union 10 10 4%nat 5%nat ex2_state = Raise (Exception msg) s' /\
    size_at s' 4%nat = 2%Z /\ thick_at s' 4%nat == 2.
Proof.
  split; [reflexivity|]. split; [reflexivity|].
  do 2 eexists. split; [vm_compute; reflexivity|].
  split; vm_compute; reflexivity.
Qed.

Lemma is_connected_to_run (s : State) (b other : bid) (bd : bundle) :
  store s !! b = Some bd -> is_connected_to b other s = Ret (connected s b other) s.
Proof. intros H. unfold is_connected_to, connected, get, mbind, M_bind, mret, M_ret. rewrite H. reflexivity. Qed.

Lemma kind_of_run (s : State) (b : bid) (bd : bundle) :
  store s !! b = Some bd -> kind_of b s = Ret (b_kind bd) s.
Proof. intros H. unfold kind_of, get, mbind, M_bind, mret, M_ret. rewrite H. reflexivity. Qed.

Lemma is_terminal_of_run (s : State) (b : bid) (bd : bundle) :
  store s !! b = Some bd -> is_terminal_of b s = Ret (b_is_terminal bd) s.
Proof. intros H. unfold is_terminal_of, get, mbind, M_bind, mret, M_ret. rewrite H. reflexivity. Qed.

(** *** Sizes only grow in [union] *)

Ltac grows_same :=
  split; [intros ?z ?Hz; eexists; split; [eassumption|lia]
        |intros ?q ?Hq; eexists; split; [eassumption|apply Qle_refl]].

Lemma unite_loop_O fuel d x e ei : unite_loop fuel d x O e ei = raise OutOfFuel.
Proof. reflexivity. Qed.

Lemma unite_loop_S fuel d x n e e_inner :
  unite_loop fuel d x (S n) e e_inner =
   (c1 ← is_connected_to e x;
    go ← (if (c1 : bool) then
            (ei ← deref e_inner; c2 ← is_connected_to ei x;
             if (c2 : bool) then (t ← is_terminal_of ei; mret (negb t)) else mret false)
          else mret false);
    if negb go then mret tt else
    ei ← deref e_inner;
    n1 ← next e x; n2 ← next ei x;
    e' ← (if ref_eqb n1 n2 then (union fuel d e ei;; mret e) else mret ei);
    ei' ← inner_of e';
    unite_loop fuel d x n e' ei').
Proof. reflexivity. Qed.

Lemma grows_refl (s : State) : nonneg s -> grows s s.
Proof. intros N. split; [exact N|]. intros b. grows_same. Qed.

Lemma grows_trans (s1 s2 s3 : State) : grows s1 s2 -> grows s2 s3 -> grows s1 s3.
Proof.
  intros [_ G1] [N3 G2]. split; [exact N3|]. intros b. split.
  - intros z H. destruct (proj1 (G1 b) z H) as (z1 & H1 & L1).
    destruct (proj1 (G2 b) z1 H1) as (z2 & H2 & L2). exists z2. split; [exact H2|lia].
  - intros q H. destruct (proj2 (G1 b) q H) as (q1 & H1 & L1).
    destruct (proj2 (G2 b) q1 H1) as (q2 & H2 & L2). exists q2. split; [exact H2|lra].
Qed.

Lemma grows_ret {A} (a : A) : grows_m (mret a).
Proof. intros s N. apply grows_refl, N. Qed.

Lemma grows_raise {A} (e : exn) : grows_m (@raise A e).
Proof. intros s N. apply grows_refl, N. Qed.

Lemma grows_bind {A B} (m : M A) (f : A -> M B) :
  grows_m m -> (forall a, grows_m (f a)) -> grows_m (a ← m; f a).
Proof.
  intros Hm Hf s N. pose proof (Hm s N) as G. unfold mbind, M_bind.
  destruct (m s) as [a s1|e s1]; cbn in G |- *; [|exact G].
  exact (grows_trans _ _ _ G (Hf a s1 (proj1 G))).
Qed.

Lemma grows_get (b : bid) : grows_m (get b).
Proof. intros s N. unfold get. destruct (store s !! b); apply grows_refl, N. Qed.

Lemma grows_read {A} (f : State -> A) : grows_m (fun s => Ret (f s) s).
Proof. intros s N. apply grows_refl, N. Qed.

Lemma grows_modify (b : bid) (f : bundle -> bundle) :
  (forall bd, b_size (f bd) = b_size bd) -> (forall bd, b_thickness (f bd) = b_thickness bd) ->
  grows_m (modify b f).
Proof.
  intros Hs Ht s N. unfold modify.
  destruct (store s !! b) as [bd|] eqn:E; cbn; [|apply grows_refl, N].
  assert (V : forall c, szv {| store := <[b:=f bd]> (store s); straight_bundles := straight_bundles s;
      elbow_bundles := elbow_bundles s; next_id := next_id s; edges := edges s |} c = szv s c /\
      thv {| store := <[b:=f bd]> (store s); straight_bundles := straight_bundles s;
      elbow_bundles := elbow_bundles s; next_id := next_id s; edges := edges s |} c = thv s c).
  { intros c. unfold szv, thv; cbn. destruct (decide (c = b)) as [->|Hc].
    - rewrite lookup_insert_eq, E. cbn. rewrite Hs, Ht. auto.
    - rewrite lookup_insert_ne by congruence. auto. }
  split.
  - intros c bd' L. cbn in L. destruct (decide (c = b)) as [->|Hc].
    + rewrite lookup_insert_eq in L. injection L as <-. rewrite Hs, Ht. exact (N b bd E).
    + rewrite lookup_insert_ne in L by congruence. exact (N c bd' L).
  - intros c. destruct (V c) as [V1 V2]. rewrite V1, V2.
    grows_same.
Qed.

Lemma grows_remove_straight (b : bid) : grows_m (remove_straight b).
Proof.
  intros s N. unfold remove_straight. destruct (remove_first b (straight_bundles s)); cbn;
    [|apply grows_refl, N].
  split; [exact N|]. intros c. unfold szv, thv; cbn.
  grows_same.
Qed.

Lemma grows_remove_elbow (b : bid) : grows_m (remove_elbow b).
Proof.
  intros s N. unfold remove_elbow. destruct (remove_first b (elbow_bundles s)); cbn;
    [|apply grows_refl, N].
  split; [exact N|]. intros c. unfold szv, thv; cbn.
  grows_same.
Qed.

(** [x.size += y.size] on non-negative sizes. *)
Lemma grows_size_add (x y : bid) (k : M unit) :
  grows_m k ->
  grows_m (xs ← size_of x; xs ← req xs; ys ← size_of y; ys ← req ys;
           modify x (set_size (Some (xs + ys)%Z));; k).
Proof.
  intros Hk s N. unfold size_of, get, req, mbind, M_bind, mret, M_ret, raise.
  destruct (store s !! x) as [bx|] eqn:Ex; cbn; [|apply grows_refl, N].
  destruct (b_size bx) as [zx|] eqn:Zx; cbn; [|apply grows_refl, N].
  destruct (store s !! y) as [b_y|] eqn:Ey; cbn; [|apply grows_refl, N].
  destruct (b_size b_y) as [zy|] eqn:Zy; cbn; [|apply grows_refl, N].
  unfold modify. rewrite Ex.
  set (s1 := {| store := <[x:=set_size (Some (zx + zy)%Z) bx]> (store s);
                straight_bundles := straight_bundles s; elbow_bundles := elbow_bundles s;
                next_id := next_id s; edges := edges s |}).
  assert (Hzy : (0 <= zy)%Z) by exact (proj1 (N y b_y Ey) zy Zy).
  assert (Hzx : (0 <= zx)%Z) by exact (proj1 (N x bx Ex) zx Zx).
  assert (G : grows s s1).
  { split.
    - intros c bd L. unfold s1 in L; cbn in L. destruct (decide (c = x)) as [->|Hc].
      + rewrite lookup_insert_eq in L. injection L as <-. cbn. split; [intros z Hz; injection Hz as <-; lia|].
        exact (proj2 (N x bx Ex)).
      + rewrite lookup_insert_ne in L by congruence. exact (N c bd L).
    - intros c. unfold szv, thv, s1; cbn. destruct (decide (c = x)) as [->|Hc].
      + rewrite lookup_insert_eq, Ex. cbn. split.
        * intros z Hz. rewrite Zx in Hz. injection Hz as <-. exists (zx + zy)%Z. split; [reflexivity|lia].
        * intros q Hq. exists q. split; [exact Hq|apply Qle_refl].
      + rewrite lookup_insert_ne by congruence. grows_same. }
  exact (grows_trans _ _ _ G (Hk s1 (proj1 G))).
Qed.

(** [x.thickness += y.thickness] on non-negative thicknesses. *)
Lemma grows_thickness_add (x y : bid) (k : M unit) :
  grows_m k ->
  grows_m (xt ← thickness_of x; xt ← req xt; yt ← thickness_of y; yt ← req yt;
           modify x (set_thickness (Some (xt + yt)));; k).
Proof.
  intros Hk s N. unfold thickness_of, get, req, mbind, M_bind, mret, M_ret, raise.
  destruct (store s !! x) as [bx|] eqn:Ex; cbn; [|apply grows_refl, N].
  destruct (b_thickness bx) as [tx|] eqn:Tx; cbn; [|apply grows_refl, N].
  destruct (store s !! y) as [b_y|] eqn:Ey; cbn; [|apply grows_refl, N].
  destruct (b_thickness b_y) as [ty|] eqn:Ty; cbn; [|apply grows_refl, N].
  unfold modify. rewrite Ex.
  set (s1 := {| store := <[x:=set_thickness (Some (tx + ty)) bx]> (store s);
                straight_bundles := straight_bundles s; elbow_bundles := elbow_bundles s;
                next_id := next_id s; edges := edges s |}).
  assert (Hty : 0 <= ty) by exact (proj2 (N y b_y Ey) ty Ty).
  assert (Htx : 0 <= tx) by exact (proj2 (N x bx Ex) tx Tx).
  assert (G : grows s s1).
  { split.
    - intros c bd L. unfold s1 in L; cbn in L. destruct (decide (c = x)) as [->|Hc].
      + rewrite lookup_insert_eq in L. injection L as <-. cbn. split; [exact (proj1 (N x bx Ex))|].
        intros q Hq; injection Hq as <-; lra.
      + rewrite lookup_insert_ne in L by congruence. exact (N c bd L).
    - intros c. unfold szv, thv, s1; cbn. destruct (decide (c = x)) as [->|Hc].
      + rewrite lookup_insert_eq, Ex. cbn. split.
        * intros z Hz. exists z. split; [exact Hz|lia].
        * intros q Hq. rewrite Tx in Hq. injection Hq as <-. exists (tx + ty). split; [reflexivity|lra].
      + rewrite lookup_insert_ne by congruence. grows_same. }
  exact (grows_trans _ _ _ G (Hk s1 (proj1 G))).
Qed.

Ltac grows_core extra :=
  unfold straight_is_closer_than, has_same_orientation_as, elbow_is_closer_than, step2,
    is_associated_with, left_of, right_of, size_of, thickness_of, is_terminal_of,
    orientation_of, layer_thickness_of, inner_of, point_of, kind_of, next, is_connected_to;
  repeat match goal with
  | |- grows_m (mbind (fun xs => mbind (fun xs' => mbind (fun ys => mbind (fun ys' =>
         mbind (fun _ => _) (modify _ (set_size _))) (req _)) _) (req _)) _) =>
      apply grows_size_add
  | |- grows_m (mbind (fun xt => mbind (fun xt' => mbind (fun yt => mbind (fun yt' =>
         mbind (fun _ => _) (modify _ (set_thickness _))) (req _)) _) (req _)) _) =>
      apply grows_thickness_add
  | |- grows_m (mbind _ _) => apply grows_bind; [|intros ?; cbv beta]
  | |- grows_m (mret _) => apply grows_ret
  | |- grows_m (raise _) => apply grows_raise
  | |- grows_m (get _) => apply grows_get
  | |- grows_m (deref ?o) => destruct o; [apply grows_ret|apply grows_raise]
  | |- grows_m (req ?o) => destruct o; [apply grows_ret|apply grows_raise]
  | |- grows_m (fun s => Ret _ s) => apply grows_read
  | |- grows_m (remove_straight _) => apply grows_remove_straight
  | |- grows_m (remove_elbow _) => apply grows_remove_elbow
  | |- grows_m (modify _ _) => apply grows_modify; intros ?; reflexivity
  | |- grows_m (match ?c with _ => _ end) => destruct c
  | |- grows_m _ => extra
  end.

Lemma grows_chain_contains (n : nat) (cur : option bid) (t : bid) : grows_m (chain_contains n cur t).
Proof.
  revert cur. induction n as [|n IH]; intros cur; cbn [chain_contains]; [apply grows_raise|].
  grows_core idtac. apply IH.
Qed.

Lemma grows_step2 (c : bid) (r : bool) : grows_m (step2 c r).
Proof. unfold step2. grows_core idtac. Qed.

Lemma grows_walk_pair (n : nat) (cs ce : bid) (rs re : bool) : grows_m (walk_pair n cs ce rs re).
Proof.
  revert cs ce. induction n as [|n IH]; intros cs ce; cbn [walk_pair]; [apply grows_raise|].
  grows_core ltac:(first [apply IH | apply grows_step2]).
Qed.

Lemma grows_elbow_is_closer_than (f : nat) (a b : bid) : grows_m (elbow_is_closer_than f a b).
Proof.
  grows_core ltac:(first [apply grows_chain_contains | apply grows_walk_pair | apply grows_step2]).
Qed.

Lemma grows_straight_is_closer_than (f : nat) (a b : bid) (p : point) :
  grows_m (straight_is_closer_than f a b p).
Proof.
  grows_core ltac:(first [apply grows_chain_contains | apply grows_walk_pair | apply grows_step2]).
Qed.

Lemma grows_has_same_orientation_as (a b : bid) : grows_m (has_same_orientation_as a b).
Proof. grows_core idtac. Qed.

Lemma grows_repoint (n : nat) (fr : bool) (cur : option bid) (o w : bid) :
  grows_m (repoint n fr cur o w).
Proof.
  revert cur. induction n as [|n IH]; intros cur; cbn [repoint]; [apply grows_raise|].
  grows_core ltac:(apply IH).
Qed.

Lemma union_S (fuel d : nat) (x y : bid) :
  union fuel (S d) x y =
    kx ← kind_of x; ky ← kind_of y;
    if negb (kind_eqb kx ky) then raise (Exception "Cannot union") else
    tx ← is_terminal_of x;
    ty ← (if (tx : bool) then mret true else is_terminal_of y);
    if (ty : bool) then mret tt else
    xs ← size_of x; xs ← req xs; ys ← size_of y; ys ← req ys;
    modify x (set_size (Some (xs + ys)%Z));;
    xt ← thickness_of x; xt ← req xt; yt ← thickness_of y; yt ← req yt;
    modify x (set_thickness (Some (xt + yt)));;
    match kx with
    | StraightBundle =>
        (* Set left of x *)
        xl ← left_of x; xl ← deref xl; xlp ← point_of xl;
        c ← straight_is_closer_than fuel x y xlp;
        (if (c : bool) then
           (same ← has_same_orientation_as x y;
            v ← (if (same : bool) then left_of y else right_of y);
            modify x (set_left v))
         else mret tt);;
        (* Set right of x *)
        xr ← right_of x; xr ← deref xr; xrp ← point_of xr;
        c' ← straight_is_closer_than fuel x y xrp;
        (if (c' : bool) then
           (same ← has_same_orientation_as x y;
            v ← (if (same : bool) then right_of y else left_of y);
            modify x (set_right v))
         else mret tt);;
        (* Update the elbow bundles referencing y to reference x *)
        yl ← left_of y; repoint fuel true yl y x;;
        yr ← right_of y; repoint fuel false yr y x;;
        (* Check to see if two elbows on the left must merge *)
        el ← left_of x; el ← deref el; eli ← inner_of el;
        tl ← is_terminal_of el;
        (if (tl : bool) then mret tt else unite_loop fuel d x fuel el eli);;
        (* Check to see if two elbows on the right must merge *)
        er ← right_of x; er ← deref er; eri ← inner_of er;
        tr ← is_terminal_of er;
        (if (tr : bool) then mret tt else unite_loop fuel d x fuel er eri);;
        remove_straight y
    | ElbowBundle =>
        c ← elbow_is_closer_than fuel y x;
        (if (c : bool) then
           (yi ← inner_of y; modify x (set_inner yi);;
            ylt ← layer_thickness_of y; modify x (set_layer_thickness ylt))
         else
           (sbl ← left_of y; sbl ← deref sbl; sblr ← right_of sbl;
            (if ref_eqb sblr (Some y) then modify sbl (set_right (Some x))
             else modify sbl (set_left (Some x)));;
            sbr ← right_of y; sbr ← deref sbr; sbrl ← left_of sbr;
            (if ref_eqb sbrl (Some y) then modify sbr (set_left (Some x))
             else modify sbr (set_right (Some x)))));;
        remove_elbow y
    end.
Proof. reflexivity. Qed.

Lemma grows_unite_loop (fuel d : nat) (x : bid) :
  (forall a b, grows_m (union fuel d a b)) ->
  forall n e ei, grows_m (unite_loop fuel d x n e ei).
Proof.
  intros U n. induction n as [|n IH]; intros e ei; [rewrite unite_loop_O; apply grows_raise|].
  rewrite unite_loop_S. grows_core ltac:(first [apply IH | apply U]).
Qed.

Lemma grows_union (fuel depth : nat) (x y : bid) : grows_m (union fuel depth x y).
Proof.
  revert x y. induction depth as [|d IH]; intros x y; [apply grows_raise|].
  rewrite union_S.
  grows_core ltac:(first [apply grows_unite_loop; exact IH | apply grows_chain_contains
    | apply grows_walk_pair | apply grows_step2 | apply grows_repoint]).
Qed.

Lemma nonneg_set_size (s : State) (x : bid) (bx : bundle) (z : Z) :
  nonneg s -> store s !! x = Some bx -> (0 <= z)%Z ->
  nonneg (mkState (<[x:=set_size (Some z) bx]> (store s)) (straight_bundles s)
            (elbow_bundles s) (next_id s) (edges s)).
Proof.
  intros N Hx Hz c bd L. cbn in L. destruct (decide (c = x)) as [->|Hc].
  - rewrite lookup_insert_eq in L. injection L as <-. cbn.
    split; [intros z' E; injection E as <-; exact Hz|exact (proj2 (N x bx Hx))].
  - rewrite lookup_insert_ne in L by congruence. exact (N c bd L).
Qed.

Lemma nonneg_set_thickness (s : State) (x : bid) (bx : bundle) (q : Q) :
  nonneg s -> store s !! x = Some bx -> 0 <= q ->
  nonneg (mkState (<[x:=set_thickness (Some q) bx]> (store s)) (straight_bundles s)
            (elbow_bundles s) (next_id s) (edges s)).
Proof.
  intros N Hx Hq c bd L. cbn in L. destruct (decide (c = x)) as [->|Hc].
  - rewrite lookup_insert_eq in L. injection L as <-. cbn.
    split; [exact (proj1 (N x bx Hx))|intros q' E; injection E as <-; exact Hq].
  - rewrite lookup_insert_ne in L by congruence. exact (N c bd L).
Qed.

Lemma size_add_run (s : State) (x y : bid) (bx b_y : bundle) (zx zy : Z) (k : M unit) :
  store s !! x = Some bx -> store s !! y = Some b_y -> b_size bx = Some zx -> b_size b_y = Some zy ->
  (xs ← size_of x; xs ← req xs; ys ← size_of y; ys ← req ys;
   modify x (set_size (Some (xs + ys)%Z));; k) s =
  k (mkState (<[x:=set_size (Some (zx + zy)%Z) bx]> (store s)) (straight_bundles s)
       (elbow_bundles s) (next_id s) (edges s)).
Proof.
  intros Hx Hy Zx Zy. unfold size_of, get, req, modify, mbind, M_bind, mret, M_ret.
  rewrite Hx, Zx, Hy, Zy, Hx. reflexivity.
Qed.

Lemma thickness_add_run (s : State) (x y : bid) (bx b_y : bundle) (tx ty : Q) (k : M unit) :
  store s !! x = Some bx -> store s !! y = Some b_y -> b_thickness bx = Some tx ->
  b_thickness b_y = Some ty ->
  (xt ← thickness_of x; xt ← req xt; yt ← thickness_of y; yt ← req yt;
   modify x (set_thickness (Some (xt + yt)));; k) s =
  k (mkState (<[x:=set_thickness (Some (tx + ty)) bx]> (store s)) (straight_bundles s)
       (elbow_bundles s) (next_id s) (edges s)).
Proof.
  intros Hx Hy Tx Ty. unfold thickness_of, get, req, modify, mbind, M_bind, mret, M_ret.
  rewrite Hx, Tx, Hy, Ty, Hx. reflexivity.
Qed.

Lemma grows_out {A} (k : M A) (s : State) (b : bid) (z : Z) (q : Q) :
  grows_m k -> nonneg s -> szv s b = Some (Some z) -> thv s b = Some (Some q) ->
  (z <= size_at (out_state (k s)) b)%Z /\ q <= thick_at (out_state (k s)) b.
Proof.
  intros G N Hz Hq. destruct (G s N) as [_ G'].
  destruct (proj1 (G' b) z Hz) as (z' & E1 & L1). destruct (proj2 (G' b) q Hq) as (q' & E2 & L2).
  unfold size_at, thick_at. unfold szv, thv in E1, E2.
  destruct (store (out_state (k s)) !! b) as [bd|]; cbn in E1, E2; [|discriminate].
  injection E1 as ->. injection E2 as ->. split; assumption.
Qed.

(** [union(x, y)] on two non-terminal bundles of the same kind first adds
    [y]'s size and thickness to [x]'s; nothing afterwards lowers them. *)
Lemma union_grows_x (fuel d : nat) (s : State) (x y : bid) (bx b_y : bundle) (zx zy : Z) (tx ty : Q) :
  nonneg s -> store s !! x = Some bx -> store s !! y = Some b_y ->
  b_size bx = Some zx -> b_size b_y = Some zy -> b_thickness bx = Some tx -> b_thickness b_y = Some ty ->
  kind_eqb (b_kind bx) (b_kind b_y) = true -> b_is_terminal bx = false -> b_is_terminal b_y = false ->
  (zx + zy <= size_at (out_state (union fuel (S d) x y s)) x)%Z /\
  tx + ty <= thick_at (out_state (union fuel (S d) x y s)) x.
Proof.
  intros N Hx Hy Zx Zy Tx Ty Hk Htx Hty. rewrite union_S.
  rewrite (bind_step _ _ s _ s (kind_of_run s x bx Hx)). cbv beta.
  rewrite (bind_step _ _ s _ s (kind_of_run s y b_y Hy)), Hk. cbv beta iota delta [negb].
  rewrite (bind_step _ _ s _ s (is_terminal_of_run s x bx Hx)), Htx. cbv beta iota.
  rewrite (bind_step _ _ s _ s (is_terminal_of_run s y b_y Hy)), Hty. cbv beta iota.
  rewrite (size_add_run s x y bx b_y zx zy _ Hx Hy Zx Zy).
  set (s1 := mkState _ _ _ _ _).
  assert (Hx1 : store s1 !! x = Some (set_size (Some (zx + zy)%Z) bx)) by (apply lookup_insert_eq).
  assert (Hy1 : exists b_y1, store s1 !! y = Some b_y1 /\ b_thickness b_y1 = Some ty).
  { unfold s1; cbn. destruct (decide (y = x)) as [->|Hyx].
    - rewrite lookup_insert_eq. eexists; split; [reflexivity|]. cbn. congruence.
    - rewrite lookup_insert_ne by congruence. eauto. }
  destruct Hy1 as (b_y1 & Hy1 & Ty1).
  assert (N1 : nonneg s1).
  { apply nonneg_set_size; [exact N|exact Hx|].
    pose proof (proj1 (N x bx Hx) zx Zx). pose proof (proj1 (N y b_y Hy) zy Zy). lia. }
  rewrite (thickness_add_run s1 x y _ b_y1 tx ty _ Hx1 Hy1 Tx Ty1).
  apply grows_out.
  - destruct (b_kind bx);
    grows_core ltac:(first [apply grows_unite_loop; intros; apply grows_union
      | apply grows_chain_contains | apply grows_walk_pair | apply grows_step2 | apply grows_repoint]).
  - apply nonneg_set_thickness; [exact N1|exact Hx1|].
    pose proof (proj2 (N x bx Hx) tx Tx). pose proof (proj2 (N1 y b_y1 Hy1) ty Ty1). lra.
  - unfold szv; cbn. rewrite lookup_insert_eq. reflexivity.
  - unfold thv; cbn. rewrite lookup_insert_eq. reflexivity.
Qed.

Lemma split_straight_x (fuel depth : nat) (gbe : State -> bid -> Q -> point * point)
    (s : State) (sb x : bid) (t : Q) (sbd bx : bundle) :
  store s !! sb = Some sbd -> store s !! x = Some bx -> b_kind bx = StraightBundle ->
  x <> next_id s -> x <> S (next_id s) ->
  exists s', split fuel depth gbe sb x t s = Raise AttributeError s' /\
    straight_bundles s' = straight_bundles s ++ [next_id s] /\
    elbow_bundles s' = elbow_bundles s ++ [S (next_id s)].
Proof.
  intros Hsb Hx Hk H1 H2.
  unfold split, backbone, point_of, get, alloc, append_straight, append_elbow,
    mbind, M_bind, mret, M_ret, raise.
  rewrite Hsb. cbv beta iota zeta. cbn [store straight_bundles elbow_bundles next_id edges].
  destruct (gbe _ sb t) as [p1 p2]. cbv beta iota zeta.
  cbn [store straight_bundles elbow_bundles next_id edges].
  rewrite lookup_insert_ne by congruence. rewrite lookup_insert_ne by congruence.
  rewrite Hx, Hk. eexists. split; [reflexivity|]. split; reflexivity.
Qed.

Lemma divide_straight_eb (fuel : nat) (s : State) (sb eb : bid) (sbd ebd : bundle) :
  store s !! sb = Some sbd -> store s !! eb = Some ebd -> b_kind ebd = StraightBundle ->
  eb <> next_id s ->
  exists s', divide fuel sb eb s = Raise AttributeError s' /\
    straight_bundles s' = straight_bundles s ++ [next_id s] /\
    elbow_bundles s' = elbow_bundles s.
Proof.
  intros Hsb Heb Hk H1.
  unfold divide, inner_of, right_of, get, alloc, append_straight,
    mbind, M_bind, mret, M_ret, raise.
  rewrite Hsb. cbv beta iota zeta. cbn [store straight_bundles elbow_bundles next_id edges].
  rewrite lookup_insert_eq. cbv beta iota zeta. cbn [store straight_bundles elbow_bundles next_id edges].
  rewrite lookup_insert_ne by congruence. rewrite Heb, Hk.
  eexists. split; [reflexivity|]. split; reflexivity.
Qed.

Lemma nonneg_all (s : State) : map_Forall (fun _ bd => nonneg_bd bd = true) (store s) -> nonneg s.
Proof.
  intros H b bd L. specialize (H b bd L). unfold nonneg_bd in H. apply andb_prop in H as [H1 H2].
  split.
  - intros z E. rewrite E in H1. apply Z.leb_le, H1.
  - intros q E. rewrite E in H2. apply Qle_bool_iff, H2.
Qed.

(** Claim C6, amended: [merge(sb1, eb, sb2)] checks its arguments first
    and raises an [Exception] with the structure unchanged when [sb1], or
    else [sb2], is not connected to [eb]. [union(x, y)] raises with the
    structure unchanged when [x] and [y] are of different types, and
    returns without any change when either is terminal. In every other
    case (sizes and thicknesses set and non-negative) it first adds [y]'s
    size and thickness to [x]'s, and nothing later lowers them: whether it
    returns or raises, [x.size >= x.size + y.size] and likewise for the
    thickness. So, when [y.size > 0], a raise that leaves the structure
    unchanged happens only for [x] and [y] of different types; the mismatch
    of points is found only after [x] was updated
    ([union_raises_after_update]). [split] and [divide] check nothing:
    given a straight bundle where an elbow bundle is expected, each first
    appends a new straight bundle (and [split] a new elbow bundle) and only
    then raises [AttributeError]. *)
Theorem mutations_check_arguments (fuel d : nat) (s : State) :
  (forall sb1 eb sb2 bd1, store s !! sb1 = Some bd1 -> connected s sb1 eb = false ->
     exists msg, merge fuel sb1 eb sb2 s = Raise (Exception msg) s) /\
  (forall sb1 eb sb2 bd1 bd2, store s !! sb1 = Some bd1 -> connected s sb1 eb = true ->
     store s !! sb2 = Some bd2 -> connected s sb2 eb = false ->
     exists msg, merge fuel sb1 eb sb2 s = Raise (Exception msg) s) /\
  (forall x y bx b_y, store s !! x = Some bx -> store s !! y = Some b_y ->
     kind_eqb (b_kind bx) (b_kind b_y) = false ->
     exists msg, union fuel (S d) x y s = Raise (Exception msg) s) /\
  (forall x y bx b_y, store s !! x = Some bx -> store s !! y = Some b_y ->
     kind_eqb (b_kind bx) (b_kind b_y) = true ->
     b_is_terminal bx || b_is_terminal b_y = true ->
     union fuel (S d) x y s = Ret tt s) /\
  (forall x y bx b_y zx zy tx ty, nonneg s ->
     store s !! x = Some bx -> store s !! y = Some b_y ->
     b_size bx = Some zx -> b_size b_y = Some zy -> b_thickness bx = Some tx -> b_thickness b_y = Some ty ->
     kind_eqb (b_kind bx) (b_kind b_y) = true -> b_is_terminal bx = false -> b_is_terminal b_y = false ->
     (zx + zy <= size_at (out_state (union fuel (S d) x y s)) x)%Z /\
     tx + ty <= thick_at (out_state (union fuel (S d) x y s)) x) /\
  (forall x y bx b_y zx zy tx ty e, nonneg s ->
     store s !! x = Some bx -> store s !! y = Some b_y ->
     b_size bx = Some zx -> b_size b_y = Some zy -> b_thickness bx = Some tx -> b_thickness b_y = Some ty ->
     (0 < zy)%Z -> union fuel (S d) x y s = Raise e s ->
     kind_eqb (b_kind bx) (b_kind b_y) = false) /\
  (forall depth gbe sb x t sbd bx, store s !! sb = Some sbd -> store s !! x = Some bx ->
     b_kind bx = StraightBundle -> x <> next_id s -> x <> S (next_id s) ->
     exists s', split fuel depth gbe sb x t s = Raise AttributeError s' /\
       straight_bundles s' = straight_bundles s ++ [next_id s] /\
       elbow_bundles s' = elbow_bundles s ++ [S (next_id s)]) /\
  (forall sb eb sbd ebd, store s !! sb = Some sbd -> store s !! eb = Some ebd ->
     b_kind ebd = StraightBundle -> eb <> next_id s ->
     exists s', divide fuel sb eb s = Raise AttributeError s' /\
       straight_bundles s' = straight_bundles s ++ [next_id s] /\
       elbow_bundles s' = elbow_bundles s).
Proof.
  assert (Hterm : forall x y bx b_y, store s !! x = Some bx -> store s !! y = Some b_y ->
     kind_eqb (b_kind bx) (b_kind b_y) = true ->
     b_is_terminal bx || b_is_terminal b_y = true ->
     union fuel (S d) x y s = Ret tt s).
  { intros x y bx b_y Hx Hy Hk Ht. cbn [union].
    rewrite (bind_step _ _ s _ s (kind_of_run s x bx Hx)). cbv beta.
    rewrite (bind_step _ _ s _ s (kind_of_run s y b_y Hy)), Hk. cbv beta iota delta [negb].
    rewrite (bind_step _ _ s _ s (is_terminal_of_run s x bx Hx)). cbv beta.
    destruct (b_is_terminal bx); cbv iota.
    + reflexivity.
    + rewrite (bind_step _ _ s _ s (is_terminal_of_run s y b_y Hy)). cbv beta.
      cbn in Ht. rewrite Ht. reflexivity. }
  split; [|split; [|split; [|split; [|split; [|split; [|split]]]]]].
  - intros sb1 eb sb2 bd1 H1 Hc. unfold merge.
    rewrite (bind_step _ _ s _ s (is_connected_to_run s sb1 eb bd1 H1)), Hc.
    eexists. reflexivity.
  - intros sb1 eb sb2 bd1 bd2 H1 Hc1 H2 Hc2. unfold merge.
    rewrite (bind_step _ _ s _ s (is_connected_to_run s sb1 eb bd1 H1)), Hc1. cbv beta iota delta [negb].
    rewrite (bind_step _ _ s _ s (is_connected_to_run s sb2 eb bd2 H2)), Hc2.
    eexists. reflexivity.
  - intros x y bx b_y Hx Hy Hk. cbn [union].
    rewrite (bind_step _ _ s _ s (kind_of_run s x bx Hx)). cbv beta.
    rewrite (bind_step _ _ s _ s (kind_of_run s y b_y Hy)), Hk.
    eexists. reflexivity.
  - exact Hterm.
  - intros x y bx b_y zx zy tx ty N Hx Hy Zx Zy Tx Ty Hk Htx Hty.
    exact (union_grows_x fuel d s x y bx b_y zx zy tx ty N Hx Hy Zx Zy Tx Ty Hk Htx Hty).
  - intros x y bx b_y zx zy tx ty e N Hx Hy Zx Zy Tx Ty Hpos Hr.
    destruct (kind_eqb (b_kind bx) (b_kind b_y)) eqn:Hk; [exfalso|reflexivity].
    destruct (b_is_terminal bx) eqn:Htx.
    + rewrite (Hterm x y bx b_y Hx Hy Hk) in Hr by (rewrite Htx; reflexivity). discriminate.
    + destruct (b_is_terminal b_y) eqn:Hty.
      * rewrite (Hterm x y bx b_y Hx Hy Hk) in Hr by (rewrite Hty, orb_true_r; reflexivity).
        discriminate.
      * destruct (union_grows_x fuel d s x y bx b_y zx zy tx ty N Hx Hy Zx Zy Tx Ty Hk Htx Hty)
          as [G _].
        rewrite Hr in G. cbn [out_state] in G. unfold size_at in G. rewrite Hx, Zx in G. lia.
  - intros depth gbe sb x t sbd bx Hsb Hx Hk H1 H2.
    exact (split_straight_x fuel depth gbe s sb x t sbd bx Hsb Hx Hk H1 H2).
  - intros sb eb sbd ebd Hsb Heb Hk H1.
    exact (divide_straight_eb fuel s sb eb sbd ebd Hsb Heb Hk H1).
Qed.

Lemma mutations_check_arguments_witness :
  (exists msg, merge 10 4%nat 0%nat 5%nat ex2_state = Raise (Exception msg) ex2_state) /\
  (exists msg, union 10 11 0%nat 4%nat ex2_state = Raise (Exception msg) ex2_state) /\
  union 10 11 2%nat 2%nat ex_state = Ret tt ex_state /\
  ((1 + 1 <= size_at (out_state (union 10 11 4%nat 5%nat ex2_state)) 4%nat)%Z /\
   1 + 1 <= thick_at (out_state (union 10 11 4%nat 5%nat ex2_state)) 4%nat) /\
  kind_eqb (b_kind (bend p_a 4%nat)) (b_kind (seg 0%nat 1%nat)) = false /\
  (exists s', split 10 10 terminal_backbone 4%nat 5%nat 0 ex2_state = Raise AttributeError s' /\
     straight_bundles s' = straight_bundles ex2_state ++ [6%nat] /\
     elbow_bundles s' = elbow_bundles ex2_state ++ [7%nat]) /\
  (exists s', divide 10 4%nat 5%nat ex2_state = Raise AttributeError s' /\
     straight_bundles s' = straight_bundles ex2_state ++ [6%nat] /\
     elbow_bundles s' = elbow_bundles ex2_state).
Proof.
  destruct (mutations_check_arguments 10 10 ex2_state) as (_ & Hm & Hu & _ & Hg & Ho & Hs & Hd).
  destruct (mutations_check_arguments 10 10 ex_state) as (_ & _ & _ & Ht & _).
  assert (N : nonneg ex2_state).
  { apply nonneg_all. apply (bool_decide_unpack _). vm_compute. reflexivity. }
  split; [|split; [|split; [|split; [|split; [|split]]]]].
  - apply (Hm 4%nat 0%nat 5%nat (seg 0%nat 1%nat) (seg 2%nat 3%nat)); reflexivity.
  - apply (Hu 0%nat 4%nat (bend p_a 4%nat) (seg 0%nat 1%nat)); reflexivity.
  - apply (Ht 2%nat 2%nat
      (mkBundle StraightBundle None (Some 0%nat) (Some 1%nat) None (Some 1%Z) (Some 1) None true 0)
      (mkBundle StraightBundle None (Some 0%nat) (Some 1%nat) None (Some 1%Z) (Some 1) None true 0));
      reflexivity.
  - apply (Hg 4%nat 5%nat (seg 0%nat 1%nat) (seg 2%nat 3%nat) 1%Z 1%Z 1 1 N); reflexivity.
  - apply (Ho 0%nat 4%nat (bend p_a 4%nat) (seg 0%nat 1%nat) 1%Z 1%Z 1 1
             (Exception "Cannot union") N); reflexivity.
  - apply (Hs 10%nat terminal_backbone 4%nat 5%nat 0 (seg 0%nat 1%nat) (seg 2%nat 3%nat));
      try reflexivity; discriminate.
  - apply (Hd 4%nat 5%nat (seg 0%nat 1%nat) (seg 2%nat 3%nat)); try reflexivity; discriminate.
Defined.

(* ------------------------------------------------------------------ *)
(** ** C9 : the tear phase of [unzip] *)

Lemma teared_refl (s : State) : fresh_ids s -> teared s s.
Proof. intros F. split; [exact F|split; [auto|split; [auto|reflexivity]]]. Qed.

Lemma teared_trans (s1 s2 s3 : State) : teared s1 s2 -> teared s2 s3 -> teared s1 s3.
Proof.
  intros (_ & A1 & B1 & C1) (F2 & A2 & B2 & C2).
  split; [exact F2|split; [auto|split; [|congruence]]].
  intros b Hb. destruct (B2 b Hb) as [H|H]; [|right; exact H].
  destruct (B1 b H) as [H'|H']; [left; exact H'|right; auto].
Qed.

Lemma pure_mono {A} (m : M A) : pure_m m -> mono_m m.
Proof. intros P s a s' F H. rewrite (P _ _ _ H). apply teared_refl, F. Qed.

Lemma mono_bind {A B} (m : M A) (f : A -> M B) :
  mono_m m -> (forall a, mono_m (f a)) -> mono_m (a ← m; f a).
Proof.
  intros Hm Hf s b s' F H. unfold mbind, M_bind in H.
  destruct (m s) as [a s1|e s1] eqn:E; [|discriminate].
  pose proof (Hm _ _ _ F E) as G1. pose proof (Hf _ _ _ _ (proj1 G1) H) as G2.
  exact (teared_trans _ _ _ G1 G2).
Qed.

Lemma mono_modify (b : bid) (f : bundle -> bundle) :
  (forall bd, b_size (f bd) = b_size bd \/ exists z, b_size (f bd) = Some z /\ (z <= 1)%Z) ->
  mono_m (modify b f).
Proof.
  intros Hf s a s' F H. unfold modify in H.
  destruct (store s !! b) as [bd|] eqn:E; [|discriminate]. injection H as _ <-.
  split; [|split; [|split; [|reflexivity]]].
  - intros k Hk. cbn in *. rewrite lookup_insert_ne; [exact (F k Hk)|].
    intros Heq. subst k. rewrite (F b Hk) in E. discriminate.
  - intros c [z [Hz Hle]]. unfold small_at, szv in *. cbn. rewrite lookup_insert.
    case_decide as Hd; [|exists z; auto].
    subst c. rewrite E in Hz. cbn in *. injection Hz as Hz.
    destruct (Hf bd) as [Hs|[z' [Hs Hle']]]; rewrite Hs.
    + exists z. rewrite Hz. auto.
    + exists z'. auto.
  - intros c Hc. left. exact Hc.
Qed.

Lemma mono_alloc (bd : bundle) : mono_m (alloc bd).
Proof.
  intros s a s' F H. unfold alloc in H. injection H as _ <-.
  split; [|split; [|split; [|reflexivity]]].
  - intros k Hk. cbn in *. rewrite lookup_insert_ne by lia. apply F. lia.
  - intros c [z [Hz Hle]]. unfold small_at, szv in *. cbn. rewrite lookup_insert.
    case_decide as Hd; [|exists z; auto].
    subst c. rewrite (F (next_id s) (le_n _)) in Hz. discriminate.
  - intros c Hc. left. exact Hc.
Qed.

Lemma mono_append_elbow (b : bid) : mono_m (append_elbow b).
Proof.
  intros s a s' F H. unfold append_elbow in H. injection H as _ <-.
  split; [exact F|split; [auto|split; [|reflexivity]]].
  intros c Hc. left. exact Hc.
Qed.

Lemma mono_dec {B} (x : bid) (k : M B) :
  mono_m k -> mono_m (v ← size_of x; v' ← req v; modify x (set_size (Some (v' - 1)%Z));; k).
Proof.
  intros Hk s a s' F H. cbv [size_of modify get req mret M_ret raise mbind M_bind] in H.
  destruct (store s !! x) as [bd|] eqn:E; [|discriminate].
  destruct (b_size bd) as [z|] eqn:Ez; [|discriminate].
  rewrite E in H.
  set (s1 := mkState (<[x:=set_size (Some (z - 1)%Z) bd]> (store s)) (straight_bundles s)
               (elbow_bundles s) (next_id s) (edges s)) in H.
  assert (G : teared s s1).
  { split; [|split; [|split; [|reflexivity]]].
    - intros k0 Hk0. cbn in *. rewrite lookup_insert_ne; [exact (F k0 Hk0)|].
      intros Heq. subst k0. rewrite (F x Hk0) in E. discriminate.
    - intros c [w [Hw Hle]]. unfold small_at, szv in *. cbn. rewrite lookup_insert.
      case_decide as Hd; [|exists w; auto].
      subst c. rewrite E in Hw. cbn in Hw. rewrite Ez in Hw. injection Hw as ->.
      exists (w - 1)%Z. split; [reflexivity|lia].
    - intros c Hc. left. exact Hc. }
  exact (teared_trans _ _ _ G (Hk _ _ _ (proj1 G) H)).
Qed.

(** [c = StraightBundle(); self.straight_bundles.append(c); c.size = 1]. *)
Lemma mono_new_straight {B} (k : bid -> M B) :
  (forall c, mono_m (k c)) ->
  mono_m (c ← alloc new_straight; append_straight c;; modify c (set_size (Some 1%Z));; k c).
Proof.
  intros Hk s a s' F H. cbv [alloc append_straight modify mbind M_bind] in H. cbn in H.
  rewrite lookup_insert_eq in H.
  set (s1 := mkState (<[next_id s:=set_size (Some 1%Z) new_straight]> (<[next_id s:=new_straight]> (store s)))
               (straight_bundles s ++ [next_id s]) (elbow_bundles s) (S (next_id s)) (edges s)) in H.
  assert (G : teared s s1).
  { split; [|split; [|split; [|reflexivity]]].
    - intros k0 Hk0. cbn in *. rewrite !lookup_insert_ne by lia. apply F. lia.
    - intros c [w [Hw Hle]]. unfold small_at, szv in *. cbn. rewrite lookup_insert.
      case_decide as Hd; [|rewrite lookup_insert_ne by congruence; exists w; auto].
      subst c. rewrite (F (next_id s) (le_n _)) in Hw. discriminate.
    - intros c Hc. cbn in Hc. apply in_app_or in Hc. destruct Hc as [Hc|[<-|[]]]; [left; exact Hc|].
      right. exists 1%Z. unfold szv. cbn. rewrite lookup_insert_eq. split; [reflexivity|lia]. }
  exact (teared_trans _ _ _ G (Hk _ _ _ _ (proj1 G) H)).
Qed.

Lemma mono_innermost_connected (n : nat) : forall er b, mono_m (innermost_connected n er b).
Proof.
  induction n as [|n IH]; intros er b; cbn [innermost_connected].
  - apply pure_mono, pure_raise.
  - apply mono_bind; [apply pure_mono; solve_pure|intros i].
    apply mono_bind; [apply pure_mono; solve_pure|intros i'].
    apply mono_bind; [apply pure_mono; solve_pure|intros c].
    destruct c; [apply IH|apply pure_mono, pure_ret].
Qed.

Ltac solve_mono :=
  repeat match goal with
  | |- mono_m (mbind _ (alloc new_straight)) => apply mono_new_straight; intros ?
  | |- mono_m (mbind _ (size_of _)) =>
      first [apply mono_dec | apply mono_bind; [apply pure_mono; solve_pure|intros ?; cbv beta]]
  | |- mono_m (mbind _ (alloc _)) => apply mono_bind; [apply mono_alloc|intros ?; cbv beta]
  | |- mono_m (mbind _ (append_elbow _)) => apply mono_bind; [apply mono_append_elbow|intros ?; cbv beta]
  | |- mono_m (mbind _ (innermost_connected _ _ _)) =>
      apply mono_bind; [apply mono_innermost_connected|intros ?; cbv beta]
  | |- mono_m (mbind _ (modify _ _)) => apply mono_bind; [|intros ?; cbv beta]
  | |- mono_m (mbind _ (mret _)) => apply mono_bind; [apply pure_mono, pure_ret|intros ?; cbv beta]
  | |- mono_m (mbind _ (match _ with _ => _ end)) => apply mono_bind; [|intros ?; cbv beta]
  | |- mono_m (mbind _ (if _ then _ else _)) => apply mono_bind; [|intros ?; cbv beta]
  | |- mono_m (mbind _ _) => apply mono_bind; [apply pure_mono; solve_pure|intros ?; cbv beta]
  | |- mono_m (modify _ _) =>
      apply mono_modify; intros ?;
      first [left; reflexivity | right; eexists; split; [reflexivity|lia]]
  | |- mono_m (mret _) => apply pure_mono, pure_ret
  | |- mono_m (raise _) => apply pure_mono, pure_raise
  | |- mono_m (match ?c with _ => _ end) => destruct c
  | |- mono_m (let _ := _ in _) => cbv zeta
  end.

Lemma mono_tear (fuel : nat) (b : bid) : mono_m (tear fuel b).
Proof.
  unfold tear. apply mono_bind; [apply pure_mono; solve_pure|intros bs].
  destruct (size_is_one bs); [apply pure_mono, pure_ret|].
  solve_mono.
Qed.

Lemma size_of_run (s : State) (b : bid) (v : option Z) (s' : State) :
  size_of b s = Ret v s' -> s' = s /\ szv s b = Some v.
Proof.
  unfold size_of, szv. cbv [mbind M_bind get mret M_ret].
  destruct (store s !! b) as [bd|]; intros H; [|discriminate].
  injection H as <- <-. split; reflexivity.
Qed.

Lemma tear_down_small (fuel n : nat) (sb : bid) :
  forall s a s', fresh_ids s -> tear_down fuel n sb s = Ret a s' -> teared s s' /\ small_at s' sb.
Proof.
  induction n as [|n IH]; intros s a s' F H; cbn [tear_down] in H; [discriminate|].
  unfold mbind at 1, M_bind at 1 in H.
  destruct (size_of sb s) as [v s1|e s1] eqn:E; [|discriminate].
  apply size_of_run in E as [-> Hv].
  destruct v as [z|]; [|discriminate].
  rewrite (bind_step (req (Some z)) _ s z s eq_refl) in H.
  destruct (Z.ltb_spec 1 z) as [Hlt|Hle].
  - unfold mbind, M_bind in H. destruct (tear fuel sb s) as [u s2|e s2] eqn:E2; [|discriminate].
    pose proof (mono_tear fuel sb _ _ _ F E2) as G.
    destruct (IH _ _ _ (proj1 G) H) as [G' Hs]. split; [exact (teared_trans _ _ _ G G')|exact Hs].
  - injection H as _ <-. split; [apply teared_refl, F|]. exists z. auto.
Qed.

Lemma tear_all_small (fuel : nat) (l : list bid) :
  forall s a s', fresh_ids s -> tear_all fuel l s = Ret a s' ->
  teared s s' /\ forall b, In b l -> small_at s' b.
Proof.
  induction l as [|sb l IH]; intros s a s' F H; cbn [tear_all] in H.
  - injection H as _ <-. split; [apply teared_refl, F|intros b []].
  - unfold mbind, M_bind in H. destruct (tear_down fuel fuel sb s) as [u s1|e s1] eqn:E; [|discriminate].
    destruct (tear_down_small _ _ _ _ _ _ F E) as [G1 Hs1].
    destruct (IH _ _ _ (proj1 G1) H) as [G2 Hs2].
    split; [exact (teared_trans _ _ _ G1 G2)|].
    intros b [<-|Hb]; [|exact (Hs2 b Hb)].
    destruct G2 as (_ & Hm & _). exact (Hm _ Hs1).
Qed.

(** A second tear phase finds nothing to tear. *)
Lemma tear_all_noop (fuel : nat) (l : list bid) (s : State) :
  (forall b, In b l -> small_at s b) -> (l = [] \/ (0 < fuel)%nat) ->
  tear_all fuel l s = Ret tt s.
Proof.
  intros Hs Hf. induction l as [|sb l IH]; [reflexivity|].
  destruct fuel as [|n]; [destruct Hf as [Hf|Hf]; [discriminate|lia]|].
  cbn [tear_all tear_down]. destruct (Hs sb (or_introl eq_refl)) as [z [Hz Hle]].
  unfold szv in Hz. cbv [mbind M_bind size_of get mret M_ret req].
  destruct (store s !! sb) as [bd|]; [|discriminate]. injection Hz as ->. cbn.
  destruct (Z.ltb_spec 1 z) as [Hlt|_]; [lia|].
  apply IH; [intros b Hb; apply Hs; right; exact Hb|right; lia].
Qed.

(* ------------------------------------------------------------------ *)
(** ** C9 : the reset phases of [unzip] *)

Lemma agree_refl (f : bundle -> bundle) (s : State) : agree f s s.
Proof. repeat split. Qed.

Lemma agree_sym (f : bundle -> bundle) (s1 s2 : State) : agree f s1 s2 -> agree f s2 s1.
Proof. intros (A & B & C & D & E). repeat split; auto. Qed.

Lemma agree_trans (f : bundle -> bundle) (s1 s2 s3 : State) :
  agree f s1 s2 -> agree f s2 s3 -> agree f s1 s3.
Proof.
  intros (A & B & C & D & E) (A' & B' & C' & D' & E').
  split; [congruence|split; [congruence|split; [congruence|split; [congruence|]]]].
  intros k. rewrite E. apply E'.
Qed.

Lemma agree_weaken (f g : bundle -> bundle) (s1 s2 : State) :
  (forall bd1 bd2, f bd1 = f bd2 -> g bd1 = g bd2) -> agree f s1 s2 -> agree g s1 s2.
Proof.
  intros Hfg (A & B & C & D & E). repeat split; auto. intros k. specialize (E k).
  destruct (store s1 !! k), (store s2 !! k); cbn in *; try discriminate; [|reflexivity].
  injection E as E. rewrite (Hfg _ _ E). reflexivity.
Qed.

Lemma agree_lookup (f : bundle -> bundle) (s1 s2 : State) (k : bid) (bd1 : bundle) :
  agree f s1 s2 -> store s1 !! k = Some bd1 ->
  exists bd2, store s2 !! k = Some bd2 /\ f bd1 = f bd2.
Proof.
  intros (_ & _ & _ & _ & E) H1. specialize (E k). rewrite H1 in E.
  destruct (store s2 !! k) as [bd2|]; [|discriminate]. injection E as E. exists bd2. auto.
Qed.

Lemma reader_ret {A} (f : bundle -> bundle) (a : A) : reader f (mret a).
Proof. intros s1 s2 v s1' _ H. injection H as <- <-. split; reflexivity. Qed.

Lemma reader_raise {A} (f : bundle -> bundle) (e : exn) : reader f (@raise A e).
Proof. intros s1 s2 v s1' _ H. discriminate. Qed.

Lemma reader_bind {A B} (f : bundle -> bundle) (m : M A) (k : A -> M B) :
  reader f m -> (forall a, reader f (k a)) -> reader f (a ← m; k a).
Proof.
  intros Hm Hk s1 s2 v s1' Ag H. unfold mbind, M_bind in *.
  destruct (m s1) as [a t1|e t1] eqn:E; [|discriminate].
  destruct (Hm _ _ _ _ Ag E) as [-> E2]. rewrite E2.
  exact (Hk a _ _ _ _ Ag H).
Qed.

Lemma reader_get_k {B} (f : bundle -> bundle) (b : bid) (k : bundle -> M B) :
  (forall bd1 bd2, f bd1 = f bd2 -> k bd1 = k bd2) -> (forall bd, reader f (k bd)) ->
  reader f (bd ← get b; k bd).
Proof.
  intros Hr Hk s1 s2 v s1' Ag H. unfold mbind, M_bind, get in *.
  destruct (store s1 !! b) as [bd1|] eqn:E1; [|discriminate].
  destruct (agree_lookup _ _ _ _ _ Ag E1) as [bd2 [E2 Hf]]. rewrite E2.
  rewrite <- (Hr _ _ Hf). exact (Hk bd1 _ _ _ _ Ag H).
Qed.

Lemma sim_reader {A X} (f : bundle -> bundle) (fld : bundle -> X) (m : M A) :
  reader f m -> sim f fld m.
Proof.
  intros Hm s1 s2 v s1' Ag H. destruct (Hm _ _ _ _ Ag H) as [-> E2].
  exists s2. split; [exact E2|split; [exact Ag|]]. intros b. right. split; reflexivity.
Qed.

Lemma sim_bind {A B X} (f : bundle -> bundle) (fld : bundle -> X) (m : M A) (k : A -> M B) :
  sim f fld m -> (forall a, sim f fld (k a)) -> sim f fld (a ← m; k a).
Proof.
  intros Hm Hk s1 s2 v s1' Ag H. unfold mbind, M_bind in *.
  destruct (m s1) as [a t1|e t1] eqn:E; [|discriminate].
  destruct (Hm _ _ _ _ Ag E) as [t2 [E2 [Ag1 D1]]]. rewrite E2.
  destruct (Hk a _ _ _ _ Ag1 H) as [s2' [E3 [Ag2 D2]]].
  exists s2'. split; [exact E3|split; [exact Ag2|]].
  intros b. destruct (D2 b) as [D|[Da Db]]; [left; exact D|].
  destruct (D1 b) as [D|[Dc Dd]]; [left; congruence|right; split; congruence].
Qed.

Lemma sim_modify {X} (f : bundle -> bundle) (fld : bundle -> X) (b : bid) (g : bundle -> bundle) :
  (forall bd1 bd2, f bd1 = f bd2 -> f (g bd1) = f (g bd2)) ->
  (forall bd1 bd2, f bd1 = f bd2 -> fld (g bd1) = fld (g bd2)) ->
  sim f fld (modify b g).
Proof.
  intros Hf Hfld s1 s2 v s1' Ag H. unfold modify in *.
  destruct (store s1 !! b) as [bd1|] eqn:E1; [|discriminate].
  destruct (agree_lookup _ _ _ _ _ Ag E1) as [bd2 [E2 Hb]]. rewrite E2.
  injection H as <- <-. eexists. split; [reflexivity|].
  destruct Ag as (A & B & C & D & E).
  split; [|intros k; unfold fv; cbn [store]; rewrite !lookup_insert;
    case_decide; [left; cbn; rewrite (Hfld _ _ Hb); reflexivity|right; split; reflexivity]].
  cbn [store straight_bundles elbow_bundles next_id edges].
  split; [exact A|split; [exact B|split; [exact C|split; [exact D|]]]].
  intros k. cbn [store]. rewrite !lookup_insert. case_decide; [|apply E].
  cbn. rewrite (Hf _ _ Hb). reflexivity.
Qed.

Lemma pres_bind {A B} (f : bundle -> bundle) (m : M A) (k : A -> M B) :
  pres f m -> (forall a, pres f (k a)) -> pres f (a ← m; k a).
Proof.
  intros Hm Hk s v s' H. unfold mbind, M_bind in H.
  destruct (m s) as [a t|e t] eqn:E; [|discriminate].
  exact (agree_trans _ _ _ _ (Hm _ _ _ E) (Hk a _ _ _ H)).
Qed.

Lemma pres_reader {A} (f : bundle -> bundle) (m : M A) : reader f m -> pres f m.
Proof.
  intros Hm s v s' H. destruct (Hm _ _ _ _ (agree_refl f s) H) as [-> _]. apply agree_refl.
Qed.

Lemma pres_modify (f : bundle -> bundle) (b : bid) (g : bundle -> bundle) :
  (forall bd, f (g bd) = f bd) -> pres f (modify b g).
Proof.
  intros Hg s v s' H. unfold modify in H.
  destruct (store s !! b) as [bd|] eqn:E; [|discriminate]. injection H as _ <-.
  split; [reflexivity|split; [reflexivity|split; [reflexivity|split; [reflexivity|]]]].
  intros k. cbn [store]. rewrite lookup_insert. case_decide; [|reflexivity].
  subst k. rewrite E. cbn. rewrite Hg. reflexivity.
Qed.

Lemma pres_pure {A} (f : bundle -> bundle) (m : M A) : pure_m m -> pres f m.
Proof. intros Hm s v s' H. rewrite (Hm _ _ _ H). apply agree_refl. Qed.

Ltac solve_respect :=
  intros [] []; unfold strip_tl, strip_l, strip_t, set_thickness, set_layer_thickness; cbn;
  intros Heq; injection Heq; intros; subst; reflexivity.

Ltac solve_reader :=
  unfold left_of, right_of, size_of, thickness_of, is_terminal_of, inner_of, next,
    is_connected_to, deref, req;
  repeat match goal with
  | |- reader _ (mbind _ (get _)) => apply reader_get_k; [solve_respect|intros ?]
  | |- reader _ (mbind _ _) => apply reader_bind; [|intros ?; cbv beta]
  | |- reader _ (mret _) => apply reader_ret
  | |- reader _ (raise _) => apply reader_raise
  | |- reader _ (match ?c with _ => _ end) => destruct c
  end.

Lemma sim_reset_edge (n : nat) :
  forall th prev cur, sim strip_tl b_thickness (reset_edge n th prev cur).
Proof.
  induction n as [|n IH]; intros th prev cur; cbn [reset_edge].
  - apply sim_reader, reader_raise.
  - apply sim_bind; [apply sim_reader; solve_reader|intros t].
    destruct t; [apply sim_reader, reader_ret|].
    apply sim_bind; [apply sim_modify; solve_respect|intros _].
    apply sim_bind; [apply sim_reader; solve_reader|intros nx].
    apply sim_bind; [apply sim_reader; solve_reader|intros nx'].
    apply IH.
Qed.

Lemma sim_reset_thickness (fuel : nat) (es : list (bid * Q)) :
  sim strip_tl b_thickness (reset_thickness fuel es).
Proof.
  induction es as [|[v1 th] es IH]; cbn [reset_thickness]; [apply sim_reader, reader_ret|].
  apply sim_bind; [apply sim_reader; solve_reader|intros p].
  apply sim_bind; [apply sim_reader; solve_reader|intros p'].
  apply sim_bind; [apply sim_reader; solve_reader|intros c].
  apply sim_bind; [apply sim_reader; solve_reader|intros c'].
  apply sim_bind; [apply sim_reset_edge|intros _]. exact IH.
Qed.

Lemma pres_reset_thickness (fuel : nat) (es : list (bid * Q)) :
  pres strip_t (reset_thickness fuel es).
Proof.
  assert (Hedge : forall n th prev cur, pres strip_t (reset_edge n th prev cur)).
  { induction n as [|n IH]; intros th prev cur; cbn [reset_edge].
    - apply pres_pure, pure_raise.
    - apply pres_bind; [apply pres_pure; solve_pure|intros t].
      destruct t; [apply pres_pure, pure_ret|].
      apply pres_bind; [apply pres_modify; intros []; reflexivity|intros _].
      apply pres_bind; [apply pres_pure; solve_pure|intros nx].
      apply pres_bind; [apply pres_pure; solve_pure|intros nx'].
      apply IH. }
  induction es as [|[v1 th] es IH]; cbn [reset_thickness]; [apply pres_pure, pure_ret|].
  apply pres_bind; [apply pres_pure; solve_pure|intros p].
  apply pres_bind; [apply pres_pure; solve_pure|intros p'].
  apply pres_bind; [apply pres_pure; solve_pure|intros c].
  apply pres_bind; [apply pres_pure; solve_pure|intros c'].
  apply pres_bind; [apply Hedge|intros _]. exact IH.
Qed.

Lemma reader_sum_layers (n : nat) : forall i acc, reader strip_l (sum_layers n i acc).
Proof.
  induction n as [|n IH]; intros i acc; cbn [sum_layers]; [apply reader_raise|].
  destruct i as [e|]; [|apply reader_ret].
  apply reader_bind; [solve_reader|intros it].
  apply reader_bind; [solve_reader|intros th].
  apply reader_bind; [solve_reader|intros th'].
  apply reader_bind; [solve_reader|intros i']. apply IH.
Qed.

Lemma sim_reset_layers (fuel : nat) (l : list bid) :
  sim strip_l b_layer_thickness (reset_layers fuel l).
Proof.
  induction l as [|eb l IH]; cbn [reset_layers]; [apply sim_reader, reader_ret|].
  apply sim_bind; [apply sim_reader; solve_reader|intros i].
  apply sim_bind; [apply sim_reader, reader_sum_layers|intros lt].
  apply sim_bind; [apply sim_modify; solve_respect|intros _]. exact IH.
Qed.

Lemma pres_reset_layers (fuel : nat) (l : list bid) : pres strip_l (reset_layers fuel l).
Proof.
  induction l as [|eb l IH]; cbn [reset_layers]; [apply pres_pure, pure_ret|].
  apply pres_bind; [apply pres_pure; solve_pure|intros i].
  apply pres_bind; [apply pres_reader, reader_sum_layers|intros lt].
  apply pres_bind; [apply pres_modify; intros []; reflexivity|intros _]. exact IH.
Qed.

Ltac solve_fields :=
  intros [] []; unfold strip_tl, strip_l, strip_t, set_thickness, set_layer_thickness; cbn;
  intros;
  repeat match goal with
  | H : mkBundle _ _ _ _ _ _ _ _ _ _ = mkBundle _ _ _ _ _ _ _ _ _ _ |- _ =>
      injection H; clear H; intros
  end;
  subst; reflexivity.

Lemma agree_fv {X} (f : bundle -> bundle) (fld : bundle -> X) (s1 s2 : State) :
  (forall bd1 bd2, f bd1 = f bd2 -> fld bd1 = fld bd2) -> agree f s1 s2 ->
  forall k, fv fld s1 k = fv fld s2 k.
Proof.
  intros Hf (_ & _ & _ & _ & E) k. specialize (E k). unfold fv.
  destruct (store s1 !! k), (store s2 !! k); cbn in *; try discriminate; [|reflexivity].
  injection E as E. rewrite (Hf _ _ E). reflexivity.
Qed.

Lemma agree_join {X} (f g : bundle -> bundle) (fld : bundle -> X) (s1 s2 : State) :
  (forall bd1 bd2, f bd1 = f bd2 -> fld bd1 = fld bd2 -> g bd1 = g bd2) ->
  agree f s1 s2 -> (forall k, fv fld s1 k = fv fld s2 k) -> agree g s1 s2.
Proof.
  intros Hf (A & B & C & D & E) Hk.
  split; [exact A|split; [exact B|split; [exact C|split; [exact D|]]]].
  intros k. specialize (E k). specialize (Hk k). unfold fv in Hk.
  destruct (store s1 !! k), (store s2 !! k); cbn in *; try discriminate; [|reflexivity].
  injection E as E. injection Hk as Hk. rewrite (Hf _ _ E Hk). reflexivity.
Qed.

Lemma agree_id (s1 s2 : State) : agree (fun bd => bd) s1 s2 -> s1 = s2.
Proof.
  destruct s1 as [m1 l1 e1 n1 d1], s2 as [m2 l2 e2 n2 d2].
  intros (A & B & C & D & E). cbn in *. subst.
  assert (m1 = m2) as ->; [|reflexivity].
  apply map_eq. intros k. specialize (E k). rewrite !option_fmap_id in E. exact E.
Qed.

Lemma tear_all_fuel_zero (s : State) (l : list bid) (s' : State) :
  tear_all 0 l s = Ret tt s' -> l = [].
Proof. destruct l; [reflexivity|]. cbn. intros H. discriminate. Qed.

(** Claim C9: [unzip] is idempotent. On a structure whose identifiers from
    [next_id] on are unused, when a first [unzip] returns, a second [unzip]
    returns too and leaves the whole structure unchanged: every bundle
    with all its fields (size, thickness, layer_thickness, links), the
    lists of straight and elbow bundles, and the allocation counter. *)
Theorem unzip_idempotent (fuel : nat) (s s1 : State) :
  fresh_ids s -> unzip fuel s = Ret tt s1 -> unzip fuel s1 = Ret tt s1.
Proof.
  intros F H. cbv [unzip get_state mbind M_bind] in H.
  destruct (tear_all fuel (straight_bundles s) s) as [[] sa|e sa] eqn:Ea; [|discriminate].
  destruct (reset_thickness fuel (edges sa) sa) as [[] sb|e sb] eqn:Eb; [|discriminate].
  rename H into Ec.
  destruct (tear_all_small _ _ _ _ _ F Ea) as [Ta Sa].
  pose proof (pres_reset_thickness _ _ _ _ _ Eb) as Pb.
  pose proof (pres_reset_layers _ _ _ _ _ Ec) as Pc.
  assert (Aas1 : agree strip_tl sa s1).
  { apply (agree_trans _ _ sb).
    - exact (agree_weaken strip_t strip_tl _ _ ltac:(solve_fields) Pb).
    - exact (agree_weaken strip_l strip_tl _ _ ltac:(solve_fields) Pc). }
  (* the second tear phase *)
  assert (Small : forall b, In b (straight_bundles s1) -> small_at s1 b).
  { intros b Hb. rewrite <- (proj1 Aas1) in Hb.
    destruct Ta as (_ & _ & Tl & _).
    assert (Hsa : small_at sa b) by (destruct (Tl b Hb) as [Hs|Hs]; [exact (Sa b Hs)|exact Hs]).
    destruct Hsa as [z [Hz Hle]]. exists z. split; [|exact Hle].
    change (fv b_size s1 b = Some (Some z)). rewrite <- (agree_fv strip_tl b_size sa s1); [exact Hz| |exact Aas1].
    solve_fields. }
  assert (T2 : tear_all fuel (straight_bundles s1) s1 = Ret tt s1).
  { apply tear_all_noop; [exact Small|].
    destruct fuel as [|n]; [left|right; lia].
    pose proof (tear_all_fuel_zero _ _ _ Ea) as Hl.
    rewrite Hl in Ea. cbn in Ea. injection Ea as <-.
    rewrite <- (proj1 Aas1). exact Hl. }
  (* the second thickness phase *)
  destruct (sim_reset_thickness fuel (edges sa) _ _ _ _ Aas1 Eb) as [V [EV [AbV DV]]].
  pose proof (pres_reset_thickness _ _ _ _ _ EV) as P1V.
  assert (ThV : forall k, fv b_thickness sb k = fv b_thickness V k).
  { intros k. destruct (DV k) as [D|[D1 D2]]; [symmetry; exact D|].
    rewrite D2. apply (agree_fv strip_l); [solve_fields|exact Pc]. }
  assert (AbV' : agree strip_l sb V) by exact (agree_join strip_tl strip_l b_thickness _ _ ltac:(solve_fields) AbV ThV).
  (* the second layer phase *)
  destruct (sim_reset_layers fuel (elbow_bundles sb) _ _ _ _ AbV' Ec) as [W [EW [A1W DW]]].
  assert (LtW : forall k, fv b_layer_thickness s1 k = fv b_layer_thickness W k).
  { intros k. destruct (DW k) as [D|[D1 D2]]; [symmetry; exact D|].
    rewrite D2. apply (agree_fv strip_t); [solve_fields|exact P1V]. }
  pose proof (agree_id _ _ (agree_join strip_l (fun bd => bd) b_layer_thickness _ _ ltac:(solve_fields) A1W LtW)) as <-.
  cbv [unzip get_state mbind M_bind]. rewrite T2.
  assert (Ee : edges s1 = edges sa) by (destruct Aas1 as (_ & _ & _ & Ae & _); symmetry; exact Ae).
  rewrite Ee, EV.
  assert (El : elbow_bundles V = elbow_bundles sb) by (destruct AbV' as (_ & Ae & _); symmetry; exact Ae).
  rewrite El. exact EW.
Qed.

Lemma unzip_idempotent_witness :
  exists s1, fresh_ids ex3_state /\ unzip 10 ex3_state = Ret tt s1 /\ unzip 10 s1 = Ret tt s1.
Proof.
  assert (F : fresh_ids ex3_state).
  { intros k Hk. change (3 <= k)%nat in Hk. unfold ex3_state, ex3_store. cbn [store].
    rewrite !lookup_insert_ne by (intro; subst; lia). apply lookup_empty. }
  destruct (unzip 10 ex3_state) as [[] s1|e s1] eqn:E; [|vm_compute in E; discriminate].
  exists s1. split; [exact F|split; [reflexivity|]].
  exact (unzip_idempotent 10 ex3_state s1 F E).
Defined.

(* ------------------------------------------------------------------ *)
(** ** C1: each mutation and the totals *)



Lemma total_size_lists (s : State) : total_size s = sum_size s (lists s).
Proof. unfold total_size, lists. rewrite sum_size_app. reflexivity. Qed.

Lemma total_thickness_lists (s : State) : total_thickness s == sum_thickness s (lists s).
Proof. unfold total_thickness, lists. rewrite sum_thickness_app. reflexivity. Qed.

Lemma sum_size_point (s s' : State) (b : bid) (l : list bid) :
  (forall c, c <> b -> size_at s' c = size_at s c) ->
  sum_size s' l = (sum_size s l + Z.of_nat (count_occ Nat.eq_dec l b) * (size_at s' b - size_at s b))%Z.
Proof.
  intros H. induction l as [|c l IH]; simpl; [lia|].
  rewrite IH. destruct (Nat.eq_dec c b) as [->|Hc]; [lia|]. rewrite (H c Hc). lia.
Qed.

Lemma sum_thickness_point (s s' : State) (b : bid) (l : list bid) :
  (forall c, c <> b -> thick_at s' c = thick_at s c) ->
  sum_thickness s' l == sum_thickness s l +
    inject_Z (Z.of_nat (count_occ Nat.eq_dec l b)) * (thick_at s' b - thick_at s b).
Proof.
  intros H. induction l as [|c l IH]; simpl; [ring|].
  rewrite IH. destruct (Nat.eq_dec c b) as [->|Hc].
  - rewrite Nat2Z.inj_succ, <- Z.add_1_r, inject_Z_plus. ring.
  - rewrite (H c Hc). ring.
Qed.

Lemma count_one (l : list bid) (b : bid) : NoDup l -> In b l -> count_occ Nat.eq_dec l b = 1%nat.
Proof. intros Hn Hb. apply NoDup_ListNoDup in Hn. apply (proj1 (NoDup_count_occ' Nat.eq_dec l) Hn b Hb). Qed.

Lemma count_zero (l : list bid) (b : bid) : ~ In b l -> count_occ Nat.eq_dec l b = 0%nat.
Proof. intros Hb. apply count_occ_not_In. exact Hb. Qed.

Lemma size_at_upd_ne (s : State) (b c : bid) (bd : bundle) : c <> b -> size_at (upd s b bd) c = size_at s c.
Proof. intros H. unfold size_at, upd; cbn [store]. rewrite lookup_insert_ne by congruence. reflexivity. Qed.

Lemma thick_at_upd_ne (s : State) (b c : bid) (bd : bundle) : c <> b -> thick_at (upd s b bd) c = thick_at s c.
Proof. intros H. unfold thick_at, upd; cbn [store]. rewrite lookup_insert_ne by congruence. reflexivity. Qed.

Lemma size_at_upd_eq (s : State) (b : bid) (bd : bundle) :
  size_at (upd s b bd) b = match b_size bd with Some z => z | None => 0%Z end.
Proof. unfold size_at, upd; cbn [store]. rewrite lookup_insert_eq. reflexivity. Qed.

Lemma thick_at_upd_eq (s : State) (b : bid) (bd : bundle) :
  thick_at (upd s b bd) b = match b_thickness bd with Some q => q | None => 0 end.
Proof. unfold thick_at, upd; cbn [store]. rewrite lookup_insert_eq. reflexivity. Qed.

(** Writing the bundle [b] of the lists changes the totals by the change
    of its own [size] and [thickness]. *)
Lemma total_upd (s : State) (b : bid) (bd : bundle) :
  NoDup (lists s) -> In b (lists s) ->
  total_size (upd s b bd) = (total_size s + size_at (upd s b bd) b - size_at s b)%Z /\
  total_thickness (upd s b bd) == total_thickness s + thick_at (upd s b bd) b - thick_at s b.
Proof.
  intros Hn Hb. rewrite !total_size_lists, !total_thickness_lists.
  change (lists (upd s b bd)) with (lists s). split.
  - rewrite (sum_size_point s (upd s b bd) b) by (intros; apply size_at_upd_ne; auto).
    rewrite count_one by auto. lia.
  - rewrite (sum_thickness_point s (upd s b bd) b) by (intros; apply thick_at_upd_ne; auto).
    rewrite count_one by auto. change (inject_Z (Z.of_nat 1)) with 1. ring.
Qed.

Lemma total_upd_keep (s : State) (b : bid) (bd bd0 : bundle) :
  store s !! b = Some bd0 -> b_size bd = b_size bd0 -> b_thickness bd = b_thickness bd0 ->
  total_size (upd s b bd) = total_size s /\ total_thickness (upd s b bd) = total_thickness s.
Proof.
  intros E Hs Ht. unfold total_size, total_thickness. change (straight_bundles (upd s b bd)) with (straight_bundles s).
  change (elbow_bundles (upd s b bd)) with (elbow_bundles s).
  assert (Hv : forall c, szv (upd s b bd) c = szv s c /\ thv (upd s b bd) c = thv s c).
  { intros c. unfold szv, thv, upd; cbn [store]. destruct (Nat.eq_dec c b) as [->|Hc].
    - rewrite lookup_insert_eq, E. cbn. rewrite Hs, Ht. auto.
    - rewrite lookup_insert_ne by congruence. auto. }
  rewrite !(sum_size_ext s (upd s b bd)), !(sum_thickness_ext s (upd s b bd)) by (intros; apply Hv).
  split; reflexivity.
Qed.

Lemma get_inv (b : bid) (s : State) (bd : bundle) (s' : State) :
  get b s = Ret bd s' -> store s !! b = Some bd /\ s' = s.
Proof. unfold get. destruct (store s !! b); intros H; [injection H as <- <-; auto|discriminate]. Qed.

Lemma modify_inv (b : bid) (f : bundle -> bundle) (s : State) (u : unit) (s' : State) :
  modify b f s = Ret u s' -> exists bd, store s !! b = Some bd /\ s' = upd s b (f bd).
Proof.
  unfold modify. destruct (store s !! b) as [bd|]; intros H; [injection H as _ <-; eauto|discriminate].
Qed.

Lemma read_inv {A} (fld : bundle -> A) (b : bid) (s : State) (v : A) (s' : State) :
  (bd ← get b; mret (fld bd)) s = Ret v s' -> s' = s /\ exists bd, store s !! b = Some bd /\ fld bd = v.
Proof.
  unfold mbind, M_bind, get. destruct (store s !! b) as [bd|]; intros H; [|discriminate].
  cbv [mret M_ret] in H. injection H as <- <-. eauto.
Qed.

Lemma inner_of_inv (b : bid) (s : State) (v : option bid) (s' : State) :
  inner_of b s = Ret v s' ->
  s' = s /\ exists bd, store s !! b = Some bd /\ b_kind bd = ElbowBundle /\ b_inner bd = v.
Proof.
  unfold inner_of, mbind, M_bind, get. destruct (store s !! b) as [bd|]; intros H; [|discriminate].
  destruct (b_kind bd) eqn:K; [discriminate|]. cbv [mret M_ret] in H. injection H as <- <-. eauto.
Qed.

Lemma next_inv (b p : bid) (s : State) (v : option bid) (s' : State) :
  next b p s = Ret v s' ->
  s' = s /\ exists bd, store s !! b = Some bd /\ (b_left bd = Some p \/ b_right bd = Some p) /\
    (v = b_left bd \/ v = b_right bd).
Proof.
  cbv [next is_connected_to mbind M_bind get mret M_ret raise].
  destruct (store s !! b) as [bd|] eqn:Eb; intros H; [|discriminate].
  destruct (ref_eqb (b_left bd) (Some p) || ref_eqb (b_right bd) (Some p)) eqn:C; cbn in H; [|discriminate].
  rewrite Eb in H. injection H as <- <-. split; [reflexivity|]. exists bd. split; [reflexivity|].
  split; [|destruct (ref_eqb (b_left bd) (Some p)); auto].
  apply orb_true_iff in C. destruct C as [L|R]; [left|right];
  [destruct (b_left bd) as [l|]; [apply Nat.eqb_eq in L; subst; auto|discriminate]
  |destruct (b_right bd) as [l|]; [apply Nat.eqb_eq in R; subst; auto|discriminate]].
Qed.

Lemma deref_inv (o : option bid) (s : State) (v : bid) (s' : State) :
  deref o s = Ret v s' -> o = Some v /\ s' = s.
Proof. destruct o; cbn; intros H; [injection H as <- <-; auto|discriminate]. Qed.

Lemma req_inv {A} (o : option A) (s : State) (v : A) (s' : State) :
  req o s = Ret v s' -> o = Some v /\ s' = s.
Proof. destruct o; cbn; intros H; [injection H as <- <-; auto|discriminate]. Qed.

Lemma olisted_mono (s s' : State) (o : option bid) :
  incl (lists s) (lists s') -> olisted s o -> olisted s' o.
Proof. destruct o; cbn; auto. Qed.

Lemma wf_ptrs (s : State) (b : bid) (bd : bundle) :
  wf s -> In b (lists s) -> store s !! b = Some bd ->
  olisted s (b_left bd) /\ olisted s (b_right bd) /\ olisted s (b_inner bd).
Proof. intros (_ & _ & Hc) Hb E. destruct (Hc b Hb) as (bd' & E' & H). congruence. Qed.

Lemma wf_stored (s : State) (b : bid) : wf s -> In b (lists s) -> is_Some (store s !! b).
Proof. intros (_ & _ & Hc) Hb. destruct (Hc b Hb) as (bd' & E' & H). eauto. Qed.

Lemma wf_listed_lt (s : State) (b : bid) : wf s -> In b (lists s) -> (b < next_id s)%nat.
Proof.
  intros W Hb. destruct (wf_stored s b W Hb) as [bd E].
  destruct (Nat.lt_ge_cases b (next_id s)) as [H|H]; [exact H|].
  destruct W as (_ & Hf & _). rewrite (Hf b H) in E. discriminate.
Qed.

Lemma wf_upd (s : State) (b : bid) (bd : bundle) :
  wf s -> is_Some (store s !! b) ->
  (In b (lists s) -> olisted s (b_left bd) /\ olisted s (b_right bd) /\ olisted s (b_inner bd)) ->
  wf (upd s b bd).
Proof.
  intros (Hn & Hf & Hc) [x Hb] Hp. split; [exact Hn|split].
  - intros k Hk. unfold upd; cbn [store next_id] in *. rewrite lookup_insert_ne; [apply Hf; auto|].
    intros Heq. subst k. rewrite (Hf b Hk) in Hb. discriminate.
  - intros c Hc'. unfold upd at 1. cbn [store]. destruct (Nat.eq_dec c b) as [->|Hne].
    + rewrite lookup_insert_eq. exists bd. split; [reflexivity|]. apply Hp. exact Hc'.
    + rewrite lookup_insert_ne by congruence. apply Hc. exact Hc'.
Qed.

Lemma agree_upd_lr (s : State) (b : bid) (bd bd' : bundle) :
  store s !! b = Some bd -> strip_lr bd' = strip_lr bd -> agree strip_lr s (upd s b bd').
Proof.
  intros E H. split; [reflexivity|split; [reflexivity|split; [reflexivity|split; [reflexivity|]]]].
  intros k. unfold upd; cbn [store]. destruct (Nat.eq_dec k b) as [->|Hne].
  - rewrite lookup_insert_eq, E. cbn. rewrite H. reflexivity.
  - rewrite lookup_insert_ne by congruence. reflexivity.
Qed.

Lemma agree_lists (f : bundle -> bundle) (s s' : State) : agree f s s' -> lists s' = lists s.
Proof. intros (A & B & _). unfold lists. rewrite A, B. reflexivity. Qed.

Lemma lr_fields (bd1 bd2 : bundle) : strip_lr bd1 = strip_lr bd2 ->
  b_kind bd1 = b_kind bd2 /\ b_point bd1 = b_point bd2 /\ b_inner bd1 = b_inner bd2 /\
  b_size bd1 = b_size bd2 /\ b_thickness bd1 = b_thickness bd2 /\
  b_layer_thickness bd1 = b_layer_thickness bd2 /\ b_is_terminal bd1 = b_is_terminal bd2 /\
  b_orientation bd1 = b_orientation bd2.
Proof. destruct bd1, bd2. unfold strip_lr, set_left, set_right. cbn. intros H. injection H. intros. subst. auto 10. Qed.

Lemma agree_lr_totals (s s' : State) : agree strip_lr s s' ->
  total_size s' = total_size s /\ total_thickness s' = total_thickness s.
Proof.
  intros Ag. unfold total_size, total_thickness.
  destruct Ag as (A & B & C & D & E). rewrite <- A, <- B.
  assert (Hz : forall k, szv s' k = szv s k /\ thv s' k = thv s k).
  { intros k. unfold szv, thv. destruct (store s !! k) as [bd|] eqn:E1.
    - destruct (agree_lookup _ _ _ _ _ (conj A (conj B (conj C (conj D E)))) E1) as (bd' & E2 & Hf).
      rewrite E2. apply lr_fields in Hf. destruct Hf as (_ & _ & _ & Hs & Ht & _).
      cbn. rewrite Hs, Ht. auto.
    - specialize (E k). rewrite E1 in E. destruct (store s' !! k); [discriminate|auto]. }
  rewrite !(sum_size_ext s s'), !(sum_thickness_ext s s') by (intros; apply Hz). split; reflexivity.
Qed.

Lemma agree_lr_lookup (s s' : State) (b : bid) (bd : bundle) :
  agree strip_lr s s' -> store s !! b = Some bd ->
  exists bd', store s' !! b = Some bd' /\ strip_lr bd' = strip_lr bd.
Proof. intros Ag E. destruct (agree_lookup _ _ _ _ _ Ag E) as (bd' & E' & H). eauto. Qed.

Lemma wf_agree_lr (s s' : State) : agree strip_lr s s' -> fresh_ids s -> fresh_ids s'.
Proof.
  intros (A & B & C & D & E) Hf k Hk. rewrite <- C in Hk. specialize (E k). rewrite (Hf k Hk) in E.
  destruct (store s' !! k); [discriminate|reflexivity].
Qed.

(** Re-pointing sides at a listed bundle keeps the structure well formed
    and changes nothing but [left] and [right] fields. *)
Lemma repoint_keeps (n : nat) (fr : bool) (old new : bid) :
  forall cur s u s', wf s -> In new (lists s) -> repoint n fr cur old new s = Ret u s' ->
  wf s' /\ agree strip_lr s s'.
Proof.
  induction n as [|n IH]; intros cur s u s' W Hn H; [discriminate|].
  cbn [repoint] in H. destruct cur as [c|]; [|ret_inv H; split; [exact W|apply agree_refl]].
  fwd_pure H. destruct (negb a); [ret_inv H; split; [exact W|apply agree_refl]|].
  fwd_pure H. apply get_inv in E0 as [Ec _].
  fwd_as H Em.
  assert (Hm : exists v, s0 = upd s c v /\ strip_lr v = strip_lr a0 /\
     (b_left v = b_left a0 \/ b_left v = Some new) /\ (b_right v = b_right a0 \/ b_right v = Some new) /\
     b_inner v = b_inner a0).
  { destruct fr; [destruct (ref_eqb (b_right a0) (Some old))|destruct (ref_eqb (b_left a0) (Some old))];
    apply modify_inv in Em; destruct Em as (bd & Ebd & ->); rewrite Ec in Ebd; injection Ebd as <-;
    eexists; (split; [reflexivity|]); destruct a0; cbn; auto 10. }
  destruct Hm as (v & -> & Hv & Hl & Hr & Hi).
  assert (W1 : wf (upd s c v)).
  { apply wf_upd; [exact W|eauto|]. intros Hc. destruct (wf_ptrs s c a0 W Hc Ec) as (P1 & P2 & P3).
    split; [destruct Hl as [-> | ->]; auto|split; [destruct Hr as [-> | ->]; auto|rewrite Hi; auto]]. }
  assert (A1 : agree strip_lr s (upd s c v)) by (apply (agree_upd_lr s c a0 v); auto).
  fwd_pure H. destruct (IH _ _ _ _ W1 Hn H) as [W2 A2].
  split; [exact W2|exact (agree_trans _ _ _ _ A1 A2)].
Qed.

Ltac fwdp H x E :=
  apply bind_ret_inv in H; let s1 := fresh "s" in destruct H as (x & s1 & E & H);
  let P := fresh "P" in assert (P : s1 = _) by (refine (pure_run _ _ _ _ _ E); solve_pure2); subst s1.
Ltac fwdm H x E :=
  apply bind_ret_inv in H; let s1 := fresh "s" in destruct H as (x & s1 & E & H).

Lemma sum_size_perm (s : State) (l l' : list bid) : l ≡ₚ l' -> sum_size s l = sum_size s l'.
Proof. induction 1; simpl; lia. Qed.

Lemma sum_thickness_perm (s : State) (l l' : list bid) : l ≡ₚ l' -> sum_thickness s l == sum_thickness s l'.
Proof.
  induction 1; simpl; [reflexivity| rewrite IHPermutation; reflexivity|ring|].
  rewrite IHPermutation1. exact IHPermutation2.
Qed.

Lemma alloc_inv (bd : bundle) (s : State) (n : bid) (s' : State) :
  alloc bd s = Ret n s' -> n = next_id s /\
  s' = mkState (<[next_id s := bd]> (store s)) (straight_bundles s) (elbow_bundles s) (S (next_id s)) (edges s).
Proof. unfold alloc. intros H. injection H as <- <-. auto. Qed.

Lemma append_straight_inv (b : bid) (s : State) (u : unit) (s' : State) :
  append_straight b s = Ret u s' ->
  s' = mkState (store s) (straight_bundles s ++ [b]) (elbow_bundles s) (next_id s) (edges s).
Proof. unfold append_straight. intros H. injection H as _ <-. auto. Qed.

Lemma append_elbow_inv (b : bid) (s : State) (u : unit) (s' : State) :
  append_elbow b s = Ret u s' ->
  s' = mkState (store s) (straight_bundles s) (elbow_bundles s ++ [b]) (next_id s) (edges s).
Proof. unfold append_elbow. intros H. injection H as _ <-. auto. Qed.

(** A new object, allocated at [next_id] with listed references, and
    appended to one of the lists. *)
Lemma wf_alloc (s s2 : State) (bd : bundle) :
  wf s -> olisted s (b_left bd) -> olisted s (b_right bd) -> olisted s (b_inner bd) ->
  store s2 = <[next_id s := bd]> (store s) -> next_id s2 = S (next_id s) ->
  lists s2 ≡ₚ next_id s :: lists s ->
  wf s2 /\ incl (lists s) (lists s2) /\ In (next_id s) (lists s2) /\
  total_size s2 = (total_size s + size_at s2 (next_id s))%Z /\
  total_thickness s2 == total_thickness s + thick_at s2 (next_id s).
Proof.
  intros W Pl Pr Pi Es En Hp.
  pose proof W as (Hn & Hf & Hc).
  assert (Hnot : ~ In (next_id s) (lists s)).
  { intros Hin. pose proof (wf_listed_lt s _ W Hin). lia. }
  assert (Hincl : incl (lists s) (lists s2)).
  { intros c Hc'. apply (Permutation_in _ (Permutation_sym Hp)). right. exact Hc'. }
  assert (Hin : In (next_id s) (lists s2)).
  { apply (Permutation_in _ (Permutation_sym Hp)). left. reflexivity. }
  assert (Hold : forall c, In c (lists s) -> store s2 !! c = store s !! c).
  { intros c Hc'. rewrite Es, lookup_insert_ne; [reflexivity|]. intros Heq.
    apply Hnot. rewrite Heq. exact Hc'. }
  split; [|split; [exact Hincl|split; [exact Hin|]]].
  - split; [|split].
    + rewrite Hp. apply NoDup_cons_2; [|exact Hn]. intros Hin'. apply Hnot.
      apply list_elem_of_In. exact Hin'.
    + intros k Hk. rewrite Es, lookup_insert_ne by lia. apply Hf. lia.
    + intros c Hc'. apply (Permutation_in _ Hp) in Hc'. destruct Hc' as [<-|Hc'].
      * exists bd. rewrite Es, lookup_insert_eq. split; [reflexivity|].
        split; [|split]; eapply olisted_mono; eauto.
      * destruct (Hc c Hc') as (bd' & E' & P1 & P2 & P3). exists bd'. rewrite Hold by exact Hc'.
        split; [exact E'|]. split; [|split]; eapply olisted_mono; eauto.
  - rewrite !total_size_lists, !total_thickness_lists.
    rewrite (sum_size_perm _ _ _ Hp), (sum_thickness_perm _ _ _ Hp). cbn [sum_size sum_thickness foldr].
    change (foldr (fun b acc => (size_at s2 b + acc)%Z) 0%Z (lists s)) with (sum_size s2 (lists s)).
    change (foldr (fun b acc => thick_at s2 b + acc) 0 (lists s)) with (sum_thickness s2 (lists s)).
    rewrite (sum_size_ext s s2), (sum_thickness_ext s s2).
    + split; [lia|ring].
    + intros c Hc'. unfold thv. rewrite Hold by exact Hc'. reflexivity.
    + intros c Hc'. unfold szv. rewrite Hold by exact Hc'. reflexivity.
Qed.

Lemma divide_grow_listed (n : nat) (target : bid) :
  forall en size th s r s', wf s -> In en (lists s) -> divide_grow n target en size th s = Ret r s' ->
  s' = s /\ In (fst (fst r)) (lists s).
Proof.
  induction n as [|n IH]; intros en size th s r s' W Hen H; [discriminate|].
  cbn [divide_grow] in H. fwdp H sz E1. fwdp H ts E2. fwdp H ts' E3.
  destruct (Z.ltb sz ts').
  - fwdp H i Ei. apply inner_of_inv in Ei as [_ (bd & Eb & _ & Ei)].
    fwdp H i' Ed. apply deref_inv in Ed as [Ed _]. subst i.
    fwdp H z1 F1. fwdp H z2 F2. fwdp H z3 F3. fwdp H z4 F4. fwdp H z5 F5.
    refine (IH i' _ _ s r s' W _ H).
    destruct (wf_ptrs s en bd W Hen Eb) as (_ & _ & P). rewrite Ei in P. exact P.
  - ret_inv H. auto.
Qed.

Lemma divide_grow_repoint_keeps (n : nat) (sb sb2 : bid) :
  forall en size th s r s', wf s -> In sb2 (lists s) -> In en (lists s) ->
  divide_grow_repoint n sb sb2 en size th s = Ret r s' ->
  wf s' /\ agree strip_lr s s' /\ In (fst (fst r)) (lists s).
Proof.
  induction n as [|n IH]; intros en size th s r s' W H2 Hen H; [discriminate|].
  cbn [divide_grow_repoint] in H. fwdp H sz E1. fwdp H ts E2. fwdp H ts' E3.
  destruct (Z.ltb sz ts'); [|ret_inv H; split; [exact W|split; [apply agree_refl|exact Hen]]].
  fwdp H l El. fwdm H u Em.
  assert (Hm : exists bd v, store s !! en = Some bd /\ s0 = upd s en v /\ strip_lr v = strip_lr bd /\
     (b_left v = b_left bd \/ b_left v = Some sb2) /\ (b_right v = b_right bd \/ b_right v = Some sb2)).
  { destruct (ref_eqb l (Some sb)); apply modify_inv in Em; destruct Em as (bd & Ebd & ->);
    exists bd; eexists; (split; [exact Ebd|split; [reflexivity|]]); destruct bd; cbn; auto. }
  destruct Hm as (bd & v & Ebd & -> & Hv & Hl & Hr).
  destruct (wf_ptrs s en bd W Hen Ebd) as (P1 & P2 & P3).
  assert (W1 : wf (upd s en v)).
  { apply wf_upd; [exact W|eauto|]. intros _.
    apply lr_fields in Hv. destruct Hv as (_ & _ & -> & _).
    split; [destruct Hl as [-> | ->]; auto|split; [destruct Hr as [-> | ->]; auto|exact P3]]. }
  assert (A1 : agree strip_lr s (upd s en v)) by (apply (agree_upd_lr s en bd v); auto).
  fwdp H i Ei. apply inner_of_inv in Ei as [_ (bd' & Eb' & _ & Ei)].
  unfold upd in Eb'; cbn [store] in Eb'. rewrite lookup_insert_eq in Eb'. injection Eb' as <-.
  fwdp H i' Ed. apply deref_inv in Ed as [Ed _]. subst i.
  fwdp H z1 F1. fwdp H z2 F2. fwdp H z3 F3. fwdp H z4 F4. fwdp H z5 F5.
  assert (Hi : In i' (lists s)).
  { apply lr_fields in Hv. destruct Hv as (_ & _ & Hi & _). rewrite <- Hi, Ei in P3. exact P3. }
  destruct (IH i' _ _ _ r s' W1 H2 Hi H) as (W2 & A2 & L2).
  split; [exact W2|split; [exact (agree_trans _ _ _ _ A1 A2)|exact L2]].
Qed.

Lemma lookup_upd_eq (s : State) (b : bid) (bd : bundle) : store (upd s b bd) !! b = Some bd.
Proof. apply lookup_insert_eq. Qed.

Lemma lookup_upd_ne (s : State) (b c : bid) (bd : bundle) : c <> b -> store (upd s b bd) !! c = store s !! c.
Proof. intros H. unfold upd; cbn [store]. apply lookup_insert_ne. congruence. Qed.

(** Rewrites the lookups [store X !! c] in [H] for the states [X] with an
    equation [X = upd Y b bd] in the context. *)
Ltac lkn H :=
  repeat match type of H with
  | context [store ?X !! ?c] =>
      match goal with
      | EX : X = upd ?Y ?b ?bd |- _ =>
          first [ rewrite EX, (lookup_upd_eq Y b bd) in H
                | rewrite EX, (lookup_upd_ne Y b c bd) in H by lia ]
      end
  end.

(** [H : (_ <- modify b f; k) s = Ret _ _]: the next state [s1] with
    [Es : s1 = upd s b (f bd)], [Ebd : store s !! b = Some bd]. *)
Ltac fwd_modify H s1 Es bd Ebd :=
  let u := fresh "u" in let E := fresh "Em" in
  apply bind_ret_inv in H; destruct H as (u & s1 & E & H);
  apply modify_inv in E; destruct E as (bd & Ebd & Es).

(** A read [H : (_ <- rd b; k) s = Ret _ _] of a field: [v] the value and
    [Eb : store s !! b = Some bd] with [Ev : fld bd = v]. *)
Ltac fwd_read H v bd Eb Ev :=
  let E := fresh "E" in fwdp H v E;
  match type of E with
  | inner_of _ _ = _ => apply inner_of_inv in E; destruct E as [_ (bd & Eb & _ & Ev)]
  | _ => unfold size_of, thickness_of, left_of, right_of, is_terminal_of in E;
         apply read_inv in E; destruct E as [_ (bd & Eb & Ev)]
  end.

Lemma olisted_lists (s s' : State) (o : option bid) : lists s' = lists s -> olisted s o -> olisted s' o.
Proof. intros E. destruct o; cbn; [rewrite E; auto|auto]. Qed.

Lemma lists_upd (s : State) (b : bid) (bd : bundle) : lists (upd s b bd) = lists s.
Proof. reflexivity. Qed.

Ltac fwd_modify2 H s1 Es bd Ebd L :=
  fwd_modify H s1 Es bd Ebd;
  assert (L : lists s1 = lists _) by (rewrite Es; apply lists_upd).

Ltac lst0 := first [assumption | match goal with Q : forall o, olisted _ o -> olisted _ o |- _ => apply Q; assumption end].
Ltac lst := first [lst0 | eapply olisted_lists; [eassumption|lst0]].

(** The second loop of [divide] keeps [wf], keeps every listed bundle
    listed and conserves both totals: each elbow bundle it allocates takes
    its [size] and [thickness] from the one it cuts. *)
Lemma divide_cut_keeps (target en : bid) (size : option Z) (th : option Q) (s : State) (u : unit) (s' : State) :
  wf s -> In en (lists s) -> divide_cut target en size th s = Ret u s' ->
  wf s' /\ incl (lists s) (lists s') /\ total_size s' = total_size s /\ total_thickness s' == total_thickness s.
Proof.
  intros W Hen H. unfold divide_cut in H.
  fwdp H sz E1. apply req_inv in E1 as [E1 _]. fwdp H ts E2. fwdp H ts' E3. apply req_inv in E3 as [E3 _].
  destruct (Z.ltb ts' sz); [|ret_inv H; split; [exact W|split; [apply incl_refl|split; reflexivity]]].
  fwdp H ebd Eg. apply get_inv in Eg as [Eg _].
  pose proof (wf_listed_lt s en W Hen) as Hlt.
  fwdm H n Ea. apply alloc_inv in Ea as [-> ->].
  fwdm H u1 Ep. apply append_elbow_inv in Ep. subst s0. cbn [store straight_bundles elbow_bundles next_id edges] in H.
  remember (mkState (<[next_id s:=ebd]> (store s)) (straight_bundles s) (elbow_bundles s ++ [next_id s])
                     (S (next_id s)) (edges s)) as s2 eqn:Es2.
  destruct (wf_ptrs s en ebd W Hen Eg) as (P1 & P2 & P3).
  destruct (wf_alloc s s2 ebd W P1 P2 P3) as (W2 & I2 & N2 & T2s & T2t);
    [subst s2; reflexivity|subst s2; reflexivity| |].
  { subst s2. unfold lists; cbn. rewrite app_assoc. symmetry. apply Permutation_cons_append. }
  assert (Ee2 : store s2 !! en = Some ebd) by (subst s2; cbn [store]; rewrite lookup_insert_ne by lia; exact Eg).
  assert (En2 : store s2 !! next_id s = Some ebd) by (subst s2; cbn [store]; apply lookup_insert_eq).
  clear Es2.
  assert (Q2 : forall o, olisted s o -> olisted s2 o) by (intros o; apply olisted_mono; exact I2).
  assert (Hn2 : size_at s2 (next_id s) = match b_size ebd with Some z => z | None => 0%Z end /\
                thick_at s2 (next_id s) = match b_thickness ebd with Some q => q | None => 0 end)
    by (unfold size_at, thick_at; rewrite En2; auto).
  (* en.inner = eb_new *)
  fwd_modify2 H s3 Es3 b3 Eb3 L3. rewrite Ee2 in Eb3. injection Eb3 as <-.
  assert (W3 : wf s3).
  { rewrite Es3. apply wf_upd; [exact W2|eauto|]. intros _. cbn [b_left b_right b_inner set_inner].
    split; [|split]; [eapply olisted_mono; eauto..|exact N2]. }
  destruct (total_upd_keep s2 en (set_inner (Some (next_id s)) ebd) ebd Ee2 eq_refl eq_refl) as [T3s T3t].
  rewrite <- Es3 in T3s, T3t.
  (* eb_new.size = size - target.size *)
  fwd_modify2 H s4 Es4 b4 Eb4 L4. rewrite L3 in L4. lkn Eb4. rewrite En2 in Eb4. injection Eb4 as <-.
  assert (W4 : wf s4).
  { rewrite Es4. apply wf_upd; [exact W3| |].
    - rewrite Es3, lookup_upd_ne by lia. eauto.
    - intros _. cbn [b_left b_right b_inner set_size]. split; [|split]; lst. }
  destruct (total_upd s3 (next_id s) (set_size (Some (sz - ts')%Z) ebd) (proj1 W3)) as [T4s T4t];
    [rewrite L3; exact N2|].
  rewrite <- Es4 in T4s, T4t.
  fwdp H th0 E4. apply req_inv in E4 as [E4 _]. fwdp H tt0 E5. fwdp H tt1 E6. apply req_inv in E6 as [E6 _].
  (* eb_new.thickness = thickness - target.thickness *)
  fwd_modify2 H s5 Es5 b5 Eb5 L5. rewrite L4 in L5. lkn Eb5. injection Eb5 as <-.
  assert (W5 : wf s5).
  { rewrite Es5. apply wf_upd; [exact W4| |].
    - rewrite Es4, lookup_upd_eq. eauto.
    - intros _. cbn [b_left b_right b_inner set_size set_thickness]. split; [|split]; lst. }
  destruct (total_upd s4 (next_id s) (set_thickness (Some (th0 - tt1)) (set_size (Some (sz - ts')%Z) ebd))
     (proj1 W4)) as [T5s T5t]; [rewrite L4; exact N2|].
  rewrite <- Es5 in T5s, T5t.
  (* en.size -= eb_new.size *)
  fwd_read H es bd6 Eb6 Ev6. lkn Eb6. injection Eb6 as <-. fwdp H es' E7. apply req_inv in E7 as [E7 _].
  fwd_read H ns bd7 Eb7 Ev7. lkn Eb7. injection Eb7 as <-. fwdp H ns' E8. apply req_inv in E8 as [E8 _].
  cbn in Ev6, Ev7. rewrite <- Ev6 in E7. rewrite <- Ev7 in E8. injection E8 as E8. subst ns'. clear Ev6 Ev7.
  fwd_modify2 H s6 Es6 b6 Eb6 L6. rewrite L5 in L6. lkn Eb6. injection Eb6 as <-.
  assert (W6 : wf s6).
  { rewrite Es6. apply wf_upd; [exact W5| |].
    - rewrite Es5, Es4, Es3, !lookup_upd_ne, lookup_upd_eq by lia. eauto.
    - intros _. cbn [b_left b_right b_inner set_size set_inner]. split; [|split]; lst. }
  destruct (total_upd s5 en (set_size (Some (es' - (sz - ts'))%Z) (set_inner (Some (next_id s)) ebd))
     (proj1 W5)) as [T6s T6t]; [rewrite L5; apply I2; exact Hen|].
  rewrite <- Es6 in T6s, T6t.
  (* en.thickness -= eb_new.thickness *)
  fwd_read H et bd8 Eb8 Ev8. lkn Eb8. injection Eb8 as <-. fwdp H et' E9. apply req_inv in E9 as [E9 _].
  fwd_read H nt bd9 Eb9 Ev9. lkn Eb9. injection Eb9 as <-. fwdp H nt' E10. apply req_inv in E10 as [E10 _].
  cbn in Ev8, Ev9. rewrite <- Ev8 in E9. rewrite <- Ev9 in E10. injection E10 as E10. subst nt'. clear Ev8 Ev9.
  fwd_modify2 H s7 Es7 b7 Eb7 L7. rewrite L6 in L7. lkn Eb7. injection Eb7 as <-.
  assert (W7 : wf s7).
  { rewrite Es7. apply wf_upd; [exact W6| |].
    - rewrite Es6, lookup_upd_eq. eauto.
    - intros _. cbn [b_left b_right b_inner set_size set_inner set_thickness]. split; [|split]; lst. }
  destruct (total_upd s6 en (set_thickness (Some (et' - (th0 - tt1)))
       (set_size (Some (es' - (sz - ts'))%Z) (set_inner (Some (next_id s)) ebd)))
     (proj1 W6)) as [T7s T7t]; [rewrite L6; apply I2; exact Hen|].
  rewrite <- Es7 in T7s, T7t.
  (* en.layer_thickness *)
  fwdp H nl E11. fwdp H nl' E12. fwdp H nt2 E13. fwdp H nt2' E14.
  apply modify_inv in H. destruct H as (b8 & Eb8 & Es8).
  assert (L8 : lists s' = lists s2) by (rewrite Es8, lists_upd; exact L7).
  lkn Eb8. injection Eb8 as <-.
  destruct (total_upd_keep s7 en (set_layer_thickness (Some (nl' + nt2'))
       (set_thickness (Some (et' - (th0 - tt1)))
       (set_size (Some (es' - (sz - ts'))%Z) (set_inner (Some (next_id s)) ebd)))) _
     ltac:(rewrite Es7; apply lookup_upd_eq) eq_refl eq_refl) as [T8s T8t].
  rewrite <- Es8 in T8s, T8t.
  split; [|split; [rewrite L8; exact I2|]].
  { rewrite Es8. apply wf_upd; [exact W7| |].
    - rewrite Es7, lookup_upd_eq. eauto.
    - intros _. cbn [b_left b_right b_inner set_size set_inner set_thickness set_layer_thickness].
      split; [|split]; lst. }
  (* the totals *)
  assert (Z4 : size_at s4 (next_id s) = (sz - ts')%Z) by (rewrite Es4; apply size_at_upd_eq).
  assert (Z3 : size_at s3 (next_id s) = es') by (rewrite Es3, size_at_upd_ne by lia; rewrite (proj1 Hn2), E7; reflexivity).
  assert (Z5 : size_at s5 (next_id s) = (sz - ts')%Z) by (rewrite Es5; apply size_at_upd_eq).
  assert (Z6 : size_at s6 en = (es' - (sz - ts'))%Z) by (rewrite Es6; apply size_at_upd_eq).
  assert (Z5' : size_at s5 en = es') by (unfold size_at; rewrite Es5, Es4, Es3, !lookup_upd_ne, lookup_upd_eq by lia; cbn; rewrite E7; reflexivity).
  assert (Z7 : size_at s7 en = (es' - (sz - ts'))%Z) by (rewrite Es7; apply size_at_upd_eq).
  assert (Y3 : thick_at s3 (next_id s) = thick_at s2 (next_id s)) by (rewrite Es3, thick_at_upd_ne by lia; reflexivity).
  assert (Y4 : thick_at s4 (next_id s) = thick_at s3 (next_id s)) by (rewrite Es4, thick_at_upd_eq, Es3, thick_at_upd_ne, (proj2 Hn2) by lia; reflexivity).
  assert (Y5 : thick_at s5 (next_id s) = th0 - tt1) by (rewrite Es5; apply thick_at_upd_eq).
  assert (Y6 : thick_at s6 en = thick_at s5 en) by (rewrite Es6, thick_at_upd_eq; unfold thick_at; rewrite Es5, Es4, Es3, !lookup_upd_ne, lookup_upd_eq by lia; reflexivity).
  assert (Y6' : thick_at s6 en = et') by (rewrite Es6, thick_at_upd_eq; cbn; rewrite E9; reflexivity).
  assert (Y7 : thick_at s7 en = et' - (th0 - tt1)) by (rewrite Es7; apply thick_at_upd_eq).
  split.
  - rewrite T8s, T7s, T6s, T5s, T4s, T3s, T2s, (proj1 Hn2), Z4, Z3, Z5, Z6, Z5', Z7.
    assert (Z7' : size_at s7 en = size_at s6 en) by (rewrite Z7, Z6; reflexivity).
    rewrite E7. lia.
  - rewrite T8t. rewrite T3t in T4t. rewrite Y4 in T4t. rewrite Y5, Y4, Y3 in T5t.
    rewrite Y6 in T6t. rewrite Y7, Y6' in T7t. lra.
Qed.
Lemma agree_lr_at (s s' : State) (b : bid) : agree strip_lr s s' ->
  size_at s' b = size_at s b /\ thick_at s' b = thick_at s b.
Proof.
  intros Ag. unfold size_at, thick_at. destruct (store s !! b) as [bd|] eqn:E.
  - destruct (agree_lr_lookup s s' b bd Ag E) as (bd' & E' & Hf). rewrite E'.
    apply lr_fields in Hf. destruct Hf as (_ & _ & _ & -> & -> & _). auto.
  - destruct Ag as (_ & _ & _ & _ & F). specialize (F b). rewrite E in F.
    destruct (store s' !! b); [discriminate|auto].
Qed.

(** A write of [left], [right] or [inner] with listed references. *)
Lemma side_write (s : State) (b : bid) (f : bundle -> bundle) (u : unit) (s' : State) :
  wf s -> modify b f s = Ret u s' ->
  (forall bd, b_size (f bd) = b_size bd /\ b_thickness (f bd) = b_thickness bd) ->
  (forall bd, store s !! b = Some bd -> olisted s (b_left bd) -> olisted s (b_right bd) -> olisted s (b_inner bd) ->
     olisted s (b_left (f bd)) /\ olisted s (b_right (f bd)) /\ olisted s (b_inner (f bd))) ->
  wf s' /\ lists s' = lists s /\ total_size s' = total_size s /\ total_thickness s' == total_thickness s.
Proof.
  intros W H Hf Hp. apply modify_inv in H. destruct H as (bd & E & ->).
  destruct (Hf bd) as [Hs Ht].
  destruct (total_upd_keep s b (f bd) bd E Hs Ht) as [T1 T2].
  split; [|split; [reflexivity|split; [exact T1|rewrite T2; reflexivity]]].
  apply wf_upd; [exact W|eauto|]. intros Hb. destruct (wf_ptrs s b bd W Hb E) as (P1 & P2 & P3). auto.
Qed.

(** [divide(sb, eb)] keeps [wf], keeps every listed bundle listed and
    conserves both totals: the copy [sb2] gets [sb.size - eb.size] while
    [sb] keeps [eb.size], and its loops conserve them. *)
Lemma divide_keeps (fuel : nat) (sb eb : bid) (s : State) (u : unit) (s' : State) :
  wf s -> In sb (lists s) -> In eb (lists s) ->
  divide fuel sb eb s = Ret u s' ->
  wf s' /\ incl (lists s) (lists s') /\ total_size s' = total_size s /\ total_thickness s' == total_thickness s.
Proof.
  intros W Hsb Heb H. unfold divide in H.
  fwdp H sbd Eg. apply get_inv in Eg as [Eg _].
  pose proof (wf_listed_lt s sb W Hsb) as Hlt1. pose proof (wf_listed_lt s eb W Heb) as Hlt2.
  fwdm H n Ea. apply alloc_inv in Ea as [-> ->].
  fwdm H u1 Ep. apply append_straight_inv in Ep. subst s0. cbn [store straight_bundles elbow_bundles next_id edges] in H.
  remember (mkState (<[next_id s:=sbd]> (store s)) (straight_bundles s ++ [next_id s]) (elbow_bundles s)
                     (S (next_id s)) (edges s)) as s2 eqn:Es2.
  destruct (wf_ptrs s sb sbd W Hsb Eg) as (P1 & P2 & P3).
  destruct (wf_alloc s s2 sbd W P1 P2 P3) as (W2 & I2 & N2 & T2s & T2t);
    [subst s2; reflexivity|subst s2; reflexivity| |].
  { subst s2. unfold lists; cbn. rewrite <- app_assoc. cbn. symmetry. apply Permutation_middle. }
  assert (Es2sb : store s2 !! sb = Some sbd) by (subst s2; cbn [store]; rewrite lookup_insert_ne by lia; exact Eg).
  assert (En2 : store s2 !! next_id s = Some sbd) by (subst s2; cbn [store]; apply lookup_insert_eq).
  assert (Hn2 : size_at s2 (next_id s) = match b_size sbd with Some z => z | None => 0%Z end /\
                thick_at s2 (next_id s) = match b_thickness sbd with Some q => q | None => 0 end)
    by (unfold size_at, thick_at; rewrite En2; auto).
  assert (Hs2 : size_at s2 sb = match b_size sbd with Some z => z | None => 0%Z end /\
                thick_at s2 sb = match b_thickness sbd with Some q => q | None => 0 end)
    by (unfold size_at, thick_at; rewrite Es2sb; auto).
  clear Es2.
  (* sb2 takes eb.inner in place of eb *)
  fwdp H sb2r E1. fwd_read H ebi bde Ebe Evi.
  fwdm H u2 Em.
  assert (Hm : exists v, s0 = upd s2 (next_id s) v /\ strip_lr v = strip_lr sbd /\
     (b_left v = b_left sbd \/ b_left v = ebi) /\ (b_right v = b_right sbd \/ b_right v = ebi)).
  { destruct (ref_eqb sb2r (Some eb)); apply modify_inv in Em; destruct Em as (bd & Ebd & ->);
    rewrite En2 in Ebd; injection Ebd as <-; eexists; (split; [reflexivity|]); destruct sbd; cbn; auto. }
  destruct Hm as (v3 & Es3 & Hv3 & Hl3 & Hr3). rename s0 into s3.
  assert (W3 : wf s3).
  { rewrite Es3. apply wf_upd; [exact W2|eauto|]. intros _.
    destruct (wf_ptrs s2 eb bde W2 (I2 eb Heb) Ebe) as (_ & _ & Pe). rewrite Evi in Pe.
    pose proof (lr_fields _ _ Hv3) as (_ & _ & Hi3 & _).
    split; [destruct Hl3 as [-> | ->]; [apply (olisted_mono s); auto|exact Pe]|].
    split; [destruct Hr3 as [-> | ->]; [apply (olisted_mono s); auto|exact Pe]|].
    rewrite Hi3. apply (olisted_mono s); auto. }
  assert (A3 : agree strip_lr s2 s3) by (rewrite Es3; apply (agree_upd_lr s2 _ sbd); auto).
  clear Es3.
  (* the elbow bundles inside eb now reference sb2 *)
  fwdp H ebi' E2. fwdm H u3 Er.
  destruct (repoint_keeps _ _ _ _ _ _ _ _ W3 ltac:(rewrite (agree_lists _ _ _ A3); exact N2) Er) as [W4 A4].
  rename s0 into s4. pose proof (agree_trans _ _ _ _ A3 A4) as A24. clear A3 A4.
  (* the fields of sb and sb2 that divide reads back are those of sbd *)
  destruct (agree_lr_lookup s2 s4 sb sbd A24 Es2sb) as (x4 & Ex4 & Hx4).
  destruct (agree_lr_lookup s2 s4 (next_id s) sbd A24 En2) as (y4 & Ey4 & Hy4).
  pose proof (lr_fields _ _ Hx4) as (_ & _ & _ & Sx4 & Tx4 & _).
  pose proof (lr_fields _ _ Hy4) as (_ & _ & _ & Sy4 & Ty4 & _).
  assert (L4 : lists s4 = lists s2) by exact (agree_lists _ _ _ A24).
  assert (Hsb4 : In sb (lists s4)) by (rewrite L4; apply I2; exact Hsb).
  assert (Hn4 : In (next_id s) (lists s4)) by (rewrite L4; exact N2).
  (* sb.size = eb.size *)
  fwd_read H es bd5 Eb5 Ev5. clear bd5 Eb5 Ev5.
  fwd_modify2 H s5 Es5 b5 Eb5 L5. rewrite Ex4 in Eb5. injection Eb5 as <-.
  destruct (wf_ptrs s4 sb x4 W4 Hsb4 Ex4) as (Px1 & Px2 & Px3).
  assert (W5 : wf s5) by (rewrite Es5; apply wf_upd; [exact W4|eauto|intros _; cbn; auto]).
  destruct (total_upd s4 sb (set_size es x4) (proj1 W4) Hsb4) as [T5s T5t]. rewrite <- Es5 in T5s, T5t.
  (* sb.thickness = eb.thickness *)
  fwd_read H et bd6 Eb6 Ev6. clear bd6 Eb6 Ev6.
  fwd_modify2 H s6 Es6 b6 Eb6 L6. lkn Eb6. injection Eb6 as <-.
  assert (W6 : wf s6) by (rewrite Es6; apply wf_upd; [exact W5|rewrite Es5, lookup_upd_eq; eauto|];
    intros _; cbn [b_left b_right b_inner set_size set_thickness];
    split; [|split]; (eapply olisted_lists; [exact L5|assumption])).
  rewrite L5 in L6.
  destruct (total_upd s5 sb (set_thickness et (set_size es x4)) (proj1 W5)) as [T6s T6t];
    [rewrite L5; exact Hsb4|]. rewrite <- Es6 in T6s, T6t.
  (* sb2.size -= sb.size *)
  fwd_read H a2o bd7 Eb7 Ev7. lkn Eb7. rewrite Ey4 in Eb7. injection Eb7 as <-.
  fwdp H a2 E7. apply req_inv in E7 as [E7 _].
  fwd_read H e1o bd8 Eb8 Ev8. lkn Eb8. injection Eb8 as <-.
  fwdp H e1 E8. apply req_inv in E8 as [E8 _].
  cbn in Ev7, Ev8. rewrite <- Ev7 in E7. rewrite <- Ev8 in E8. clear Ev7 Ev8.
  fwd_modify2 H s7 Es7 b7 Eb7 L7. rewrite L6 in L7. lkn Eb7. rewrite Ey4 in Eb7. injection Eb7 as <-.
  destruct (wf_ptrs s4 (next_id s) y4 W4 Hn4 Ey4) as (Py1 & Py2 & Py3).
  assert (W7 : wf s7).
  { rewrite Es7. apply wf_upd; [exact W6|rewrite Es6, Es5, !lookup_upd_ne by lia; eauto|].
    intros _; cbn [b_left b_right b_inner set_size set_thickness].
    split; [|split]; (eapply olisted_lists; [exact L6|assumption]). }
  destruct (total_upd s6 (next_id s) (set_size (Some (a2 - e1)%Z) y4) (proj1 W6)) as [T7s T7t];
    [rewrite L6; exact Hn4|]. rewrite <- Es7 in T7s, T7t.
  (* sb2.thickness -= sb.thickness *)
  fwd_read H t2o bd9 Eb9 Ev9. lkn Eb9. injection Eb9 as <-.
  fwdp H t2 E9. apply req_inv in E9 as [E9 _].
  fwd_read H t1o bd10 Eb10 Ev10. lkn Eb10. injection Eb10 as <-.
  fwdp H t1 E10. apply req_inv in E10 as [E10 _].
  cbn in Ev9, Ev10. rewrite <- Ev9 in E9. rewrite <- Ev10 in E10. clear Ev9 Ev10.
  fwd_modify2 H s8 Es8 b8 Eb8 L8. rewrite L7 in L8. lkn Eb8. injection Eb8 as <-.
  assert (W8 : wf s8).
  { rewrite Es8. apply wf_upd; [exact W7|rewrite Es7, lookup_upd_eq; eauto|].
    intros _; cbn [b_left b_right b_inner set_size set_thickness].
    split; [|split]; (eapply olisted_lists; [exact L7|assumption]). }
  destruct (total_upd s7 (next_id s) (set_thickness (Some (t2 - t1)) (set_size (Some (a2 - e1)%Z) y4))
    (proj1 W7)) as [T8s T8t]; [rewrite L7; exact Hn4|]. rewrite <- Es8 in T8s, T8t.
  assert (Pre : wf s8 /\ incl (lists s) (lists s8) /\ total_size s8 = total_size s /\
                total_thickness s8 == total_thickness s).
  { split; [exact W8|split; [rewrite L8, L4; exact I2|]].
    destruct (agree_lr_totals s2 s4 A24) as [T4s T4t].
    assert (Z8 : size_at s8 (next_id s) = size_at s7 (next_id s))
      by (rewrite Es8, size_at_upd_eq, Es7, size_at_upd_eq; reflexivity).
    assert (Z7 : size_at s7 (next_id s) = (a2 - e1)%Z) by (rewrite Es7, size_at_upd_eq; reflexivity).
    assert (Z6 : size_at s6 (next_id s) = a2)
      by (unfold size_at; rewrite Es6, Es5, !lookup_upd_ne, Ey4, E7 by lia; reflexivity).
    assert (Z6' : size_at s6 sb = e1) by (rewrite Es6, size_at_upd_eq; cbn; rewrite E8; reflexivity).
    assert (Z5 : size_at s5 sb = e1) by (rewrite Es5, size_at_upd_eq; cbn; rewrite E8; reflexivity).
    assert (Z4 : size_at s4 sb = a2) by (unfold size_at; rewrite Ex4, Sx4, <- Sy4, E7; reflexivity).
    assert (Z2 : size_at s2 (next_id s) = a2) by (rewrite (proj1 Hn2), <- Sy4, E7; reflexivity).
    assert (Y8 : thick_at s8 (next_id s) = t2 - t1) by (rewrite Es8, thick_at_upd_eq; reflexivity).
    assert (Y7 : thick_at s7 (next_id s) = t2) by (rewrite Es7, thick_at_upd_eq; cbn; rewrite E9; reflexivity).
    assert (Y6 : thick_at s6 (next_id s) = t2)
      by (unfold thick_at; rewrite Es6, Es5, !lookup_upd_ne, Ey4, E9 by lia; reflexivity).
    assert (Y6' : thick_at s6 sb = t1) by (rewrite Es6, thick_at_upd_eq; cbn; rewrite E10; reflexivity).
    assert (Y5 : thick_at s5 sb = t2) by (rewrite Es5, thick_at_upd_eq; cbn; rewrite Tx4, <- Ty4, E9; reflexivity).
    assert (Y4 : thick_at s4 sb = t2) by (unfold thick_at; rewrite Ex4, Tx4, <- Ty4, E9; reflexivity).
    assert (Y2 : thick_at s2 (next_id s) = t2) by (rewrite (proj2 Hn2), <- Ty4, E9; reflexivity).
    split.
    - rewrite T8s, T7s, T6s, T5s, T4s, T2s, Z8, Z7, Z6, Z6', Z5, Z4, Z2. lia.
    - rewrite T8t, T7t, T6t, T5t, T4t, T2t, Y8, Y7, Y6, Y6', Y5, Y4, Y2. ring. }
  assert (Hn8 : In (next_id s) (lists s8)) by (rewrite L8, L4; exact N2).
  clear - Pre H Hsb Heb Hn8.
  destruct Pre as (W8 & I8 & T8s & T8t).
  assert (K : forall t, wf t -> incl (lists s8) (lists t) -> total_size t = total_size s8 ->
      total_thickness t == total_thickness s8 ->
      wf t /\ incl (lists s) (lists t) /\ total_size t = total_size s /\ total_thickness t == total_thickness s).
  { intros t0 Wt It Ts Tt. split; [exact Wt|split; [eauto using incl_tran|split; [congruence|rewrite Tt; exact T8t]]]. }
  clear T8s T8t.
  assert (Hsb8 : In sb (lists s8)) by (apply I8; exact Hsb).
  assert (Heb8 : In eb (lists s8)) by (apply I8; exact Heb).
  fwdp H en E1. apply next_inv in E1 as [_ (bd1 & Eb1 & _ & Ev1)].
  fwdp H en0 E2. apply deref_inv in E2 as [E2 _]. subst en.
  assert (Hen : In en0 (lists s8)).
  { destruct (wf_ptrs s8 sb bd1 W8 Hsb8 Eb1) as (Q1 & Q2 & _).
    destruct Ev1 as [Ev1|Ev1]; rewrite <- Ev1 in *; assumption. }
  fwdp H sz E3. fwdp H th E4. fwdp H ebl E5. fwdp H enr E6.
  cbv zeta in H.
  match type of H with context [if Bool.eqb ?x ?y then _ else _] => destruct (Bool.eqb x y) end.
  - fwdm H r Edg. destruct r as [[en' sz'] th'].
    destruct (divide_grow_listed _ _ _ _ _ _ _ _ W8 Hen Edg) as [-> Hen'].
    cbn [fst] in Hen'.
    fwdm H u1 Ec. destruct (divide_cut_keeps _ _ _ _ _ _ _ W8 Hen' Ec) as (W9 & I9 & T9s & T9t).
    fwdp H en2 E7. apply inner_of_inv in E7 as [_ (bd2 & Eb2 & _ & Ev2)].
    destruct (wf_ptrs s0 en' bd2 W9 (I9 _ Hen') Eb2) as (_ & _ & Pi). rewrite Ev2 in Pi.
    fwdp H sb2r E8. fwdp H ebi2 E9.
    fwdm H u2 Em.
    assert (S10 : wf s1 /\ lists s1 = lists s0 /\ total_size s1 = total_size s0 /\
                  total_thickness s1 == total_thickness s0).
    { destruct (ref_eqb sb2r ebi2); (eapply side_write; [exact W9|exact Em|intros; split; reflexivity|]);
      intros; cbn; auto. }
    destruct S10 as (W10 & L10 & T10s & T10t).
    destruct (repoint_keeps _ _ _ _ _ _ _ _ W10 ltac:(rewrite L10; apply I9; exact Hn8) H) as [W11 A11].
    destruct (agree_lr_totals _ _ A11) as [T11s T11t].
    apply K; [exact W11| |congruence|rewrite T11t, T10t; exact T9t].
    rewrite (agree_lists _ _ _ A11), L10. exact I9.
  - fwdm H r Edg. destruct r as [[en' sz'] th'].
    destruct (divide_grow_repoint_keeps _ _ _ _ _ _ _ _ _ W8 Hn8 Hen Edg) as (W9 & A9 & Hen').
    cbn [fst] in Hen'. pose proof (agree_lists _ _ _ A9) as L9. destruct (agree_lr_totals _ _ A9) as [T9s T9t].
    fwdm H u1 Ec. destruct (divide_cut_keeps _ _ _ _ _ _ _ W9 ltac:(rewrite L9; exact Hen') Ec)
      as (W10 & I10 & T10s & T10t).
    rewrite L9 in I10.
    fwdp H enl E7.
    fwdm H u2 Em.
    assert (S11 : wf s2 /\ lists s2 = lists s1 /\ total_size s2 = total_size s1 /\
                  total_thickness s2 == total_thickness s1).
    { destruct (ref_eqb enl (Some sb)); (eapply side_write; [exact W10|exact Em|intros; split; reflexivity|]);
      intros; cbn; auto; apply I10; exact Hn8. }
    destruct S11 as (W11 & L11 & T11s & T11t).
    fwdp H en2 E8. apply inner_of_inv in E8 as [_ (bd2 & Eb2 & _ & Ev2)].
    destruct (wf_ptrs s2 en' bd2 W11 ltac:(rewrite L11; apply I10; exact Hen') Eb2) as (_ & _ & Pi).
    rewrite Ev2 in Pi.
    fwdp H sbl E9.
    assert (S12 : wf s' /\ lists s' = lists s2 /\ total_size s' = total_size s2 /\
                  total_thickness s' == total_thickness s2).
    { destruct (ref_eqb sbl (Some eb)); (eapply side_write; [exact W11|exact H|intros; split; reflexivity|]);
      intros; cbn; auto. }
    destruct S12 as (W12 & L12 & T12s & T12t).
    apply K; [exact W12| |congruence|rewrite T12t, T11t, T10t, T9t; reflexivity].
    rewrite L12, L11. exact I10.
Qed.

(** [same] is a preorder, and [same] states have the same totals. *)
Lemma same_refl (s : State) : same s s.
Proof. split; auto. Qed.

Lemma same_trans (s1 s2 s3 : State) : same s1 s2 -> same s2 s3 -> same s1 s3.
Proof.
  intros [L1 P1] [L2 P2]. split; [congruence|].
  intros c. destruct (P1 c), (P2 c). split; congruence.
Qed.

Lemma sum_size_pt (s s' : State) (l : list bid) :
  (forall c, size_at s' c = size_at s c) -> sum_size s' l = sum_size s l.
Proof. intros P. induction l as [|b l IH]; cbn; [reflexivity|]. rewrite P. f_equal. exact IH. Qed.

Lemma sum_thickness_pt (s s' : State) (l : list bid) :
  (forall c, thick_at s' c = thick_at s c) -> sum_thickness s' l = sum_thickness s l.
Proof. intros P. induction l as [|b l IH]; cbn; [reflexivity|]. rewrite P. f_equal. exact IH. Qed.

Lemma same_totals (s s' : State) : same s s' ->
  total_size s' = total_size s /\ total_thickness s' == total_thickness s.
Proof.
  intros [L P]. rewrite !total_size_lists, !total_thickness_lists, L.
  rewrite (sum_size_pt s s'), (sum_thickness_pt s s'); [split; reflexivity| |];
  intros c; apply P.
Qed.

Lemma keep_run {A} (m : M A) (s : State) (a : A) (s' : State) : keep_m m -> m s = Ret a s' -> same s s'.
Proof. intros K E. exact (K _ _ _ E). Qed.

(** Reads, and writes of fields other than [size] and [thickness],
    change no live list, [size] or [thickness]. *)
Lemma keep_pure {A} (m : M A) : pure_m m -> keep_m m.
Proof. intros P s a s' E. rewrite (P _ _ _ E). apply same_refl. Qed.

Lemma keep_bind {A B} (m : M A) (f : A -> M B) :
  keep_m m -> (forall a, keep_m (f a)) -> keep_m (a ← m; f a).
Proof.
  intros Km Kf s b s' E. apply bind_ret_inv in E. destruct E as (a & s1 & E1 & E2).
  exact (same_trans _ _ _ (Km _ _ _ E1) (Kf _ _ _ _ E2)).
Qed.

Lemma keep_modify (b : bid) (f : bundle -> bundle) :
  (forall bd, b_size (f bd) = b_size bd /\ b_thickness (f bd) = b_thickness bd) -> keep_m (modify b f).
Proof.
  intros F s u s' E. apply modify_inv in E. destruct E as (bd & Eb & ->).
  split; [apply lists_upd|]. intros c. destruct (decide (c = b)) as [->|Hne].
  - unfold size_at, thick_at. rewrite lookup_upd_eq, Eb. destruct (F bd) as [-> ->]. split; reflexivity.
  - rewrite size_at_upd_ne, thick_at_upd_ne by exact Hne. split; reflexivity.
Qed.

Lemma keep_repoint (n : nat) (fr : bool) (cur : option bid) (old new : bid) :
  keep_m (repoint n fr cur old new).
Proof.
  revert cur. induction n as [|n IH]; intros cur; cbn [repoint].
  - apply keep_pure, pure_raise.
  - destruct cur as [c|]; [|apply keep_pure, pure_ret].
    apply keep_bind; [apply keep_pure; solve_pure|intros conn].
    destruct (negb conn); [apply keep_pure, pure_ret|].
    apply keep_bind; [apply keep_pure, pure_get|intros bd].
    apply keep_bind; [|intros _; apply keep_bind; [apply keep_pure; solve_pure|intros i; apply IH]].
    destruct fr; [destruct (ref_eqb (b_right bd) (Some old))|destruct (ref_eqb (b_left bd) (Some old))];
      apply keep_modify; intros; split; reflexivity.
Qed.

Lemma keep_repoint_term (n : nat) (cur : option bid) (old new : bid) :
  keep_m (repoint_term n cur old new).
Proof.
  revert cur. induction n as [|n IH]; intros cur; cbn [repoint_term].
  - apply keep_pure, pure_raise.
  - destruct cur as [c|]; [|apply keep_pure, pure_ret].
    apply keep_bind; [apply keep_pure; solve_pure|intros conn].
    destruct (negb conn); [apply keep_pure, pure_ret|].
    apply keep_bind; [apply keep_pure, pure_get|intros bd].
    apply keep_bind; [|intros _; apply keep_bind; [apply keep_pure; solve_pure|intros i; apply IH]].
    destruct (b_is_terminal bd); [|destruct (ref_eqb (b_left bd) (Some old))];
      repeat (apply keep_bind; [apply keep_modify; intros; split; reflexivity|intros _]);
      apply keep_modify; intros; split; reflexivity.
Qed.

Lemma pure_chain_contains (n : nat) (cur : option bid) (t : bid) : pure_m (chain_contains n cur t).
Proof.
  revert cur. induction n as [|n IH]; intros cur; cbn [chain_contains]; [apply pure_raise|].
  destruct cur as [c|]; [|apply pure_ret]. destruct (Nat.eqb c t); [apply pure_ret|].
  apply pure_bind; [solve_pure|intros i; apply IH].
Qed.

Lemma pure_step2 (c : bid) (r : bool) : pure_m (step2 c r).
Proof. unfold step2. destruct (negb r); solve_pure. Qed.

Lemma pure_walk_pair (n : nat) (cs ce : bid) (rs re : bool) : pure_m (walk_pair n cs ce rs re).
Proof.
  revert cs ce. induction n as [|n IH]; intros cs ce; cbn [walk_pair]; [apply pure_raise|].
  apply pure_bind; [solve_pure2|intros csp]. apply pure_bind; [solve_pure2|intros cep].
  destruct (pt_is csp cep); [|apply pure_ret].
  apply pure_bind; [apply pure_step2|intros cs']. apply pure_bind; [apply pure_step2|intros ce'].
  apply IH.
Qed.

Lemma pure_elbow_is_closer_than (f : nat) (a b : bid) : pure_m (elbow_is_closer_than f a b).
Proof.
  unfold elbow_is_closer_than.
  repeat match goal with
  | |- pure_m (chain_contains _ _ _) => apply pure_chain_contains
  | |- pure_m (walk_pair _ _ _ _ _) => apply pure_walk_pair
  | |- pure_m (step2 _ _) => apply pure_step2
  | |- pure_m (mbind _ _) => apply pure_bind; [|intros ?; cbv beta]
  | |- pure_m (mret _) => apply pure_ret
  | |- pure_m (raise _) => apply pure_raise
  | |- pure_m (match ?c with _ => _ end) => destruct c
  | |- pure_m (point_of _) => solve_pure2
  | |- pure_m (is_terminal_of _) => solve_pure2
  | |- pure_m (inner_of _) => solve_pure2
  | |- pure_m (orientation_of _) => solve_pure2
  end.
Qed.

Lemma pure_straight_is_closer_than (f : nat) (a b : bid) (p : point) :
  pure_m (straight_is_closer_than f a b p).
Proof.
  unfold straight_is_closer_than.
  repeat match goal with
  | |- pure_m (elbow_is_closer_than _ _ _) => apply pure_elbow_is_closer_than
  | |- pure_m (mbind _ _) => apply pure_bind; [|intros ?; cbv beta]
  | |- pure_m (mret _) => apply pure_ret
  | |- pure_m (raise _) => apply pure_raise
  | |- pure_m (match ?c with _ => _ end) => destruct c
  | |- pure_m _ => solve_pure2
  end.
Qed.

Lemma pure_has_same_orientation_as (a b : bid) : pure_m (has_same_orientation_as a b).
Proof. unfold has_same_orientation_as. solve_pure2. Qed.

Ltac solve_keep :=
  unfold left_of, right_of, size_of, thickness_of, is_terminal_of, inner_of,
    kind_of, next, is_connected_to, deref, req, is_associated_with, point_of,
    orientation_of, layer_thickness_of;
  repeat match goal with
  | |- keep_m (mbind _ _) => apply keep_bind; [|intros ?; cbv beta]
  | |- keep_m (modify _ _) => apply keep_modify; intros ?; split; reflexivity
  | |- keep_m (repoint _ _ _ _ _) => apply keep_repoint
  | |- keep_m (repoint_term _ _ _ _) => apply keep_repoint_term
  | |- keep_m (elbow_is_closer_than _ _ _) => apply keep_pure, pure_elbow_is_closer_than
  | |- keep_m (straight_is_closer_than _ _ _ _) => apply keep_pure, pure_straight_is_closer_than
  | |- keep_m (has_same_orientation_as _ _) => apply keep_pure, pure_has_same_orientation_as
  | |- keep_m (mret _) => apply keep_pure, pure_ret
  | |- keep_m (raise _) => apply keep_pure, pure_raise
  | |- keep_m (union _ 0 _ _) => apply keep_pure, pure_raise
  | |- keep_m (get _) => apply keep_pure, pure_get
  | |- keep_m (fun s => Ret _ s) => apply keep_pure, pure_read
  | |- keep_m (match ?c with _ => _ end) => destruct c
  end.

Ltac kstep H Sm :=
  let a := fresh "a" in let s1 := fresh "s" in let E := fresh "E" in
  apply bind_ret_inv in H; destruct H as (a & s1 & E & H);
  let S1 := fresh "S" in
  assert (S1 : same _ s1) by (refine (keep_run _ _ _ _ _ E); solve_keep);
  apply (same_trans _ _ _ Sm) in S1; clear Sm; rename S1 into Sm.

(** Removing a bundle from a live list lowers the totals by its own
    [size] and [thickness]. *)
Lemma remove_first_perm (x : bid) (l l' : list bid) : remove_first x l = Some l' -> l ≡ₚ x :: l'.
Proof.
  revert l'. induction l as [|y l IH]; intros l' H; cbn in H; [discriminate|].
  destruct (Nat.eqb x y) eqn:E.
  - apply Nat.eqb_eq in E. subst. injection H as <-. reflexivity.
  - destruct (remove_first x l) as [r|]; [|discriminate]. injection H as <-.
    rewrite (IH r eq_refl). apply perm_swap.
Qed.

Lemma size_at_store (s s' : State) (c : bid) : store s' = store s -> size_at s' c = size_at s c.
Proof. intros E. unfold size_at. rewrite E. reflexivity. Qed.

Lemma thick_at_store (s s' : State) (c : bid) : store s' = store s -> thick_at s' c = thick_at s c.
Proof. intros E. unfold thick_at. rewrite E. reflexivity. Qed.

Lemma remove_totals (s s' : State) (b : bid) :
  store s' = store s -> lists s ≡ₚ b :: lists s' ->
  total_size s = (size_at s' b + total_size s')%Z /\ total_thickness s == thick_at s' b + total_thickness s'.
Proof.
  intros St P. rewrite !total_size_lists, !total_thickness_lists.
  rewrite (sum_size_perm _ _ _ P), (sum_thickness_perm _ _ _ P).
  rewrite (sum_size_pt s s' (lists s')), (sum_thickness_pt s s' (lists s')),
    (size_at_store s s' b St), (thick_at_store s s' b St); [split; reflexivity| |];
    intros c; [apply thick_at_store|apply size_at_store]; exact St.
Qed.

Lemma remove_straight_inv (b : bid) (s : State) (u : unit) (s' : State) :
  remove_straight b s = Ret u s' -> store s' = store s /\ lists s ≡ₚ b :: lists s'.
Proof.
  unfold remove_straight. destruct (remove_first b (straight_bundles s)) as [l|] eqn:E; [|discriminate].
  intros H. injection H as _ <-. split; [reflexivity|]. unfold lists; cbn.
  rewrite (remove_first_perm _ _ _ E). reflexivity.
Qed.

Lemma remove_elbow_inv (b : bid) (s : State) (u : unit) (s' : State) :
  remove_elbow b s = Ret u s' -> store s' = store s /\ lists s ≡ₚ b :: lists s'.
Proof.
  unfold remove_elbow. destruct (remove_first b (elbow_bundles s)) as [l|] eqn:E; [|discriminate].
  intros H. injection H as _ <-. split; [reflexivity|]. unfold lists; cbn.
  rewrite (remove_first_perm _ _ _ E). symmetry. apply Permutation_middle.
Qed.

(** The loop [F] of a [union] of depth one keeps the sizes. *)
Ltac kloop H Sm :=
  match type of H with
  | mbind _ (if ?c then mret _ else ?F ?n0 ?e0 ?ei0) _ = _ =>
      let LP := fresh "LP" in
      assert (LP : forall n e ei, keep_m (F n e ei));
      [ let n := fresh "n" in let IH := fresh "IH" in
        intros n; induction n as [|n IH]; intros ? ?;
        [apply keep_pure, pure_raise | cbv beta iota; solve_keep; apply IH]
      | let a := fresh "a" in let s1 := fresh "s" in let E := fresh "E" in
        apply bind_ret_inv in H; destruct H as (a & s1 & E & H);
        let S1 := fresh "S" in
        assert (S1 : same _ s1) by (refine (keep_run _ _ _ _ _ E); destruct c; [apply keep_pure, pure_ret|apply LP]);
        apply (same_trans _ _ _ Sm) in S1; clear Sm; rename S1 into Sm; clear LP ]
  end.

(** [merge(sb1, eb, sb2)] lowers the totals by the [size] and the
    [thickness] of the two bundles it removes. *)
Lemma merge_totals (fuel : nat) (sb1 eb sb2 : bid) (s : State) (r : bid) (s' : State) :
  wf s -> In sb1 (lists s) -> In eb (lists s) -> In sb2 (lists s) ->
  merge fuel sb1 eb sb2 s = Ret r s' ->
  total_size s = (total_size s' + size_at s' eb + size_at s' sb2)%Z /\
  total_thickness s == total_thickness s' + thick_at s' eb + thick_at s' sb2.
Proof.
  intros W Hsb1 Heb Hsb2 H. unfold merge in H.
  fwdp H c1 E1. destruct (negb c1); [discriminate H|].
  fwdp H c2 E2. destruct (negb c2); [discriminate H|].
  fwdp H z1 E3. fwdp H z1' E4. fwdp H ze E5. fwdp H ze' E6.
  fwdm H u1 E7.
  assert (D1 : wf s0 /\ incl (lists s) (lists s0) /\ total_size s0 = total_size s /\
               total_thickness s0 == total_thickness s).
  { destruct (Z.ltb ze' z1'); [exact (divide_keeps _ _ _ _ _ _ W Hsb1 Heb E7)|].
    injection E7 as _ <-. split; [exact W|split; [intros ? ?; assumption|split; reflexivity]]. }
  destruct D1 as (W1 & I1 & T1s & T1t).
  fwdp H z2 E8. fwdp H z2' E9. fwdp H ze2 E10. fwdp H ze2' E11.
  fwdm H u2 E12.
  assert (D2 : wf s1 /\ incl (lists s0) (lists s1) /\ total_size s1 = total_size s0 /\
               total_thickness s1 == total_thickness s0).
  { destruct (Z.ltb ze2' z2').
    - exact (divide_keeps _ _ _ _ _ _ W1 (I1 _ Hsb2) (I1 _ Heb) E12).
    - injection E12 as _ <-. split; [exact W1|split; [intros ? ?; assumption|split; reflexivity]]. }
  destruct D2 as (W2 & I2 & T2s & T2t).
  pose proof (same_refl s1) as Sm.
  do 7 kstep H Sm.
  fwdm H u3 R13. apply remove_elbow_inv in R13 as [St1 P1].
  fwdm H u4 R14. apply remove_straight_inv in R14 as [St2 P2].
  injection H as _ <-.
  destruct (same_totals _ _ Sm) as [T3s T3t].
  destruct (remove_totals _ _ _ St1 P1) as [T4s T4t].
  destruct (remove_totals _ _ _ St2 P2) as [T5s T5t].
  rewrite (size_at_store _ _ eb St2), (thick_at_store _ _ eb St2) in *.
  split; [lia|].
  rewrite <- T1t, <- T2t, <- T3t, T4t, T5t. ring.
Qed.

(** [union(x, y)] moves the [size] and [thickness] of [y] to [x] and
    removes [y]; for an elbow bundle [x], or when the union merges no
    elbow bundles, nothing else changes the totals. *)
Lemma union_totals (fuel d : nat) (x y : bid) (s : State) (u : unit) (s' : State) :
  NoDup (lists s) -> In x (lists s) -> x <> y ->
  (d = 1%nat \/ exists bd, store s !! x = Some bd /\ b_kind bd = ElbowBundle) ->
  union fuel d x y s = Ret u s' ->
  total_size s' = total_size s /\ total_thickness s' == total_thickness s.
Proof.
  intros Nd Hx Hxy Hd H.
  destruct d as [|d]; [discriminate H|].
  cbn [union] in H. cbv zeta in H.
  fwdp H kx E1. fwdp H ky E2. destruct (negb (kind_eqb kx ky)); [discriminate H|].
  fwdp H tx E3. fwdp H ty E4.
  destruct ty; [injection H as _ <-; split; reflexivity|].
  unfold kind_of in E1. apply read_inv in E1 as [_ (bx & Ebx & Kx)].
  fwd_read H xs bd5 Eb5 Ev5. fwdp H xs' E6. apply req_inv in E6 as [E6 _].
  fwd_read H ys bd7 Eb7 Ev7. fwdp H ys' E8. apply req_inv in E8 as [E8 _].
  fwd_modify H s2 Es2 bd2 Ebd2.
  fwd_read H xt bd9 Eb9 Ev9. fwdp H xt' E10. apply req_inv in E10 as [E10 _].
  fwd_read H yt bd11 Eb11 Ev11. fwdp H yt' E12. apply req_inv in E12 as [E12 _].
  lkn Eb9. lkn Eb11.
  fwdm H u3 E13. apply modify_inv in E13 as (bd3 & Ebd3 & Es3). lkn Ebd3.
  rewrite Ebx in Eb5, Ebd2. injection Eb5 as <-. injection Ebd2 as <-.
  injection Eb9 as <-. injection Ebd3 as <-. rewrite Eb7 in Eb11. injection Eb11 as <-.
  subst xs ys xt yt. rename s0 into s3. cbn in Ev9.
  assert (Nd2 : NoDup (lists s2)) by (rewrite Es2; exact Nd).
  assert (Hx2 : In x (lists s2)) by (rewrite Es2; exact Hx).
  destruct (total_upd s x (set_size (Some (xs' + ys')%Z) bx) Nd Hx) as [U1s U1t].
  destruct (total_upd s2 x (set_thickness (Some (xt' + yt')) (set_size (Some (xs' + ys')%Z) bx)) Nd2 Hx2)
    as [U2s U2t].
  rewrite <- Es2 in U1s, U1t. rewrite <- Es3 in U2s, U2t.
  assert (Z1 : size_at s x = xs') by (unfold size_at; rewrite Ebx, Ev5; reflexivity).
  assert (Z2 : size_at s2 x = (xs' + ys')%Z) by (rewrite Es2, size_at_upd_eq; reflexivity).
  assert (Z3 : size_at s3 x = (xs' + ys')%Z) by (rewrite Es3, size_at_upd_eq; reflexivity).
  assert (Y1 : thick_at s x = xt') by (unfold thick_at; rewrite Ebx, Ev9; reflexivity).
  assert (Y2 : thick_at s2 x = xt') by (rewrite Es2, thick_at_upd_eq; cbn; rewrite Ev9; reflexivity).
  assert (Y3 : thick_at s3 x = xt' + yt') by (rewrite Es3, thick_at_upd_eq; reflexivity).
  assert (Zy : size_at s3 y = ys')
    by (rewrite Es3, size_at_upd_ne, Es2, size_at_upd_ne by congruence; unfold size_at; rewrite Eb7, Ev7; reflexivity).
  assert (Yy : thick_at s3 y = yt')
    by (rewrite Es3, thick_at_upd_ne, Es2, thick_at_upd_ne by congruence; unfold thick_at; rewrite Eb7, Ev11; reflexivity).
  rewrite Z1, Z2 in U1s. rewrite Z2, Z3 in U2s. rewrite Y1, Y2 in U1t. rewrite Y2, Y3 in U2t.
  assert (T3s : total_size s3 = (total_size s + ys')%Z) by lia.
  assert (T3t : total_thickness s3 == total_thickness s + yt') by (rewrite U2t, U1t; ring).
  clear U1s U1t U2s U2t Z1 Z2 Z3 Y1 Y2 Y3.
  pose proof (same_refl s3) as Sm.
  destruct kx.
  - destruct Hd as [Hd|(bd0 & Eb0 & K0)]; [|congruence].
    injection Hd as ->.
    repeat kstep H Sm. kloop H Sm. repeat kstep H Sm. kloop H Sm. repeat kstep H Sm.
    apply remove_straight_inv in H as [St P].
    destruct (same_totals _ _ Sm) as [Ks Kt]. destruct (remove_totals _ _ _ St P) as [Rs Rt].
    destruct Sm as [_ Sp]. destruct (Sp y) as [Sy Ty].
    rewrite (size_at_store _ _ y St), Sy, Zy in Rs. rewrite (thick_at_store _ _ y St), Ty, Yy in Rt.
    split; [lia|]. rewrite Kt, T3t in Rt. lra.
  - repeat kstep H Sm.
    apply remove_elbow_inv in H as [St P].
    destruct (same_totals _ _ Sm) as [Ks Kt]. destruct (remove_totals _ _ _ St P) as [Rs Rt].
    destruct Sm as [_ Sp]. destruct (Sp y) as [Sy Ty].
    rewrite (size_at_store _ _ y St), Sy, Zy in Rs. rewrite (thick_at_store _ _ y St), Ty, Yy in Rt.
    split; [lia|]. rewrite Kt, T3t in Rt. lra.
Qed.



Lemma inner_ok_transfer (s s' : State) :
  lists s' = lists s -> (forall z, inner_view s' z = inner_view s z) -> (forall z, pid_at s' z = pid_at s z) ->
  inner_ok s -> inner_ok s'.
Proof.
  intros L I P (C & J & r & R). unfold inner_ok. rewrite L. split; [|split].
  - intros b c Hb Hi. rewrite I in Hi. rewrite !P. exact (C b c Hb Hi).
  - intros b1 b2 c H1 H2 E1 E2. rewrite I in E1, E2. exact (J b1 b2 c H1 H2 E1 E2).
  - exists r. intros b c Hb Hi. rewrite I in Hi. exact (R b c Hb Hi).
Qed.

Lemma agree_lr_views (s s' : State) : agree strip_lr s s' ->
  lists s' = lists s /\ (forall z, inner_view s' z = inner_view s z) /\ (forall z, pid_at s' z = pid_at s z).
Proof.
  intros Ag. split; [exact (agree_lists _ _ _ Ag)|split]; intros z; unfold inner_view, pid_at;
  destruct (store s !! z) as [bd|] eqn:E.
  - destruct (agree_lr_lookup _ _ _ _ Ag E) as (bd' & -> & Hf). apply lr_fields in Hf.
    destruct Hf as (_ & _ & Hi & _). cbn. rewrite Hi. reflexivity.
  - destruct Ag as (_ & _ & _ & _ & F). specialize (F z). rewrite E in F.
    destruct (store s' !! z); [discriminate|reflexivity].
  - destruct (agree_lr_lookup _ _ _ _ Ag E) as (bd' & -> & Hf). apply lr_fields in Hf.
    destruct Hf as (_ & Hp & _). cbn. rewrite Hp. reflexivity.
  - destruct Ag as (_ & _ & _ & _ & F). specialize (F z). rewrite E in F.
    destruct (store s' !! z); [discriminate|reflexivity].
Qed.

Lemma inner_ok_agree (s s' : State) : agree strip_lr s s' -> inner_ok s -> inner_ok s'.
Proof. intros Ag. destruct (agree_lr_views _ _ Ag) as (L & I & P). apply inner_ok_transfer; assumption. Qed.

Lemma upd_views (s : State) (b : bid) (bd bd' : bundle) :
  store s !! b = Some bd -> b_inner bd' = b_inner bd -> b_point bd' = b_point bd ->
  (forall z, inner_view (upd s b bd') z = inner_view s z) /\ (forall z, pid_at (upd s b bd') z = pid_at s z).
Proof.
  intros E Hi Hp. split; intros z; unfold inner_view, pid_at; destruct (decide (z = b)) as [->|Hne];
    rewrite ?lookup_upd_eq, ?E, ?lookup_upd_ne by exact Hne; cbn; rewrite ?Hi, ?Hp; reflexivity.
Qed.

Lemma point_of_inv (b : bid) (s : State) (pt : point) (s' : State) :
  point_of b s = Ret pt s' ->
  s' = s /\ exists bd, store s !! b = Some bd /\ b_kind bd = ElbowBundle /\ b_point bd = Some pt.
Proof.
  unfold point_of, mbind, M_bind, get. destruct (store s !! b) as [bd|]; intros H; [|discriminate].
  destruct (b_kind bd) eqn:K; [discriminate|]. destruct (b_point bd) eqn:P; [|discriminate].
  cbv [mret M_ret] in H. injection H as <- <-. eauto.
Qed.

Lemma point_of_pid (b : bid) (s : State) (pt : point) (s' : State) :
  point_of b s = Ret pt s' -> pid_at s b = Some (pid pt).
Proof. intros H. apply point_of_inv in H as [_ (bd & E & _ & P)]. unfold pid_at. rewrite E, P. reflexivity. Qed.

(** [has_same_orientation_as(x, y)] compares the points of the two [left] ends. *)
Lemma same_orientation_inv (a b : bid) (s : State) (v : bool) (s' : State) :
  has_same_orientation_as a b s = Ret v s' ->
  exists ba bb l l' pl pl', store s !! a = Some ba /\ b_left ba = Some l /\
    store s !! b = Some bb /\ b_left bb = Some l' /\
    pid_at s l = Some pl /\ pid_at s l' = Some pl' /\ v = Nat.eqb pl pl'.
Proof.
  intros H. unfold has_same_orientation_as in H.
  fwdp H bl E1. unfold left_of in E1. apply read_inv in E1 as [_ (bb & Eb & Ev)].
  fwdp H bl' E2. apply deref_inv in E2 as [E2 _]. subst bl.
  fwdp H blp E3. pose proof (point_of_pid _ _ _ _ E3) as P1.
  fwdp H a1 E4. fwdp H a2 E5. destruct (negb a2); [discriminate H|].
  fwdp H sl E6. unfold left_of in E6. apply read_inv in E6 as [_ (ba & Ea & Eva)].
  fwdp H sl' E7. apply deref_inv in E7 as [E7 _]. subst sl.
  fwdp H slp E8. pose proof (point_of_pid _ _ _ _ E8) as P2.
  cbv [mret M_ret] in H. injection H as <- _.
  exists ba, bb, sl', bl', (pid slp), (pid blp). repeat split; auto.
Qed.

(** Following [inner] from a live bundle strictly lowers the rank [r]: the
    chain from [cur] reaches [tgt] only if [tgt] ranks no higher than [cur]. *)
Lemma chain_rank (r : bid -> nat) (s : State) (tgt : bid) :
  (forall b c, In b (lists s) -> inner_view s b = Some (Some c) -> In c (lists s) /\ (r c < r b)%nat) ->
  forall n cur s', (forall c, cur = Some c -> In c (lists s)) ->
  chain_contains n cur tgt s = Ret true s' -> exists c, cur = Some c /\ (r tgt <= r c)%nat.
Proof.
  intros R. induction n as [|n IH]; intros cur s' Hc H; cbn [chain_contains] in H; [discriminate|].
  destruct cur as [c|]; [|cbv [mret M_ret] in H; discriminate].
  exists c. split; [reflexivity|].
  destruct (Nat.eqb c tgt) eqn:E; [apply Nat.eqb_eq in E; subst; lia|].
  fwdp H i Ei. apply inner_of_inv in Ei as [_ (bd & Eb & _ & Ebi)].
  assert (Vc : forall c', i = Some c' -> inner_view s c = Some (Some c'))
    by (intros c' ->; unfold inner_view; rewrite Eb; cbn; rewrite Ebi; reflexivity).
  destruct (IH i s' (fun c' Ei => proj1 (R c c' (Hc c eq_refl) (Vc c' Ei))) H) as (c' & -> & Le).
  destruct (R c c' (Hc c eq_refl) (Vc c' eq_refl)). lia.
Qed.

(** [elbow_is_closer_than(ei, e)] with [ei] the [inner] bundle of a live,
    non-terminal [e] answers [True]. *)
Lemma closer_inner (fuel : nat) (ei e : bid) (s : State) (bd : bundle) (c : bool) (s' : State) :
  inner_ok s -> In e (lists s) -> store s !! e = Some bd -> b_is_terminal bd = false ->
  b_inner bd = Some ei -> elbow_is_closer_than fuel ei e s = Ret c s' -> c = true.
Proof.
  intros (C & _ & r & R) He Eb Te Ie H. unfold elbow_is_closer_than in H.
  assert (RR : forall b c0, In b (lists s) -> inner_view s b = Some (Some c0) -> In c0 (lists s) /\ (r c0 < r b)%nat)
    by (intros b c0 Hb Hv; split; [exact (proj1 (C b c0 Hb Hv))|exact (R b c0 Hb Hv)]).
  assert (Vi : inner_view s e = Some (Some ei)) by (unfold inner_view; rewrite Eb; cbn; rewrite Ie; reflexivity).
  destruct (RR e ei He Vi) as [Hei Rei].
  fwdp H sp E1. fwdp H ep E2. destruct (negb (pt_is sp ep)); [discriminate H|].
  fwdp H ts E3. destruct ts; [cbv [mret M_ret] in H; injection H as <- _; reflexivity|].
  fwdp H te E4. unfold is_terminal_of in E4. apply read_inv in E4 as [_ (bd4 & E4 & V4)].
  rewrite Eb in E4. injection E4 as <-. rewrite Te in V4. subst te.
  fwdp H si E5. apply inner_of_inv in E5 as [_ (bd5 & E5 & _ & V5)].
  fwdm H c1 E6. pose proof (pure_run _ _ _ _ (pure_chain_contains _ _ _) E6) as ->. destruct c1.
  - exfalso.
    assert (Hsi : forall c0, si = Some c0 -> In c0 (lists s))
      by (intros c0 ->; apply (RR ei c0 Hei); unfold inner_view; rewrite E5; cbn; rewrite V5; reflexivity).
    destruct (chain_rank r s e RR fuel si _ Hsi E6) as (c' & -> & Le).
    assert (Vs : inner_view s ei = Some (Some c')) by (unfold inner_view; rewrite E5; cbn; rewrite V5; reflexivity).
    destruct (RR ei c' Hei Vs). lia.
  - fwdp H ei2 E7. apply inner_of_inv in E7 as [_ (bd7 & E7 & _ & V7)].
    rewrite Eb in E7. injection E7 as <-. rewrite Ie in V7. subst ei2.
    fwdm H c2 E8. pose proof (pure_run _ _ _ _ (pure_chain_contains _ _ _) E8) as ->. destruct fuel as [|f]; cbn in E8; [discriminate|].
    rewrite Nat.eqb_refl in E8. cbv [mret M_ret] in E8. injection E8 as <-.
    cbv [mret M_ret] in H. injection H as <- _. reflexivity.
Qed.

(** The re-pointing loops write only [left] and [right] fields, and only
    of elbow bundles. *)
Lemma repoint_lr (n : nat) (fr : bool) (old new : bid) :
  forall cur s u s', repoint n fr cur old new s = Ret u s' ->
  agree strip_lr s s' /\
  forall z bd, store s !! z = Some bd -> b_kind bd = StraightBundle -> store s' !! z = Some bd.
Proof.
  induction n as [|n IH]; intros cur s u s' H; [discriminate|].
  cbn [repoint] in H. destruct cur as [c|]; [|ret_inv H; split; [apply agree_refl|auto]].
  fwd_pure H. destruct (negb a); [ret_inv H; split; [apply agree_refl|auto]|].
  fwd_pure H. apply get_inv in E0 as [Ec _].
  fwd_as H Em.
  assert (Hm : exists v, s0 = upd s c v /\ strip_lr v = strip_lr a0).
  { destruct fr; [destruct (ref_eqb (b_right a0) (Some old))|destruct (ref_eqb (b_left a0) (Some old))];
    apply modify_inv in Em; destruct Em as (bd & Ebd & ->); rewrite Ec in Ebd; injection Ebd as <-;
    eexists; (split; [reflexivity|]); destruct a0; reflexivity. }
  destruct Hm as (v & -> & Hv).
  fwdp H i Ei. apply inner_of_inv in Ei as [_ (bdc & Ebc & Kc & _)].
  rewrite lookup_upd_eq in Ebc. injection Ebc as <-.
  destruct (IH _ _ _ _ H) as [A2 S2].
  split; [exact (agree_trans _ _ _ _ (agree_upd_lr s c a0 v Ec Hv) A2)|].
  intros z bd Ez Kz. apply S2; [|exact Kz].
  destruct (decide (z = c)) as [->|Hne].
  - exfalso. rewrite Ec in Ez. injection Ez as <-. apply lr_fields in Hv. destruct Hv as (Hk & _). congruence.
  - rewrite lookup_upd_ne by exact Hne. exact Ez.
Qed.

(** [union(e, ei)] of a live, non-terminal elbow bundle [e] with its
    [inner] bundle [ei]: [e] takes over the [inner] of [ei], [ei] leaves the
    live lists, nothing else in the heap changes, and the [inner] chains
    stay as [inner_ok] describes them. *)
Lemma union_inner_step (fuel d : nat) (e ei : bid) (t : State) (bd : bundle) (u : unit) (t' : State) :
  NoDup (lists t) -> inner_ok t -> In e (lists t) -> store t !! e = Some bd ->
  b_kind bd = ElbowBundle -> b_is_terminal bd = false -> b_inner bd = Some ei ->
  (exists bdi, store t !! ei = Some bdi /\ b_is_terminal bdi = false) ->
  union fuel d e ei t = Ret u t' ->
  NoDup (lists t') /\ inner_ok t' /\ lists t ≡ₚ ei :: lists t' /\
  (forall z, z <> e -> store t' !! z = store t !! z) /\
  (exists bdi, store t !! ei = Some bdi /\ b_kind bdi = ElbowBundle) /\
  exists bd', store t' !! e = Some bd' /\ b_kind bd' = ElbowBundle /\ b_point bd' = b_point bd /\
    b_is_terminal bd' = false /\ inner_view t' e = inner_view t ei.
Proof.
  intros Nd Ok He Eb Kb Tb Ib (bdi & Ebi & Ti) H.
  pose proof Ok as (C & J & r & R).
  assert (Vi : inner_view t e = Some (Some ei)) by (unfold inner_view; rewrite Eb; cbn; rewrite Ib; reflexivity).
  destruct (C e ei He Vi) as [Hei Pei].
  assert (Ne : ei <> e) by (intros ->; specialize (R e e He Vi); lia).
  destruct d as [|d]; [discriminate H|].
  cbn [union] in H. cbv zeta in H.
  fwdp H kx E1. fwdp H ky E2.
  unfold kind_of in E1, E2. apply read_inv in E1 as [_ (b1 & E1 & V1)]. apply read_inv in E2 as [_ (b2 & E2 & V2)].
  rewrite Eb in E1. injection E1 as <-. rewrite Ebi in E2. injection E2 as <-. subst kx ky.
  rewrite Kb in H. destruct (b_kind bdi) eqn:Ki; [discriminate H|]. cbn [kind_eqb negb] in H.
  fwdp H tx E3. unfold is_terminal_of in E3. apply read_inv in E3 as [_ (b3 & E3 & V3)].
  rewrite Eb in E3. injection E3 as <-. rewrite Tb in V3. subst tx.
  fwdp H ty E4. unfold is_terminal_of in E4. apply read_inv in E4 as [_ (b4 & E4 & V4)].
  rewrite Ebi in E4. injection E4 as <-. rewrite Ti in V4. subst ty.
  fwdp H xs E5. fwdp H xs' E6. fwdp H ys E7. fwdp H ys' E8.
  fwd_modify H s2 Es2 bd2 Ebd2. rewrite Eb in Ebd2. injection Ebd2 as <-.
  fwdp H xt E9. fwdp H xt' E10. fwdp H yt E11. fwdp H yt' E12.
  fwd_modify H s3 Es3 bd3 Ebd3. rewrite Es2, lookup_upd_eq in Ebd3. injection Ebd3 as <-.
  set (bd3 := set_thickness (Some (xt' + yt')) (set_size (Some (xs' + ys')%Z) bd)) in *.
  assert (St3 : forall z, z <> e -> store s3 !! z = store t !! z)
    by (intros z Hz; rewrite Es3, lookup_upd_ne, Es2, lookup_upd_ne by exact Hz; reflexivity).
  assert (L3 : lists s3 = lists t) by (rewrite Es3, Es2; reflexivity).
  assert (E3e : store s3 !! e = Some bd3) by (rewrite Es3; apply lookup_upd_eq).
  assert (Ok3 : inner_ok s3).
  { apply (inner_ok_transfer t s3 L3); [| |exact Ok]; intros z; unfold inner_view, pid_at;
      (destruct (decide (z = e)) as [->|Hz]; [rewrite E3e, Eb; reflexivity|rewrite St3 by exact Hz; reflexivity]). }
  fwdm H c Ec. pose proof (pure_run _ _ _ _ (pure_elbow_is_closer_than _ _ _) Ec) as ->.
  assert (Ct : c = true).
  { refine (closer_inner fuel ei e s3 bd3 c s3 Ok3 _ E3e Tb Ib Ec). rewrite L3. exact He. }
  subst c.
  fwdm H u4 E14.
  fwdp E14 yi E15. apply inner_of_inv in E15 as [_ (b15 & E15 & _ & V15)].
  rewrite St3 in E15 by exact Ne. rewrite Ebi in E15. injection E15 as <-.
  fwd_modify E14 s4 Es4 bd4 Ebd4. rewrite E3e in Ebd4. injection Ebd4 as <-.
  fwdp E14 ylt E16.
  apply modify_inv in E14 as (bd5 & Ebd5 & Es5). rewrite Es4, lookup_upd_eq in Ebd5. injection Ebd5 as <-.
  apply remove_elbow_inv in H as [St P].
  set (bdf := set_layer_thickness ylt (set_inner yi bd3)) in *.
  assert (Stf : forall z, z <> e -> store t' !! z = store t !! z)
    by (intros z Hz; rewrite St, Es5, lookup_upd_ne, Es4, lookup_upd_ne by exact Hz; apply St3, Hz).
  assert (Ef : store t' !! e = Some bdf) by (rewrite St, Es5; apply lookup_upd_eq).
  assert (Lf : lists t ≡ₚ ei :: lists t') by (rewrite <- P, Es5, lists_upd, Es4, lists_upd, L3; reflexivity).
  assert (Nd' : NoDup (ei :: lists t')) by (rewrite <- Lf; exact Nd).
  apply NoDup_cons in Nd' as [Nin Nd'].
  assert (Live : forall z, In z (lists t') -> In z (lists t) /\ z <> ei).
  { intros z Hz. split; [apply list_elem_of_In; rewrite Lf; apply list_elem_of_In; right; exact Hz|].
    intros ->. apply Nin, list_elem_of_In, Hz. }
  assert (Live' : forall z, In z (lists t) -> z <> ei -> In z (lists t')).
  { intros z Hz Hne. apply list_elem_of_In in Hz. rewrite Lf in Hz. apply list_elem_of_In in Hz.
    destruct Hz as [->|Hz]; [congruence|exact Hz]. }
  assert (IVf : forall z, inner_view t' z = if decide (z = e) then Some yi else inner_view t z).
  { intros z. destruct (decide (z = e)) as [->|Hz]; unfold inner_view; [rewrite Ef; reflexivity|rewrite Stf by exact Hz; reflexivity]. }
  assert (PVf : forall z, pid_at t' z = pid_at t z).
  { intros z. destruct (decide (z = e)) as [->|Hz]; unfold pid_at; [rewrite Ef, Eb; reflexivity|rewrite Stf by exact Hz; reflexivity]. }
  assert (Vei : inner_view t ei = Some yi) by (unfold inner_view; rewrite Ebi; cbn; rewrite V15; reflexivity).
  split; [exact Nd'|split; [|split; [exact Lf|split; [exact Stf|split; [exists bdi; auto|]]]]].
  - split; [|split].
    + intros z c Hz Hv. destruct (Live z Hz) as [Hz0 Hzi]. rewrite IVf in Hv. rewrite !PVf.
      destruct (decide (z = e)) as [->|Hze].
      * injection Hv as ->. destruct (C ei c Hei Vei) as [Hc Pc].
        assert (c <> ei) by (intros ->; specialize (R ei ei Hei Vei); lia).
        split; [apply Live'; assumption|congruence].
      * destruct (C z c Hz0 Hv) as [Hc Pc]. split; [|exact Pc]. apply Live'; [exact Hc|].
        intros ->. exact (Hze (J z e ei Hz0 He Hv Vi)).
    + intros b1 b2 c H1 H2 V1 V2. destruct (Live b1 H1) as [H1' N1]. destruct (Live b2 H2) as [H2' N2].
      rewrite IVf in V1, V2.
      destruct (decide (b1 = e)) as [->|N1e]; destruct (decide (b2 = e)) as [->|N2e]; [reflexivity| | |].
      * injection V1 as ->. exfalso. exact (N2 (eq_sym (J ei b2 c Hei H2' Vei V2))).
      * injection V2 as ->. exfalso. exact (N1 (eq_sym (J ei b1 c Hei H1' Vei V1))).
      * exact (J b1 b2 c H1' H2' V1 V2).
    + exists r. intros z c Hz Hv. destruct (Live z Hz) as [Hz0 _]. rewrite IVf in Hv.
      destruct (decide (z = e)) as [->|Hze].
      * injection Hv as ->. pose proof (R ei c Hei Vei). pose proof (R e ei He Vi). lia.
      * exact (R z c Hz0 Hv).
  - exists bdf. split; [exact Ef|]. split; [exact Kb|]. split; [reflexivity|]. split; [exact Tb|].
    rewrite IVf. destruct (decide (e = e)); [|congruence]. symmetry. exact Vei.
Qed.

(** The [left] end [union] gives a straight bundle [x] when [x] and [y]
    run between the points [p] and [q]: an end at [p]. *)
Lemma left_side (x y : bid) (c : bool) (s : State) (u : unit) (s' : State)
    (bx byy : bundle) (l r l' r' : bid) (p q : nat) :
  store s !! x = Some bx -> b_left bx = Some l -> b_right bx = Some r ->
  store s !! y = Some byy -> b_left byy = Some l' -> b_right byy = Some r' -> x <> y ->
  pid_at s l = Some p -> p <> q ->
  ((pid_at s l' = Some p /\ pid_at s r' = Some q) \/ (pid_at s l' = Some q /\ pid_at s r' = Some p)) ->
  ((if c then (same ← has_same_orientation_as x y;
               v ← (if (same : bool) then left_of y else right_of y); modify x (set_left v)) else mret tt) : M unit) s = Ret u s' ->
  agree strip_lr s s' /\ store s' !! y = Some byy /\
  exists bx' el0, store s' !! x = Some bx' /\ b_kind bx' = b_kind bx /\ b_left bx' = Some el0 /\
    b_right bx' = Some r /\ (el0 = l \/ el0 = l' \/ el0 = r') /\ pid_at s el0 = Some p.
Proof.
  intros Ex Lx Rx Ey Ly Ry Nxy Pl Npq Hy H.
  destruct c; [|ret_inv H; split; [apply agree_refl|split; [exact Ey|exists bx, l; repeat split; auto]]].
  fwdm H sm E1. pose proof (pure_run _ _ _ _ (pure_has_same_orientation_as _ _) E1) as ->.
  apply same_orientation_inv in E1 as (ba & bb & l0 & l0' & pl & pl' & Ea & La & Eb & Lb & P1 & P2 & ->).
  rewrite Ex in Ea. injection Ea as <-. rewrite Ey in Eb. injection Eb as <-.
  rewrite Lx in La. injection La as <-. rewrite Ly in Lb. injection Lb as <-.
  rewrite Pl in P1. injection P1 as <-.
  fwdp H v E2.
  assert (Hv : exists el0, v = Some el0 /\ (el0 = l \/ el0 = l' \/ el0 = r') /\ pid_at s el0 = Some p).
  { destruct (Nat.eqb p pl') eqn:Epl; unfold left_of, right_of in E2;
      apply read_inv in E2 as [_ (b2 & E2 & V2)]; rewrite Ey in E2; injection E2 as <-; subst v.
    - apply Nat.eqb_eq in Epl. subst pl'. exists l'. rewrite Ly. auto.
    - apply Nat.eqb_neq in Epl. exists r'. rewrite Ry. split; [reflexivity|split; [auto|]].
      destruct Hy as [[A _]|[_ B]]; [congruence|exact B]. }
  destruct Hv as (el0 & -> & Hel & Pel).
  apply modify_inv in H as (b3 & E3 & ->). rewrite Ex in E3. injection E3 as <-.
  split; [apply (agree_upd_lr s x bx); [exact Ex|reflexivity]|split].
  - rewrite lookup_upd_ne by congruence. exact Ey.
  - exists (set_left (Some el0) bx), el0. rewrite lookup_upd_eq. repeat split; auto.
Qed.

(** The [right] end [union] gives [x], once its [left] end is at [p]: an
    end at [q]. *)
Lemma right_side (x y : bid) (c : bool) (s : State) (u : unit) (s' : State)
    (bx byy : bundle) (el0 r l' r' : bid) (p q : nat) :
  store s !! x = Some bx -> b_left bx = Some el0 -> b_right bx = Some r ->
  store s !! y = Some byy -> b_left byy = Some l' -> b_right byy = Some r' -> x <> y ->
  pid_at s el0 = Some p -> pid_at s r = Some q -> p <> q ->
  ((pid_at s l' = Some p /\ pid_at s r' = Some q) \/ (pid_at s l' = Some q /\ pid_at s r' = Some p)) ->
  ((if c then (same ← has_same_orientation_as x y;
               v ← (if (same : bool) then right_of y else left_of y); modify x (set_right v)) else mret tt) : M unit) s = Ret u s' ->
  agree strip_lr s s' /\ store s' !! y = Some byy /\
  exists bx' er0, store s' !! x = Some bx' /\ b_kind bx' = b_kind bx /\ b_left bx' = Some el0 /\
    b_right bx' = Some er0 /\ (er0 = r \/ er0 = l' \/ er0 = r') /\ pid_at s er0 = Some q.
Proof.
  intros Ex Lx Rx Ey Ly Ry Nxy Pl Pr Npq Hy H.
  destruct c; [|ret_inv H; split; [apply agree_refl|split; [exact Ey|exists bx, r; repeat split; auto]]].
  fwdm H sm E1. pose proof (pure_run _ _ _ _ (pure_has_same_orientation_as _ _) E1) as ->.
  apply same_orientation_inv in E1 as (ba & bb & l0 & l0' & pl & pl' & Ea & La & Eb & Lb & P1 & P2 & ->).
  rewrite Ex in Ea. injection Ea as <-. rewrite Ey in Eb. injection Eb as <-.
  rewrite Lx in La. injection La as <-. rewrite Ly in Lb. injection Lb as <-.
  rewrite Pl in P1. injection P1 as <-.
  fwdp H v E2.
  assert (Hv : exists er0, v = Some er0 /\ (er0 = r \/ er0 = l' \/ er0 = r') /\ pid_at s er0 = Some q).
  { destruct (Nat.eqb p pl') eqn:Epl; unfold left_of, right_of in E2;
      apply read_inv in E2 as [_ (b2 & E2 & V2)]; rewrite Ey in E2; injection E2 as <-; subst v.
    - apply Nat.eqb_eq in Epl. subst pl'. exists r'. rewrite Ry. split; [reflexivity|split; [auto|]].
      destruct Hy as [[_ B]|[A _]]; [exact B|congruence].
    - apply Nat.eqb_neq in Epl. exists l'. rewrite Ly. split; [reflexivity|split; [auto|]].
      destruct Hy as [[A _]|[B _]]; [congruence|exact B]. }
  destruct Hv as (er0 & -> & Her & Per).
  apply modify_inv in H as (b3 & E3 & ->). rewrite Ex in E3. injection E3 as <-.
  split; [apply (agree_upd_lr s x bx); [exact Ex|reflexivity]|split].
  - rewrite lookup_upd_ne by congruence. exact Ey.
  - exists (set_right (Some er0) bx), er0. rewrite lookup_upd_eq. repeat split; auto.
Qed.

Lemma pid_at_store (s s' : State) (z : bid) : store s' !! z = store s !! z -> pid_at s' z = pid_at s z.
Proof. intros E. unfold pid_at. rewrite E. reflexivity. Qed.

Lemma at_pid_store (s s' : State) (pp : nat) (z : bid) :
  store s' !! z = store s !! z -> ~ at_pid s pp z -> ~ at_pid s' pp z.
Proof.
  intros E N (bz & Ez & Kz & Pz). apply N. exists bz. rewrite <- E. split; [exact Ez|split; [exact Kz|]].
  rewrite <- (pid_at_store s s' z E). exact Pz.
Qed.

Lemma at_pid_straight (s : State) (pp : nat) (z : bid) (bz : bundle) :
  store s !! z = Some bz -> b_kind bz = StraightBundle -> ~ at_pid s pp z.
Proof. intros E K (bz' & E' & K' & _). rewrite E in E'. injection E' as <-. congruence. Qed.

Ltac fwdn H a s1 E := apply bind_ret_inv in H; destruct H as (a & s1 & E & H).

(** [union(x, y)] conserves both totals when [x] is an elbow bundle, when
    it merges no elbow bundles on the way (depth 1), or when the [inner]
    chains are as [inner_ok] describes them and [x] and [y] are straight
    bundles between the same two points. *)
Lemma union_totals_gen (fuel d : nat) (x y : bid) (s : State) (u : unit) (s' : State) :
  NoDup (lists s) -> In x (lists s) -> x <> y ->
  (d = 1%nat \/ (exists bd, store s !! x = Some bd /\ b_kind bd = ElbowBundle) \/ (inner_ok s /\ parallel s x y)) ->
  union fuel d x y s = Ret u s' ->
  total_size s' = total_size s /\ total_thickness s' == total_thickness s.
Proof.
  intros Nd Hx Hxy Hd H.
  destruct Hd as [Hd|[Hd|(Ok & Par)]];
    [exact (union_totals fuel d x y s u s' Nd Hx Hxy (or_introl Hd) H)
    |exact (union_totals fuel d x y s u s' Nd Hx Hxy (or_intror Hd) H)|].
  destruct Par as (bx0 & by0 & l & r & l' & r' & p & q & Ex0 & Lx & Rx & Ey0 & Ly & Ry &
                   Hl & Hr & Hl' & Hr' & Pl & Pr & Npq & Hy).
  destruct (b_kind bx0) eqn:Kx0; [|exact (union_totals fuel d x y s u s' Nd Hx Hxy (or_intror (ex_intro _ bx0 (conj Ex0 Kx0))) H)].
  destruct d as [|d]; [discriminate H|].
  cbn [union] in H. cbv zeta in H.
  fwdp H kx E1. fwdp H ky E2. destruct (negb (kind_eqb kx ky)) eqn:Kxy; [discriminate H|].
  fwdp H tx E3. fwdp H ty E4.
  destruct ty; [injection H as _ <-; split; reflexivity|].
  unfold kind_of in E1. apply read_inv in E1 as [_ (bx & Ebx & Kx)].
  unfold kind_of in E2. apply read_inv in E2 as [_ (byy & Eby & Ky)].
  rewrite Ebx in Ex0. injection Ex0 as <-. rewrite Eby in Ey0. injection Ey0 as <-.
  subst kx. rewrite Kx0 in Kxy. destruct ky; [|discriminate Kxy]. rename Ky into Ky0.
  fwd_read H xs bd5 Eb5 Ev5. fwdp H xs' E6. apply req_inv in E6 as [E6 _].
  fwd_read H ys bd7 Eb7 Ev7. fwdp H ys' E8. apply req_inv in E8 as [E8 _].
  fwd_modify H s2 Es2 bd2 Ebd2.
  fwd_read H xt bd9 Eb9 Ev9. fwdp H xt' E10. apply req_inv in E10 as [E10 _].
  fwd_read H yt bd11 Eb11 Ev11. fwdp H yt' E12. apply req_inv in E12 as [E12 _].
  lkn Eb9. lkn Eb11.
  fwdm H u3 E13. apply modify_inv in E13 as (bd3 & Ebd3 & Es3). lkn Ebd3.
  rewrite Ebx in Eb5, Ebd2. injection Eb5 as <-. injection Ebd2 as <-.
  injection Eb9 as <-. injection Ebd3 as <-. rewrite Eb7 in Eb11. injection Eb11 as <-.
  rewrite Eby in Eb7. injection Eb7 as <-.
  subst xs ys xt yt. rename s0 into s3. cbn in Ev9.
  assert (Nd2 : NoDup (lists s2)) by (rewrite Es2; exact Nd).
  assert (Hx2 : In x (lists s2)) by (rewrite Es2; exact Hx).
  destruct (total_upd s x (set_size (Some (xs' + ys')%Z) bx) Nd Hx) as [U1s U1t].
  destruct (total_upd s2 x (set_thickness (Some (xt' + yt')) (set_size (Some (xs' + ys')%Z) bx)) Nd2 Hx2)
    as [U2s U2t].
  rewrite <- Es2 in U1s, U1t. rewrite <- Es3 in U2s, U2t.
  assert (Z1 : size_at s x = xs') by (unfold size_at; rewrite Ebx, Ev5; reflexivity).
  assert (Z2 : size_at s2 x = (xs' + ys')%Z) by (rewrite Es2, size_at_upd_eq; reflexivity).
  assert (Z3 : size_at s3 x = (xs' + ys')%Z) by (rewrite Es3, size_at_upd_eq; reflexivity).
  assert (Y1 : thick_at s x = xt') by (unfold thick_at; rewrite Ebx, Ev9; reflexivity).
  assert (Y2 : thick_at s2 x = xt') by (rewrite Es2, thick_at_upd_eq; cbn; rewrite Ev9; reflexivity).
  assert (Y3 : thick_at s3 x = xt' + yt') by (rewrite Es3, thick_at_upd_eq; reflexivity).
  assert (Zy : size_at s3 y = ys')
    by (rewrite Es3, size_at_upd_ne, Es2, size_at_upd_ne by congruence; unfold size_at; rewrite Eby, Ev7; reflexivity).
  assert (Yy : thick_at s3 y = yt')
    by (rewrite Es3, thick_at_upd_ne, Es2, thick_at_upd_ne by congruence; unfold thick_at; rewrite Eby, Ev11; reflexivity).
  rewrite Z1, Z2 in U1s. rewrite Z2, Z3 in U2s. rewrite Y1, Y2 in U1t. rewrite Y2, Y3 in U2t.
  assert (T3s : total_size s3 = (total_size s + ys')%Z) by lia.
  assert (T3t : total_thickness s3 == total_thickness s + yt') by (rewrite U2t, U1t; ring).
  clear U1s U1t U2s U2t Z1 Z2 Z3 Y1 Y2 Y3.
  set (bx3 := set_thickness (Some (xt' + yt')) (set_size (Some (xs' + ys')%Z) bx)) in *.
  assert (Ex3 : store s3 !! x = Some bx3) by (rewrite Es3; apply lookup_upd_eq).
  assert (Ey3 : store s3 !! y = Some byy)
    by (rewrite Es3, lookup_upd_ne, Es2, lookup_upd_ne by congruence; exact Eby).
  assert (L3 : lists s3 = lists s) by (rewrite Es3, Es2; reflexivity).
  assert (St3 : forall z, z <> x -> store s3 !! z = store s !! z)
    by (intros z Hz; rewrite Es3, lookup_upd_ne, Es2, lookup_upd_ne by exact Hz; reflexivity).
  assert (PV3 : forall z, pid_at s3 z = pid_at s z).
  { intros z. unfold pid_at. destruct (decide (z = x)) as [->|Hz]; [rewrite Ex3, Ebx; reflexivity|rewrite St3 by exact Hz; reflexivity]. }
  assert (Ok3 : inner_ok s3).
  { apply (inner_ok_transfer s s3 L3); [|exact PV3|exact Ok]. intros z. unfold inner_view.
    destruct (decide (z = x)) as [->|Hz]; [rewrite Ex3, Ebx; reflexivity|rewrite St3 by exact Hz; reflexivity]. }
  clear Es2 Es3 Nd2 Hx2.
  rewrite Kx0 in H.
  (* the left end *)
  fwdp H xl E14. unfold left_of in E14. apply read_inv in E14 as [_ (b14 & E14 & V14)].
  rewrite Ex3 in E14. injection E14 as <-. change (b_left bx = xl) in V14. rewrite Lx in V14. subst xl.
  fwdp H xl E15. apply deref_inv in E15 as [E15 _]. injection E15 as <-.
  fwdp H xlp E16. apply point_of_pid in E16. rewrite PV3, Pl in E16. injection E16 as E16.
  fwdn H c s3' E17. pose proof (pure_run _ _ _ _ (pure_straight_is_closer_than _ _ _ _) E17) as ->.
  fwdn H u4 s4 E18.
  assert (Pl3 : pid_at s3 l = Some p) by (rewrite PV3; exact Pl).
  assert (Pr3 : pid_at s3 r = Some q) by (rewrite PV3; exact Pr).
  assert (Hy3 : (pid_at s3 l' = Some p /\ pid_at s3 r' = Some q) \/ (pid_at s3 l' = Some q /\ pid_at s3 r' = Some p))
    by (rewrite !PV3; exact Hy).
  destruct (left_side x y c s3 u4 s4 bx3 byy l r l' r' p q Ex3 Lx Rx Ey3 Ly Ry Hxy Pl3 Npq Hy3 E18)
    as (A4 & Ey4 & bx4 & el0 & Ex4 & Kx4 & Lx4 & Rx4 & Hel0 & Pel0).
  destruct (agree_lr_views _ _ A4) as (L4 & IV4 & PV4).
  (* the right end *)
  fwdp H xr E19. unfold right_of in E19. apply read_inv in E19 as [_ (b19 & E19 & V19)].
  rewrite Ex4 in E19. injection E19 as <-. rewrite Rx4 in V19. subst xr.
  fwdp H xr E20. apply deref_inv in E20 as [E20 _]. injection E20 as <-.
  fwdp H xrp E21.
  fwdn H c' s4' E22. pose proof (pure_run _ _ _ _ (pure_straight_is_closer_than _ _ _ _) E22) as ->.
  fwdn H u5 s5 E23.
  assert (Pr4 : pid_at s4 r = Some q) by (rewrite PV4; exact Pr3).
  assert (Pel4 : pid_at s4 el0 = Some p) by (rewrite PV4; exact Pel0).
  assert (Hy4 : (pid_at s4 l' = Some p /\ pid_at s4 r' = Some q) \/ (pid_at s4 l' = Some q /\ pid_at s4 r' = Some p))
    by (rewrite !PV4; exact Hy3).
  destruct (right_side x y c' s4 u5 s5 bx4 byy el0 r l' r' p q Ex4 Lx4 Rx4 Ey4 Ly Ry Hxy Pel4 Pr4 Npq Hy4 E23)
    as (A5 & Ey5 & bx5 & er0 & Ex5 & Kx5 & Lx5 & Rx5 & Her0 & Per0).
  (* the elbow bundles that referenced y *)
  fwdp H yl E24. fwdn H u6 s6 E25. apply repoint_lr in E25 as [A6 S6].
  fwdp H yr E26. fwdn H u7 s7 E27. apply repoint_lr in E27 as [A7 S7].
  assert (Kx5' : b_kind bx5 = StraightBundle) by (rewrite Kx5, Kx4; exact Kx0).
  assert (Ex7 : store s7 !! x = Some bx5) by (apply S7; [apply S6|]; assumption).
  assert (Ey7 : store s7 !! y = Some byy) by (apply S7; [apply S6|]; assumption).
  assert (A37 : agree strip_lr s3 s7) by (eapply agree_trans; [exact A4|eapply agree_trans; [exact A5|eapply agree_trans; [exact A6|exact A7]]]).
  assert (A47 : agree strip_lr s4 s7) by (eapply agree_trans; [exact A5|eapply agree_trans; [exact A6|exact A7]]).
  destruct (agree_lr_views _ _ A37) as (L7 & IV7 & PV7).
  assert (Ok7 : inner_ok s7) by exact (inner_ok_agree _ _ A37 Ok3).
  assert (Nd7 : NoDup (lists s7)) by (rewrite L7, L3; exact Nd).
  destruct (agree_lr_totals _ _ A37) as [T7s T7t].
  (* the loop that merges elbow bundles at the left end *)
  fwdp H el E28. unfold left_of in E28. apply read_inv in E28 as [_ (b28 & E28 & V28)].
  rewrite Ex7 in E28. injection E28 as <-. rewrite Lx5 in V28. subst el.
  fwdp H el E29. apply deref_inv in E29 as [E29 _]. injection E29 as <-.
  fwdp H eli E30. apply inner_of_inv in E30 as [_ (bde & Ede & Kde & Ide)].
  fwdp H tlf E31. unfold is_terminal_of in E31. apply read_inv in E31 as [_ (b31 & E31 & V31)].
  rewrite Ede in E31. injection E31 as <-.
  fwdn H u8 s8 E32.
  match type of E32 with (if _ then mret _ else ?F _ _ _) _ = _ => set (G := F) in * end.
  assert (LP : forall (pp : nat) n e ei t u t',
    NoDup (lists t) -> inner_ok t -> In e (lists t) ->
    (exists bd, store t !! e = Some bd /\ b_kind bd = ElbowBundle /\ b_is_terminal bd = false /\ b_inner bd = ei) ->
    pid_at t e = Some pp -> G n e ei t = Ret u t' ->
    NoDup (lists t') /\ inner_ok t' /\ total_size t' = total_size t /\ total_thickness t' == total_thickness t /\
    forall z, ~ at_pid t pp z -> (In z (lists t) -> In z (lists t')) /\ store t' !! z = store t !! z).
  { intros pp n. induction n as [|n IH]; intros e ei t uL t' Ndt Okt He (bd & Eb & Kb & Tb & Ib) Pe HL;
      [discriminate HL|].
    unfold G in HL. cbv beta iota in HL. fold G in HL.
    fwdp HL c1 F1. fwdp HL go F2.
    destruct go; cbv [negb] in HL.
    2: { cbv [mret M_ret] in HL. injection HL as _ <-.
         split; [exact Ndt|split; [exact Okt|split; [reflexivity|split; [reflexivity|]]]].
         intros z _. split; [auto|reflexivity]. }
    destruct c1; [|cbv [mret M_ret] in F2; discriminate F2].
    fwdp F2 ei0 F3. apply deref_inv in F3 as [-> _].
    fwdp F2 c2 F4. destruct c2; [|cbv [mret M_ret] in F2; discriminate F2].
    fwdp F2 ti F5. unfold is_terminal_of in F5. apply read_inv in F5 as [_ (bdi & Ebi & Ti)].
    cbv [mret M_ret] in F2. injection F2 as F2. destruct ti; [discriminate F2|].
    fwdp HL ei1 F6. apply deref_inv in F6 as [F6 _]. injection F6 as <-.
    fwdp HL n1 F7. fwdp HL n2 F8.
    fwdn HL e' t1 F9.
    fwdp HL ei' F10. apply inner_of_inv in F10 as [_ (bd' & Eb' & Kb' & Ib')].
    pose proof Okt as (Ct & Jt & rt & Rt).
    assert (Vi : inner_view t e = Some (Some ei0)) by (unfold inner_view; rewrite Eb; cbn; rewrite Ib; reflexivity).
    destruct (Ct e ei0 He Vi) as [Hei Pei].
    assert (Ne : ei0 <> e) by (intros ->; specialize (Rt e e He Vi); lia).
    assert (Ae : at_pid t pp e) by (exists bd; auto).
    destruct (ref_eqb n1 n2).
    - fwdn F9 uu tm F11. cbv [mret M_ret] in F9. injection F9 as <- <-.
      destruct (union_inner_step fuel d e ei0 t bd uu tm Ndt Okt He Eb Kb Tb Ib (ex_intro _ bdi (conj Ebi Ti)) F11)
        as (Nd1 & Ok1 & Lf & Stf & (bdi' & Ebi' & Ki) & (bdf & Ef & Kf & Pf & Tf & IVf)).
      destruct (union_totals fuel d e ei0 t uu tm Ndt He (not_eq_sym Ne) (or_intror (ex_intro _ bd (conj Eb Kb))) F11)
        as [U1 U2].
      rewrite Ef in Eb'. injection Eb' as <-.
      rewrite Ebi in Ebi'. injection Ebi' as <-.
      assert (Lv : forall z, In z (lists t) -> z <> ei0 -> In z (lists tm)).
      { intros z Hz Hne. apply list_elem_of_In in Hz. rewrite Lf in Hz. apply list_elem_of_In in Hz.
        destruct Hz as [->|Hz]; [congruence|exact Hz]. }
      assert (Pe1 : pid_at tm e = Some pp) by (rewrite <- Pe; unfold pid_at; rewrite Ef, Eb, Pf; reflexivity).
      destruct (IH e ei' tm uL t' Nd1 Ok1 (Lv e He (not_eq_sym Ne)) (ex_intro _ bdf (conj Ef (conj Kf (conj Tf Ib'))))
                  Pe1 HL) as (Nd2 & Ok2 & T2s & T2t & Z2).
      split; [exact Nd2|split; [exact Ok2|split; [congruence|split; [rewrite T2t; exact U2|]]]].
      intros z Nz.
      assert (Hze : z <> e) by (intros ->; exact (Nz Ae)).
      assert (Hzi : z <> ei0) by (intros ->; apply Nz; exists bdi; split; [exact Ebi|split; [exact Ki|congruence]]).
      destruct (Z2 z (at_pid_store t tm pp z (Stf z Hze) Nz)) as [Z2a Z2b].
      split; [intros Hz; apply Z2a, Lv; assumption|rewrite Z2b; apply Stf, Hze].
    - cbv [mret M_ret] in F9. injection F9 as <- <-.
      rewrite Ebi in Eb'. injection Eb' as <-.
      exact (IH ei0 ei' t uL t' Ndt Okt Hei (ex_intro _ bdi (conj Ebi (conj Kb' (conj Ti Ib')))) (eq_trans Pei Pe) HL). }
  assert (Hel7 : In el0 (lists s7)) by (rewrite L7, L3; destruct Hel0 as [->|[->| ->]]; assumption).
  assert (Pel7 : pid_at s7 el0 = Some p) by (rewrite PV7; exact Pel0).
  assert (LL : NoDup (lists s8) /\ inner_ok s8 /\ total_size s8 = total_size s7 /\
      total_thickness s8 == total_thickness s7 /\
      forall z, ~ at_pid s7 p z -> (In z (lists s7) -> In z (lists s8)) /\ store s8 !! z = store s7 !! z).
  { destruct tlf.
    - cbv [mret M_ret] in E32. injection E32 as _ <-.
      split; [exact Nd7|split; [exact Ok7|split; [reflexivity|split; [reflexivity|]]]].
      intros z _. split; [auto|reflexivity].
    - exact (LP p fuel el0 eli s7 u8 s8 Nd7 Ok7 Hel7 (ex_intro _ bde (conj Ede (conj Kde (conj V31 Ide)))) Pel7 E32). }
  destruct LL as (Nd8 & Ok8 & T8s & T8t & Z8).
  (* the loop that merges elbow bundles at the right end *)
  destruct (agree_lr_views _ _ A47) as (_ & _ & PV47).
  assert (Ex8 : store s8 !! x = Some bx5) by (rewrite (proj2 (Z8 x (at_pid_straight s7 p x bx5 Ex7 Kx5'))); exact Ex7).
  assert (Ey8 : store s8 !! y = Some byy) by (rewrite (proj2 (Z8 y (at_pid_straight s7 p y byy Ey7 Ky0))); exact Ey7).
  assert (Per7 : pid_at s7 er0 = Some q) by (rewrite PV47; exact Per0).
  assert (Ner7 : ~ at_pid s7 p er0) by (intros (bz & _ & _ & Pz); rewrite Per7 in Pz; injection Pz; intros; apply Npq; congruence).
  assert (Her7 : In er0 (lists s7)) by (rewrite L7, L3; destruct Her0 as [->|[->| ->]]; assumption).
  destruct (Z8 er0 Ner7) as [Her8 Eer8]. specialize (Her8 Her7).
  fwdp H er E33. unfold right_of in E33. apply read_inv in E33 as [_ (b33 & E33 & V33)].
  rewrite Ex8 in E33. injection E33 as <-. rewrite Rx5 in V33. subst er.
  fwdp H er E34. apply deref_inv in E34 as [E34 _]. injection E34 as <-.
  fwdp H eri E35. apply inner_of_inv in E35 as [_ (bdr & Edr & Kdr & Idr)].
  fwdp H trf E36. unfold is_terminal_of in E36. apply read_inv in E36 as [_ (b36 & E36 & V36)].
  rewrite Edr in E36. injection E36 as <-.
  fwdn H u9 s9 E37.
  assert (Per8 : pid_at s8 er0 = Some q) by (rewrite (pid_at_store s7 s8 er0 Eer8); exact Per7).
  assert (LR : NoDup (lists s9) /\ inner_ok s9 /\ total_size s9 = total_size s8 /\
      total_thickness s9 == total_thickness s8 /\
      forall z, ~ at_pid s8 q z -> (In z (lists s8) -> In z (lists s9)) /\ store s9 !! z = store s8 !! z).
  { destruct trf.
    - cbv [mret M_ret] in E37. injection E37 as _ <-.
      split; [exact Nd8|split; [exact Ok8|split; [reflexivity|split; [reflexivity|]]]].
      intros z _. split; [auto|reflexivity].
    - exact (LP q fuel er0 eri s8 u9 s9 Nd8 Ok8 Her8 (ex_intro _ bdr (conj Edr (conj Kdr (conj V36 Idr)))) Per8 E37). }
  destruct LR as (Nd9 & Ok9 & T9s & T9t & Z9).
  assert (Ey9 : store s9 !! y = Some byy) by (rewrite (proj2 (Z9 y (at_pid_straight s8 q y byy Ey8 Ky0))); exact Ey8).
  (* y leaves the live lists *)
  apply remove_straight_inv in H as [St P].
  destruct (remove_totals _ _ _ St P) as [Rs Rt].
  assert (Zy9 : size_at s' y = ys') by (rewrite <- Zy; unfold size_at; rewrite St, Ey9, Ey3; reflexivity).
  assert (Yy9 : thick_at s' y = yt') by (rewrite <- Yy; unfold thick_at; rewrite St, Ey9, Ey3; reflexivity).
  split; [lia|].
  rewrite T9t, T8t, T7t, T3t, Yy9 in Rt. lra.
Qed.

Ltac in_list := cbn; repeat (first [left; reflexivity | right]).

Lemma ex6_inner_ok : inner_ok ex6_state.
Proof.
  split; [|split].
  - intros b c Hb Hv. cbn in Hb. repeat destruct Hb as [<-|Hb]; try contradiction; vm_compute in Hv;
      try discriminate Hv; injection Hv as <-; (split; [in_list|vm_compute; reflexivity]).
  - intros b1 b2 c H1 H2 V1 V2. cbn in H1, H2.
    repeat destruct H1 as [<-|H1]; try contradiction; repeat destruct H2 as [<-|H2]; try contradiction;
      vm_compute in V1, V2; congruence.
  - exists (fun b => match b with 7%nat => 0%nat | 2%nat => 1%nat | 4%nat => 2%nat | _ => 0%nat end).
    intros b c Hb Hv. cbn in Hb. repeat destruct Hb as [<-|Hb]; try contradiction; vm_compute in Hv;
      try discriminate Hv; injection Hv as <-; cbn; lia.
Qed.

Lemma ex6_parallel : parallel ex6_state 0%nat 1%nat.
Proof.
  exists (seg 2%nat 3%nat), (seg 4%nat 5%nat), 2%nat, 3%nat, 4%nat, 5%nat, 0%nat, 1%nat.
  split; [reflexivity|split; [reflexivity|split; [reflexivity|]]].
  split; [reflexivity|split; [reflexivity|split; [reflexivity|]]].
  split; [in_list|split; [in_list|split; [in_list|split; [in_list|]]]].
  split; [reflexivity|split; [reflexivity|split; [lia|]]].
  left. split; reflexivity.
Qed.

Lemma olisted_b_ok (s : State) (o : option bid) : olisted_b s o = true -> olisted s o.
Proof.
  destruct o as [c|]; cbn; [|auto]. intros H. apply existsb_exists in H as (c' & Hc & E).
  apply Nat.eqb_eq in E. subst. exact Hc.
Qed.

(** [wf_b] decides [wf]. *)
Lemma wf_b_ok (s : State) : wf_b s = true -> wf s.
Proof.
  unfold wf_b. intros H. apply andb_true_iff in H as [H Hc]. apply andb_true_iff in H as [Hn Hf].
  split; [exact (bool_decide_eq_true_1 _ Hn)|split].
  - intros k Hk. destruct (store s !! k) as [bd|] eqn:E; [exfalso|reflexivity].
    unfold fresh_b in Hf. rewrite forallb_forall in Hf.
    assert (Hin : In (k, bd) (map_to_list (store s))) by (apply list_elem_of_In, elem_of_map_to_list; exact E).
    specialize (Hf _ Hin). cbn in Hf. apply Nat.ltb_lt in Hf. lia.
  - intros b Hb. unfold closed_b in Hc. rewrite forallb_forall in Hc. specialize (Hc b Hb).
    destruct (store s !! b) as [bd|]; [|discriminate].
    apply andb_true_iff in Hc as [Hc H3]. apply andb_true_iff in Hc as [H1 H2].
    exists bd. split; [reflexivity|]. split; [|split]; apply olisted_b_ok; assumption.
Qed.


(** Claim C1, amended: the totals of [size] and [thickness] over the live
    bundles are not invariant under [split]; the other mutations conserve
    or lower them as follows.
    - [split(sb, x, t)] first raises the totals by [2 * sb.size] and
      [2 * sb.thickness] (the copy [sb2] and the new elbow bundle), for
      any [x]; it then runs at most [union(sb, _)] and [union(sb2, _)].
    - [divide(sb, eb)] conserves both totals, on a [wf] state with [sb]
      and [eb] live.
    - [merge(sb1, eb, sb2)] lowers them by exactly the [size] and the
      [thickness] of the removed bundles [eb] and [sb2], on a [wf] state
      with the three bundles live.
    - [union(x, y)] conserves both totals when no bundle is live twice,
      [x] is live, [y] is not [x], and either [x] is an elbow bundle, or
      the union merges no elbow bundles on the way (depth 1), or the
      [inner] chains are as [inner_ok] describes them and [x] and [y] are
      straight bundles between the same two points ([parallel]). *)
Theorem mutations_totals :
  (forall fuel depth gbe s sb x t sbd r s',
     fresh_ids s -> (forall b, In b (lists s) -> is_Some (store s !! b)) ->
     store s !! sb = Some sbd -> is_Some (store s !! x) -> sb <> x ->
     split fuel depth gbe sb x t s = Ret r s' ->
     exists s1 s2,
       total_size s1 = (total_size s + 2 * size_at s sb)%Z /\
       total_thickness s1 == total_thickness s + 2 * thick_at s sb /\
       (s2 = s1 \/ exists b, union fuel depth sb b s1 = Ret tt s2) /\
       (s' = s2 \/ exists d, union fuel depth (next_id s) d s2 = Ret tt s')) /\
  (forall fuel sb eb s u s',
     wf s -> In sb (lists s) -> In eb (lists s) ->
     divide fuel sb eb s = Ret u s' ->
     total_size s' = total_size s /\ total_thickness s' == total_thickness s) /\
  (forall fuel sb1 eb sb2 s r s',
     wf s -> In sb1 (lists s) -> In eb (lists s) -> In sb2 (lists s) ->
     merge fuel sb1 eb sb2 s = Ret r s' ->
     total_size s = (total_size s' + size_at s' eb + size_at s' sb2)%Z /\
     total_thickness s == total_thickness s' + thick_at s' eb + thick_at s' sb2) /\
  (forall fuel d x y s u s',
     NoDup (lists s) -> In x (lists s) -> x <> y ->
     (d = 1%nat \/ (exists bd, store s !! x = Some bd /\ b_kind bd = ElbowBundle) \/
      (inner_ok s /\ parallel s x y)) ->
     union fuel d x y s = Ret u s' ->
     total_size s' = total_size s /\ total_thickness s' == total_thickness s).
Proof.
  split; [|split; [|split]].
  - intros fuel depth gbe s sb x t sbd r s' Hf Hl Hsb Hx Hsbx H.
    exact (split_totals fuel depth gbe s sb x t sbd r s' Hf Hl Hsb Hx Hsbx H).
  - intros fuel sb eb s u s' W Hsb Heb H.
    destruct (divide_keeps fuel sb eb s u s' W Hsb Heb H) as (_ & _ & Ts & Tt). split; [exact Ts|exact Tt].
  - intros fuel sb1 eb sb2 s r s' W H1 H2 H3 H. exact (merge_totals fuel sb1 eb sb2 s r s' W H1 H2 H3 H).
  - intros fuel d x y s u s' Nd Hx Hxy Hd H. exact (union_totals_gen fuel d x y s u s' Nd Hx Hxy Hd H).
Qed.

(** The four parts of [mutations_totals] on concrete runs: splitting the
    straight bundle of [ex_state] at the obstacle, dividing in [ex3_state],
    merging back in [ex5_state], the union of the two nested elbow
    bundles of [ex4_state], and the union of the two straight bundles of
    [ex6_state], which merges the elbow bundles 4 and 2 on the way. *)
Lemma mutations_totals_witness :
  (exists r s' s1 s2, split 10 10 terminal_backbone 2%nat 3%nat 0 ex_state = Ret r s' /\
     total_size s1 = (total_size ex_state + 2 * size_at ex_state 2%nat)%Z /\
     total_thickness s1 == total_thickness ex_state + 2 * thick_at ex_state 2%nat /\
     (s2 = s1 \/ exists b, union 10 10 2%nat b s1 = Ret tt s2) /\
     (s' = s2 \/ exists d, union 10 10 (next_id ex_state) d s2 = Ret tt s')) /\
  (exists s', divide 10 2%nat 1%nat ex3_state = Ret tt s' /\
     total_size s' = total_size ex3_state /\ total_thickness s' == total_thickness ex3_state) /\
  (exists r s', merge 10 2%nat 5%nat 4%nat ex5_state = Ret r s' /\
     total_size ex5_state = (total_size s' + size_at s' 5%nat + size_at s' 4%nat)%Z /\
     total_thickness ex5_state == total_thickness s' + thick_at s' 5%nat + thick_at s' 4%nat) /\
  (exists s', union 10 10 0%nat 1%nat ex4_state = Ret tt s' /\
     total_size s' = total_size ex4_state /\ total_thickness s' == total_thickness ex4_state) /\
  (exists s', union 10 10 0%nat 1%nat ex6_state = Ret tt s' /\ ~ In 2%nat (lists s') /\
     total_size s' = total_size ex6_state /\ total_thickness s' == total_thickness ex6_state).
Proof.
  destruct mutations_totals as (Ks & Kd & Km & Ku).
  split; [|split; [|split; [|split]]].
  - destruct (split 10 10 terminal_backbone 2%nat 3%nat 0 ex_state) as [r s'|e s'] eqn:E;
      [|vm_compute in E; discriminate].
    assert (Hf : fresh_ids ex_state).
    { intros k Hk. change (4 <= k)%nat in Hk. unfold ex_state, ex_store. cbn [store].
      rewrite !lookup_insert_ne by (intro; subst; lia). apply lookup_empty. }
    assert (Hl : forall b, In b (lists ex_state) -> is_Some (store ex_state !! b)).
    { intros b Hb. cbn in Hb. repeat destruct Hb as [<-|Hb]; [..|contradiction]; vm_compute; eauto. }
    destruct (Ks 10%nat 10%nat terminal_backbone ex_state 2%nat 3%nat 0 _ r s' Hf Hl
                ltac:(vm_compute; reflexivity) ltac:(vm_compute; eauto) ltac:(lia) E)
      as (s1 & s2 & A & B & C & D).
    exists r, s', s1, s2. auto.
  - destruct (divide 10 2%nat 1%nat ex3_state) as [u s'|e s'] eqn:E; [|vm_compute in E; discriminate].
    exists s'. destruct u. split; [reflexivity|].
    apply (Kd 10%nat 2%nat 1%nat ex3_state tt s'); [apply wf_b_ok; vm_compute; reflexivity
      |cbn; tauto|cbn; tauto|exact E].
  - destruct (merge 10 2%nat 5%nat 4%nat ex5_state) as [r s'|e s'] eqn:E; [|vm_compute in E; discriminate].
    exists r, s'. split; [reflexivity|].
    apply (Km 10%nat 2%nat 5%nat 4%nat ex5_state r s'); [apply wf_b_ok; vm_compute; reflexivity
      |vm_compute; tauto|vm_compute; tauto|vm_compute; tauto|exact E].
  - destruct (union 10 10 0%nat 1%nat ex4_state) as [u s'|e s'] eqn:E; [|vm_compute in E; discriminate].
    exists s'. destruct u. split; [reflexivity|].
    apply (Ku 10%nat 10%nat 0%nat 1%nat ex4_state tt s'); [vm_compute; apply (bool_decide_eq_true_1 _); vm_compute; reflexivity
      |cbn; tauto|lia|right; left; eexists; split; [vm_compute; reflexivity|reflexivity]|exact E].
  - destruct (union 10 10 0%nat 1%nat ex6_state) as [u s'|e s'] eqn:E; [|vm_compute in E; discriminate].
    exists s'. destruct u. split; [reflexivity|]. split; [vm_compute in E; injection E as <-; cbn; lia|].
    apply (Ku 10%nat 10%nat 0%nat 1%nat ex6_state tt s'); [vm_compute; apply (bool_decide_eq_true_1 _); vm_compute; reflexivity
      |cbn; tauto|lia|right; right; split; [exact ex6_inner_ok|exact ex6_parallel]|exact E].
Defined.

(* ================================================================== *)
(** * Further properties of the code *)

(* ------------------------------------------------------------------ *)
(** ** utils.py : orientation and intersection tests *)

Lemma Qltb_iff (x y : Q) : Qltb x y = true <-> x < y.
Proof.
  unfold Qltb. rewrite negb_true_iff. split.
  - intros H. destruct (Qlt_le_dec x y) as [L|L]; [exact L|].
    apply Qle_bool_iff in L. congruence.
  - intros H. destruct (Qle_bool y x) eqn:E; [|reflexivity].
    apply Qle_bool_iff in E. exfalso. exact (Qlt_not_le _ _ H E).
Qed.

Lemma sign_class_cases (v : Q) :
  (sign_class v = 1%Z /\ 0 < v) \/ (sign_class v = 2%Z /\ v < 0) \/ (sign_class v = 0%Z /\ v == 0).
Proof.
  unfold sign_class. destruct (Qltb 0 v) eqn:E1; [left; split; [reflexivity|apply Qltb_iff, E1]|].
  destruct (Qltb v 0) eqn:E2; [right; left; split; [reflexivity|apply Qltb_iff, E2]|].
  right; right. split; [reflexivity|].
  destruct (Qlt_le_dec 0 v) as [L|L]; [apply Qltb_iff in L; congruence|].
  destruct (Qlt_le_dec v 0) as [L'|L']; [apply Qltb_iff in L'; congruence|].
  apply Qle_antisym; assumption.
Qed.

Lemma sign_class_compat (v w : Q) : v == w -> sign_class v = sign_class w.
Proof.
  intros E. destruct (sign_class_cases v) as [[-> H]|[[-> H]|[-> H]]];
  destruct (sign_class_cases w) as [[-> H']|[[-> H']|[-> H']]]; try reflexivity; lra.
Qed.

Lemma sign_class_opp (v : Q) : sign_class (- v) = mirror (sign_class v).
Proof.
  destruct (sign_class_cases v) as [[-> H]|[[-> H]|[-> H]]];
  destruct (sign_class_cases (- v)) as [[-> H']|[[-> H']|[-> H']]]; try reflexivity; lra.
Qed.

Lemma orientation_class (p q r : point) : orientation p q r = sign_class (orientation_val p q r).
Proof. reflexivity. Qed.

Lemma orientation_cycle (p q r : point) : orientation q r p = orientation p q r.
Proof.
  rewrite !orientation_class. apply sign_class_compat. unfold orientation_val. ring.
Qed.

Lemma orientation_swap (p q r : point) : orientation q p r = mirror (orientation p q r).
Proof.
  rewrite !orientation_class, <- sign_class_opp. apply sign_class_compat.
  unfold orientation_val. ring.
Qed.

Lemma mirror_invol (a : Z) : mirror (mirror a) = a.
Proof.
  unfold mirror. destruct (Z.eqb_spec a 1) as [->|n1]; [reflexivity|].
  destruct (Z.eqb_spec a 2) as [->|n2]; [reflexivity|].
  rewrite (proj2 (Z.eqb_neq a 1) n1), (proj2 (Z.eqb_neq a 2) n2). reflexivity.
Qed.

Lemma mirror_eqb (a b : Z) : Z.eqb (mirror a) (mirror b) = Z.eqb a b.
Proof.
  destruct (Z.eqb_spec a b) as [->|n]; [apply Z.eqb_refl|].
  apply Z.eqb_neq. intros E. apply n. rewrite <- (mirror_invol a), E. apply mirror_invol.
Qed.

Lemma mirror_zero (a : Z) : Z.eqb (mirror a) 0 = Z.eqb a 0.
Proof. exact (mirror_eqb a 0). Qed.

Lemma Qle_bool_compat (x x' y y' : Q) : x == x' -> y == y' -> Qle_bool x y = Qle_bool x' y'.
Proof.
  intros Hx Hy. destruct (Qle_bool x y) eqn:E1, (Qle_bool x' y') eqn:E2; try reflexivity.
  - apply Qle_bool_iff in E1. assert (x' <= y') as E by lra. apply Qle_bool_iff in E. congruence.
  - apply Qle_bool_iff in E2. assert (x <= y) as E by lra. apply Qle_bool_iff in E. congruence.
Qed.

Lemma Qle_bool_total (a b : Q) : Qle_bool a b = false -> Qle_bool b a = true.
Proof.
  intros E. apply Qle_bool_iff. destruct (Qlt_le_dec a b) as [L|L]; [|exact L].
  apply Qlt_le_weak, Qle_bool_iff in L. congruence.
Qed.

Lemma Qmin'_comm (a b : Q) : Qmin' a b == Qmin' b a.
Proof.
  unfold Qmin'. destruct (Qle_bool a b) eqn:E1; destruct (Qle_bool b a) eqn:E2;
  try reflexivity.
  - apply Qle_bool_iff in E1, E2. lra.
  - apply Qle_bool_total in E1. congruence.
Qed.

Lemma Qmax'_comm (a b : Q) : Qmax' a b == Qmax' b a.
Proof.
  unfold Qmax'. destruct (Qle_bool a b) eqn:E1; destruct (Qle_bool b a) eqn:E2;
  try reflexivity.
  - apply Qle_bool_iff in E1, E2. lra.
  - apply Qle_bool_total in E1. congruence.
Qed.

Lemma Qmin'_le_l (a b : Q) : Qle_bool (Qmin' a b) a = true.
Proof.
  apply Qle_bool_iff. unfold Qmin'. destruct (Qle_bool a b) eqn:E; [lra|].
  apply Qle_bool_total, Qle_bool_iff in E. exact E.
Qed.

Lemma Qmax'_ge_l (a b : Q) : Qle_bool a (Qmax' a b) = true.
Proof.
  apply Qle_bool_iff. unfold Qmax'. destruct (Qle_bool a b) eqn:E; [apply Qle_bool_iff, E|lra].
Qed.

Lemma orientation_degenerate (p q : point) : orientation p q p = 0%Z.
Proof.
  rewrite orientation_class. rewrite (sign_class_compat _ 0); [reflexivity|].
  unfold orientation_val. ring.
Qed.

Lemma on_segment_comm (p q r : point) : on_segment q p r = on_segment p q r.
Proof.
  unfold on_segment. rewrite orientation_swap, mirror_zero.
  rewrite (Qle_bool_compat (Qmin' (px q) (px p)) (Qmin' (px p) (px q)) (px r) (px r)) by
    (apply Qmin'_comm || reflexivity).
  rewrite (Qle_bool_compat (px r) (px r) (Qmax' (px q) (px p)) (Qmax' (px p) (px q))) by
    (apply Qmax'_comm || reflexivity).
  rewrite (Qle_bool_compat (Qmin' (py q) (py p)) (Qmin' (py p) (py q)) (py r) (py r)) by
    (apply Qmin'_comm || reflexivity).
  rewrite (Qle_bool_compat (py r) (py r) (Qmax' (py q) (py p)) (Qmax' (py p) (py q))) by
    (apply Qmax'_comm || reflexivity).
  reflexivity.
Qed.

Lemma on_segment_start (p q : point) : on_segment p q p = true.
Proof.
  unfold on_segment. rewrite orientation_degenerate, !Qmin'_le_l, !Qmax'_ge_l. reflexivity.
Qed.

Lemma orientation_swap23 (p q r : point) : orientation p r q = mirror (orientation p q r).
Proof. rewrite (orientation_cycle q p r). apply orientation_swap. Qed.

Ltac bool_cases :=
  repeat match goal with
  | |- context [Z.eqb ?a ?b] => destruct (Z.eqb a b)
  | |- context [on_segment ?a ?b ?c] => destruct (on_segment a b c)
  end; reflexivity.

Lemma css_unfold (p1 q1 p2 q2 : point) :
  check_segment_segment_intersection p1 q1 p2 q2 =
  (negb (Z.eqb (orientation p1 q1 p2) (orientation p1 q1 q2)) &&
   negb (Z.eqb (orientation p2 q2 p1) (orientation p2 q2 q1))) ||
  (Z.eqb (orientation p1 q1 p2) 0 && on_segment p1 q1 p2) ||
  (Z.eqb (orientation p1 q1 q2) 0 && on_segment p1 q1 q2) ||
  (Z.eqb (orientation p2 q2 p1) 0 && on_segment p2 q2 p1) ||
  (Z.eqb (orientation p2 q2 q1) 0 && on_segment p2 q2 q1).
Proof.
  unfold check_segment_segment_intersection. cbv zeta.
  repeat match goal with |- context [if ?c then _ else _] => destruct c end; reflexivity.
Qed.

(** Every point of segment [pq] and every point [r] with [q] on segment
    [pr] lies on the half-line from [p] through [q]. *)
Theorem on_half_line_of_segment (p q r : point) :
  on_segment p q r = true \/ on_segment p r q = true -> on_half_line p q r = true.
Proof.
  intros H. unfold on_half_line. apply andb_true_iff. split.
  - destruct H as [H|H]; unfold on_segment in H; apply andb_true_iff in H as [H _];
    repeat (apply andb_true_iff in H as [H _]); [exact H|].
    rewrite orientation_swap23 in H. rewrite <- (mirror_invol (orientation p q r)).
    apply Z.eqb_eq in H. rewrite H. reflexivity.
  - apply orb_true_iff. exact H.
Qed.

(** [check_segment_segment_intersection] is symmetric: exchanging the two
    segments, or the two endpoints of a segment, gives the same answer. *)
Theorem segment_intersection_symmetric (p1 q1 p2 q2 : point) :
  check_segment_segment_intersection p2 q2 p1 q1 = check_segment_segment_intersection p1 q1 p2 q2 /\
  check_segment_segment_intersection q1 p1 p2 q2 = check_segment_segment_intersection p1 q1 p2 q2.
Proof.
  split; rewrite !css_unfold.
  - bool_cases.
  - rewrite (orientation_swap p1 q1 p2), (orientation_swap p1 q1 q2), mirror_eqb, !mirror_zero.
    rewrite (on_segment_comm p1 q1 p2), (on_segment_comm p1 q1 q2).
    rewrite (Z.eqb_sym (orientation p2 q2 q1)). bool_cases.
Qed.

(** Touching counts: when an endpoint [p2] of the second segment lies on
    the first segment, [check_segment_segment_intersection] returns [True];
    in particular two segments sharing an endpoint intersect. *)
Theorem segment_intersection_touching (p1 q1 p2 q2 : point) :
  on_segment p1 q1 p2 = true -> check_segment_segment_intersection p1 q1 p2 q2 = true.
Proof.
  intros H. rewrite css_unfold. pose proof H as H'.
  unfold on_segment in H'. repeat (apply andb_true_iff in H' as [H' _]).
  rewrite H', H. rewrite !orb_true_r. reflexivity.
Qed.

(** [check_segment_line_intersection(p1, q1, p2, q2)] returns [True]
    exactly when [p1] and [q1] are not strictly on the same side of the
    line through [p2] and [q2]: the product of their signed areas with
    respect to that line is at most 0. *)
Theorem segment_line_intersection_iff (p1 q1 p2 q2 : point) :
  check_segment_line_intersection p1 q1 p2 q2 = true <->
  orientation_val p2 q2 p1 * orientation_val p2 q2 q1 <= 0.
Proof.
  unfold check_segment_line_intersection. cbv zeta.
  rewrite (orientation_swap p2 q2 q1), !orientation_class.
  set (a := orientation_val p2 q2 p1). set (b := orientation_val p2 q2 q1).
  destruct (sign_class_cases a) as [[-> Ha]|[[-> Ha]|[-> Ha]]];
  destruct (sign_class_cases b) as [[-> Hb]|[[-> Hb]|[-> Hb]]]; cbn;
  split; intros H; try reflexivity; try discriminate; nra.
Qed.

(** [transform_point(p, t)] with a list of at least six coefficients
    [[m11, m12, m21, m22, t1, t2]] sets [p.x] to [m11 * x + m12 * y + t1];
    since the second assignment reads the updated [p.x], the new [p.y]
    equals [m21 * x + m22 * y + t2] (the affine image of the old point)
    exactly when [m21 = 0] or the new [x] equals the old one. *)
Theorem transform_point_reads_new_x (p : point) (t : list Q) :
  (6 <= length t)%nat ->
  exists p', transform_point p t = Transformed p' /\ pid p' = pid p /\
    px p' == nth 0 t 0 * px p + nth 1 t 0 * py p + nth 4 t 0 /\
    (py p' == nth 2 t 0 * px p + nth 3 t 0 * py p + nth 5 t 0 <->
     nth 2 t 0 == 0 \/ px p' == px p).
Proof.
  intros Hl.
  destruct t as [|m11 [|m12 [|m21 [|m22 [|t1 [|t2 rest]]]]]]; cbn in Hl; try lia.
  eexists. split; [reflexivity|]. cbn. split; [reflexivity|]. split; [reflexivity|].
  set (x' := m11 * px p + m12 * py p + t1).
  split.
  - intros H.
    assert (E : m21 * (x' - px p) == 0) by nra.
    apply Qmult_integral in E as [E|E]; [left; exact E | right; lra].
  - intros [E|E].
    + rewrite E. ring.
    + rewrite E. reflexivity.
Qed.

(** A coefficient list shorter than six makes [transform_point] raise
    [IndexError]; when [t[4]] is present (five entries) [p.x] has already
    been overwritten, with fewer entries [p] is left untouched. *)
Theorem transform_point_short_list (p : point) (t : list Q) :
  (length t < 6)%nat ->
  transform_point p t =
  TransformIndexError
    (if Nat.eqb (length t) 5
     then mkPoint (pid p) (nth 0 t 0 * px p + nth 1 t 0 * py p + nth 4 t 0) (py p)
     else p).
Proof.
  intros Hl.
  destruct t as [|m11 [|m12 [|m21 [|m22 [|t1 [|t2 rest]]]]]]; cbn in Hl; try lia;
    reflexivity.
Qed.

Lemma on_half_line_of_segment_witness :
  on_half_line (mkPoint 0 0 0) (mkPoint 1 2 0) (mkPoint 2 1 0) = true.
Proof.
  apply on_half_line_of_segment. left. vm_compute. reflexivity.
Defined.

Lemma segment_intersection_touching_witness :
  check_segment_segment_intersection (mkPoint 0 0 0) (mkPoint 1 2 2) (mkPoint 2 1 1) (mkPoint 3 5 0) = true.
Proof.
  apply segment_intersection_touching. vm_compute. reflexivity.
Defined.

Lemma transform_point_reads_new_x_witness :
  exists p', transform_point (mkPoint 0 1 2) [1; 0; 1; 1; 3; 0] = Transformed p' /\ pid p' = 0%nat /\
    px p' == 1 * 1 + 0 * 2 + 3 /\
    (py p' == 1 * 1 + 1 * 2 + 0 <-> 1 == 0 \/ px p' == 1).
Proof.
  apply (transform_point_reads_new_x (mkPoint 0 1 2) [1; 0; 1; 1; 3; 0]). cbn. lia.
Defined.

Lemma transform_point_short_list_witness :
  transform_point (mkPoint 0 1 2) [1; 0; 1; 1; 3] = TransformIndexError (mkPoint 0 (1 * 1 + 0 * 2 + 3) 2).
Proof.
  apply (transform_point_short_list (mkPoint 0 1 2) [1; 0; 1; 1; 3]). cbn. lia.
Defined.

(* ------------------------------------------------------------------ *)
(** ** event.py : the order of the event queue *)

Lemma Q_trichotomy_bool (x y : Q) :
  (x < y /\ Qltb x y = true /\ Qeq_bool x y = false /\ Qltb y x = false) \/
  (x == y /\ Qltb x y = false /\ Qeq_bool x y = true /\ Qltb y x = false) \/
  (y < x /\ Qltb x y = false /\ Qeq_bool x y = false /\ Qltb y x = true).
Proof.
  destruct (Q_dec x y) as [[H|H]|H].
  - left. repeat split; [exact H|apply Qltb_iff; exact H| |].
    + apply not_true_iff_false. rewrite Qeq_bool_iff. lra.
    + apply not_true_iff_false. rewrite Qltb_iff. lra.
  - right; right. repeat split; [exact H| | |apply Qltb_iff; exact H].
    + apply not_true_iff_false. rewrite Qltb_iff. lra.
    + apply not_true_iff_false. rewrite Qeq_bool_iff. lra.
  - right; left. repeat split; [exact H| | |].
    + apply not_true_iff_false. rewrite Qltb_iff. lra.
    + apply Qeq_bool_iff. exact H.
    + apply not_true_iff_false. rewrite Qltb_iff. lra.
Qed.

Lemma Qeq_bool_sym (x y : Q) : Qeq_bool x y = Qeq_bool y x.
Proof.
  destruct (Qeq_bool x y) eqn:E, (Qeq_bool y x) eqn:F; try reflexivity.
  - apply Qeq_bool_iff in E. rewrite <- F. symmetry. apply Qeq_bool_iff. lra.
  - apply Qeq_bool_iff in F. rewrite <- E. apply Qeq_bool_iff. lra.
Qed.

Lemma event_lt_spec (e1 e2 : event) :
  event_lt e1 e2 = true <->
  ev_time e1 < ev_time e2 \/ (ev_time e1 == ev_time e2 /\ is_merge_event e1 = true).
Proof.
  unfold event_lt. rewrite orb_true_iff, andb_true_iff, Qltb_iff, Qeq_bool_iff.
  reflexivity.
Qed.

(** [Event.__lt__] is transitive, so the heap of [update_queue] and
    [grow] is ordered consistently. *)
Theorem event_lt_trans (e1 e2 e3 : event) :
  event_lt e1 e2 = true -> event_lt e2 e3 = true -> event_lt e1 e3 = true.
Proof.
  rewrite !event_lt_spec. intros [H1|[H1 M1]] [H2|[H2 M2]].
  - left. lra.
  - left. lra.
  - left. lra.
  - right. split; [lra|exact M1].
Qed.

Lemma event_lt_trans_witness :
  event_lt (MergeEvent (1 # 2) 0%nat) (SplitEvent (1 # 2) 1%nat 2%nat) = true /\
  event_lt (SplitEvent (1 # 2) 1%nat 2%nat) (SplitEvent 1 3%nat 4%nat) = true /\
  event_lt (MergeEvent (1 # 2) 0%nat) (SplitEvent 1 3%nat 4%nat) = true.
Proof.
  assert (H1 : event_lt (MergeEvent (1 # 2) 0%nat) (SplitEvent (1 # 2) 1%nat 2%nat) = true)
    by reflexivity.
  assert (H2 : event_lt (SplitEvent (1 # 2) 1%nat 2%nat) (SplitEvent 1 3%nat 4%nat) = true)
    by reflexivity.
  split; [exact H1|split; [exact H2|]].
  exact (event_lt_trans _ _ _ H1 H2).
Defined.

(** [Event.__lt__] is not a strict order on merge events: two events at
    equal times each compare less than the other exactly when both are
    merge events (a merge event is even less than itself); at any other
    pair at most one direction holds. *)
Theorem event_lt_both_directions (e1 e2 : event) :
  event_lt e1 e2 && event_lt e2 e1 =
  Qeq_bool (ev_time e1) (ev_time e2) && is_merge_event e1 && is_merge_event e2.
Proof.
  unfold event_lt. rewrite (Qeq_bool_sym (ev_time e2) (ev_time e1)).
  destruct (Q_trichotomy_bool (ev_time e1) (ev_time e2))
    as [[_ [-> [-> ->]]]|[[_ [-> [-> ->]]]|[_ [-> [-> ->]]]]];
    destruct (is_merge_event e1), (is_merge_event e2); reflexivity.
Qed.

(** Two events are incomparable under [Event.__lt__] (neither is less
    than the other) exactly when they have equal times and both are split
    events. *)
Theorem event_lt_incomparable (e1 e2 : event) :
  negb (event_lt e1 e2) && negb (event_lt e2 e1) =
  Qeq_bool (ev_time e1) (ev_time e2) && is_split_event e1 && is_split_event e2.
Proof.
  unfold event_lt. rewrite (Qeq_bool_sym (ev_time e2) (ev_time e1)).
  destruct (Q_trichotomy_bool (ev_time e1) (ev_time e2))
    as [[_ [-> [-> ->]]]|[[_ [-> [-> ->]]]|[_ [-> [-> ->]]]]];
    destruct e1, e2; reflexivity.
Qed.

(* ------------------------------------------------------------------ *)
(** ** compact_routing_structure.py : what [unzip] leaves behind *)

Lemma reader_inner_of (b : bid) : reader strip_l (inner_of b).
Proof. solve_reader. Qed.

Lemma modify_layer_run (s : State) (b : bid) (v : option Q) (u : unit) (s' : State) :
  modify b (set_layer_thickness v) s = Ret u s' ->
  fv b_layer_thickness s' b = Some v /\
  forall k, k <> b -> fv b_layer_thickness s' k = fv b_layer_thickness s k.
Proof.
  unfold modify, fv. destruct (store s !! b) as [bd|] eqn:E; intros H; [|discriminate].
  injection H as _ <-. cbn [store]. split.
  - rewrite lookup_insert_eq. reflexivity.
  - intros k Hk. rewrite lookup_insert_ne by congruence. reflexivity.
Qed.

Lemma reset_layers_frame (fuel : nat) (l : list bid) :
  forall s u s', reset_layers fuel l s = Ret u s' ->
  forall k, ~ In k l -> fv b_layer_thickness s' k = fv b_layer_thickness s k.
Proof.
  induction l as [|eb l IH]; intros s u s' H k Hk; cbn [reset_layers] in H.
  - injection H as _ <-. reflexivity.
  - unfold mbind at 1, M_bind at 1 in H.
    destruct (inner_of eb s) as [i s1|e s1] eqn:E1; [|discriminate].
    pose proof (reader_inner_of eb s s i s1 (agree_refl _ _) E1) as [-> _].
    unfold mbind at 1, M_bind at 1 in H.
    destruct (sum_layers fuel i 0 s) as [lt s2|e s2] eqn:E2; [|discriminate].
    pose proof (reader_sum_layers fuel i 0 s s lt s2 (agree_refl _ _) E2) as [-> _].
    unfold mbind at 1, M_bind at 1 in H.
    destruct (modify eb (set_layer_thickness (Some lt)) s) as [v s3|e s3] eqn:E3; [|discriminate].
    destruct (modify_layer_run _ _ _ _ _ E3) as [_ F3].
    rewrite (IH _ _ _ H k (fun Hin => Hk (or_intror Hin))).
    apply F3. intros ->. apply Hk. left. reflexivity.
Qed.

Lemma reset_layers_sets (fuel : nat) (l : list bid) :
  forall s u s', reset_layers fuel l s = Ret u s' ->
  forall eb, In eb l -> exists i lt,
    inner_of eb s' = Ret i s' /\ sum_layers fuel i 0 s' = Ret lt s' /\
    fv b_layer_thickness s' eb = Some (Some lt).
Proof.
  induction l as [|eb l IH]; intros s u s' H x Hx; [destruct Hx|]; cbn [reset_layers] in H.
  unfold mbind at 1, M_bind at 1 in H.
  destruct (inner_of eb s) as [i s1|e s1] eqn:E1; [|discriminate].
  pose proof (reader_inner_of eb s s i s1 (agree_refl _ _) E1) as [-> _].
  unfold mbind at 1, M_bind at 1 in H.
  destruct (sum_layers fuel i 0 s) as [lt s2|e s2] eqn:E2; [|discriminate].
  pose proof (reader_sum_layers fuel i 0 s s lt s2 (agree_refl _ _) E2) as [-> _].
  unfold mbind at 1, M_bind at 1 in H.
  destruct (modify eb (set_layer_thickness (Some lt)) s) as [v s3|e s3] eqn:E3; [|discriminate].
  destruct (in_dec Nat.eq_dec x l) as [Hin|Hnin]; [exact (IH _ _ _ H x Hin)|].
  destruct Hx as [->|Hx]; [|contradiction].
  assert (A : agree strip_l s s').
  { apply (agree_trans _ _ s3).
    - exact (pres_modify strip_l x (set_layer_thickness (Some lt)) ltac:(intros []; reflexivity) _ _ _ E3).
    - exact (pres_reset_layers fuel l _ _ _ H). }
  exists i, lt. split; [|split].
  - exact (proj2 (reader_inner_of x s s' i s A E1)).
  - exact (proj2 (reader_sum_layers fuel i 0 s s' lt s A E2)).
  - rewrite (reset_layers_frame fuel l _ _ _ H x Hnin).
    exact (proj1 (modify_layer_run _ _ _ _ _ E3)).
Qed.

(** After [unzip] returns, every straight bundle of the structure holds
    at most one segment: its [size] is set and at most 1 (the tear phase
    splits every bundle down, and the later phases touch no size and no
    list). *)
Theorem unzip_straight_bundles_single (fuel : nat) (s s1 : State) :
  fresh_ids s -> unzip fuel s = Ret tt s1 ->
  forall b, In b (straight_bundles s1) -> small_at s1 b.
Proof.
  intros F H. cbv [unzip get_state mbind M_bind] in H.
  destruct (tear_all fuel (straight_bundles s) s) as [[] sa|e sa] eqn:Ea; [|discriminate].
  destruct (reset_thickness fuel (edges sa) sa) as [[] sb|e sb] eqn:Eb; [|discriminate].
  destruct (tear_all_small _ _ _ _ _ F Ea) as [Ta Sa].
  pose proof (pres_reset_thickness _ _ _ _ _ Eb) as Pb.
  pose proof (pres_reset_layers _ _ _ _ _ H) as Pc.
  assert (Aas1 : agree strip_tl sa s1).
  { apply (agree_trans _ _ sb).
    - exact (agree_weaken strip_t strip_tl _ _ ltac:(solve_fields) Pb).
    - exact (agree_weaken strip_l strip_tl _ _ ltac:(solve_fields) Pc). }
  intros b Hb. rewrite <- (proj1 Aas1) in Hb.
  destruct Ta as (_ & _ & Tl & _).
  assert (Hsa : small_at sa b) by (destruct (Tl b Hb) as [Hs|Hs]; [exact (Sa b Hs)|exact Hs]).
  destruct Hsa as [z [Hz Hle]]. exists z. split; [|exact Hle].
  change (fv b_size s1 b = Some (Some z)). rewrite <- (agree_fv strip_tl b_size sa s1); [exact Hz| |exact Aas1].
  solve_fields.
Qed.

(** After [unzip] returns, the [layer_thickness] of every elbow bundle of
    the structure is the one [unzip] computes from the final structure:
    the sum over its [inner] chain of each bundle's [thickness], halved
    for a terminal bundle. *)
Theorem unzip_layer_thickness_consistent (fuel : nat) (s s1 : State) :
  unzip fuel s = Ret tt s1 ->
  forall eb, In eb (elbow_bundles s1) -> exists i lt,
    inner_of eb s1 = Ret i s1 /\ sum_layers fuel i 0 s1 = Ret lt s1 /\
    fv b_layer_thickness s1 eb = Some (Some lt).
Proof.
  intros H. cbv [unzip get_state mbind M_bind] in H.
  destruct (tear_all fuel (straight_bundles s) s) as [[] sa|e sa] eqn:Ea; [|discriminate].
  destruct (reset_thickness fuel (edges sa) sa) as [[] sb|e sb] eqn:Eb; [|discriminate].
  intros eb Heb. apply (reset_layers_sets fuel (elbow_bundles sb) sb tt s1 H).
  rewrite (proj1 (proj2 (pres_reset_layers _ _ _ _ _ H))). exact Heb.
Qed.

Lemma ex3_fresh : fresh_ids ex3_state.
Proof.
  intros k Hk. change (3 <= k)%nat in Hk. unfold ex3_state, ex3_store. cbn [store].
  rewrite !lookup_insert_ne by (intro; subst; lia). apply lookup_empty.
Qed.

Lemma unzip_straight_bundles_single_witness :
  exists s1, fresh_ids ex3_state /\ unzip 10 ex3_state = Ret tt s1 /\
    forall b, In b (straight_bundles s1) -> small_at s1 b.
Proof.
  destruct (unzip 10 ex3_state) as [[] s1|e s1] eqn:E; [|vm_compute in E; discriminate].
  exists s1. split; [exact ex3_fresh|split; [reflexivity|]].
  exact (unzip_straight_bundles_single 10 ex3_state s1 ex3_fresh E).
Defined.

Lemma unzip_layer_thickness_consistent_witness :
  exists s1, unzip 10 ex3_state = Ret tt s1 /\
    forall eb, In eb (elbow_bundles s1) -> exists i lt,
      inner_of eb s1 = Ret i s1 /\ sum_layers 10 i 0 s1 = Ret lt s1 /\
      fv b_layer_thickness s1 eb = Some (Some lt).
Proof.
  destruct (unzip 10 ex3_state) as [[] s1|e s1] eqn:E; [|vm_compute in E; discriminate].
  exists s1. split; [reflexivity|].
  exact (unzip_layer_thickness_consistent 10 ex3_state s1 E).
Defined.

(* ------------------------------------------------------------------ *)
(** ** growing_algorithm.py : the times of the events put in the queue *)

(** The split event [compute_next_split_event] returns involves [b]. *)
Lemma compute_next_split_event_bundles (fuel : nat) (dt : Q) splits_at (s : State) (b : bid)
  (t : Q) (e : event) :
  compute_next_split_event fuel dt splits_at s b t = Some (Some e) -> In b (ev_bundles e).
Proof.
  unfold compute_next_split_event.
  destruct (find_split_bundles _ _ _ _ _ _ _ _) as [[nsb nst]|]; [|discriminate].
  destruct nsb; [discriminate|].
  destruct (pick_split_bundle _ _ _ _ _ _ _) as [[nb|] ft]; [|discriminate].
  intros H. injection H as <-. destruct (is_straight s b); simpl; tauto.
Qed.

Lemma compute_next_merge_event_bundles (fuel : nat) (dt : Q) merges_at (s : State) (b : bid)
  (t : Q) (e : event) :
  compute_next_merge_event fuel dt merges_at s b t = Some (Some e) -> ev_bundles e = [b].
Proof.
  unfold compute_next_merge_event.
  destruct (scan _ _ _ _ _) as [[c|]|]; try discriminate.
  intros H. injection H as <-. reflexivity.
Qed.

(** [update_queue(b, t)] only appends to the queue, at most two events
    (one split, one merge), each of which involves [b]; a merge event is
    only put for a non-terminal elbow bundle [b]. *)
Theorem update_queue_new_events (fuel : nat) (dt : Q) splits_at merges_at
  (s : State) (q : list event) (b : bid) (t : Q) (q' : list event) :
  update_queue fuel dt splits_at merges_at s q b t = Some q' ->
  exists added, q' = q ++ added /\ (length added <= 2)%nat /\
    forall e, In e added ->
      In b (ev_bundles e) /\
      (is_merge_event e = true ->
       exists bd, store s !! b = Some bd /\ b_kind bd = ElbowBundle /\ b_is_terminal bd = false).
Proof.
  unfold update_queue.
  pose proof (compute_next_split_event_bundles fuel dt splits_at s b t) as Hs.
  pose proof (compute_next_split_event_kind fuel dt splits_at s b t) as Hsk.
  destruct (compute_next_split_event fuel dt splits_at s b t) as [se|]; [|discriminate].
  set (a1 := match se with Some e => [e] | None => [] end).
  assert (Q1 : put q se = q ++ a1) by (destruct se; [reflexivity|symmetry; apply app_nil_r]).
  assert (L1 : (length a1 <= 1)%nat) by (destruct se; simpl; lia).
  assert (A1 : forall e, In e a1 -> In b (ev_bundles e) /\ is_merge_event e = false).
  { intros e He. destruct se as [e'|]; [|destruct He].
    destruct He as [->|[]]. split; [exact (Hs e eq_refl)|].
    specialize (Hsk e eq_refl). destruct e; [reflexivity|discriminate]. }
  rewrite Q1.
  assert (Only1 : Some (q ++ a1) = Some q' ->
    exists added, q' = q ++ added /\ (length added <= 2)%nat /\
    forall e, In e added ->
      In b (ev_bundles e) /\
      (is_merge_event e = true ->
       exists bd, store s !! b = Some bd /\ b_kind bd = ElbowBundle /\ b_is_terminal bd = false)).
  { intros H. injection H as <-. exists a1. split; [reflexivity|split; [lia|]].
    intros e He. destruct (A1 e He) as (H1 & H4).
    split; [exact H1|]. rewrite H4. discriminate. }
  destruct (store s !! b) as [bd|] eqn:Eb; [|exact Only1].
  destruct (kind_eqb (b_kind bd) ElbowBundle && negb (b_is_terminal bd)) eqn:K; [|exact Only1].
  pose proof (compute_next_merge_event_bundles fuel dt merges_at s b t) as Hm.
  destruct (compute_next_merge_event fuel dt merges_at s b t) as [me|]; [|discriminate].
  intros H. injection H as <-.
  exists (a1 ++ match me with Some e => [e] | None => [] end).
  split; [destruct me; cbn [put]; [symmetry; apply app_assoc|rewrite !app_nil_r; reflexivity]|].
  split; [rewrite length_app; destruct me; simpl; lia|].
  intros e He. apply in_app_or in He as [He|He].
  - destruct (A1 e He) as (H1 & H4). split; [exact H1|]. rewrite H4. discriminate.
  - destruct me as [e'|]; [|destruct He]. destruct He as [->|[]].
    split; [rewrite (Hm e eq_refl); left; reflexivity|].
    intros _. exists bd. split; [reflexivity|].
    apply andb_true_iff in K as [K1 K2]. apply negb_true_iff in K2.
    split; [|exact K2]. destruct (b_kind bd); [discriminate|reflexivity].
Qed.

Lemma update_queue_new_events_witness :
  exists q', update_queue 10 (1 # 4) splits_after_half never1 ex_state [] 3%nat 0 = Some q' /\
  exists added, q' = [] ++ added /\ (length added <= 2)%nat /\
    forall e, In e added ->
      In 3%nat (ev_bundles e) /\
      (is_merge_event e = true ->
       exists bd, store ex_state !! 3%nat = Some bd /\ b_kind bd = ElbowBundle /\ b_is_terminal bd = false).
Proof.
  destruct (update_queue 10 (1 # 4) splits_after_half never1 ex_state [] 3%nat 0) as [q'|] eqn:E;
    [|vm_compute in E; discriminate].
  exists q'. split; [reflexivity|].
  exact (update_queue_new_events 10 (1 # 4) splits_after_half never1 ex_state [] 3%nat 0 q' E).
Defined.

(* ------------------------------------------------------------------ *)
(** ** compact_routing_structure.py : [next] and [ElbowBundle.is_closer_than] *)

(** [next(prev)] of a bundle with [left = x] and [right = y] walks
    across it: from [x] it returns [y], from [y] it returns [x] (also when
    [x = y], as for a terminal elbow bundle); from any other bundle it
    raises [Exception] and changes nothing. *)
Theorem next_other_side (s : State) (b x y : bid) (bd : bundle) :
  store s !! b = Some bd -> b_left bd = Some x -> b_right bd = Some y ->
  next b x s = Ret (Some y) s /\ next b y s = Ret (Some x) s /\
  (forall z, z <> x -> z <> y -> next b z s = Raise (Exception "bundle is not connected") s).
Proof.
  intros H Hl Hr. unfold next, is_connected_to, get, mbind, M_bind, mret, M_ret, raise.
  rewrite H. cbv iota beta. rewrite Hl, Hr. cbn [ref_eqb]. split; [|split].
  - rewrite Nat.eqb_refl. cbn [orb negb]. rewrite H. cbn [ref_eqb].
    rewrite Hl, Hr. cbn [ref_eqb]. rewrite Nat.eqb_refl. reflexivity.
  - rewrite (Nat.eqb_refl y), orb_true_r. cbn [negb]. rewrite H. rewrite Hl, Hr. cbn [ref_eqb].
    destruct (Nat.eqb_spec x y) as [->|]; reflexivity.
  - intros z Hzx Hzy.
    rewrite (proj2 (Nat.eqb_neq x z)), (proj2 (Nat.eqb_neq y z)) by congruence. reflexivity.
Qed.

Lemma next_other_side_witness :
  store ex2_state !! 4%nat = Some (seg 0%nat 1%nat) /\
  next 4%nat 0%nat ex2_state = Ret (Some 1%nat) ex2_state /\
  next 4%nat 1%nat ex2_state = Ret (Some 0%nat) ex2_state /\
  (forall z, z <> 0%nat -> z <> 1%nat ->
   next 4%nat z ex2_state = Raise (Exception "bundle is not connected") ex2_state).
Proof.
  assert (H : store ex2_state !! 4%nat = Some (seg 0%nat 1%nat)) by (vm_compute; reflexivity).
  split; [exact H|].
  exact (next_other_side ex2_state 4%nat 0%nat 1%nat (seg 0%nat 1%nat) H eq_refl eq_refl).
Defined.


Lemma point_of_run (s : State) (b : bid) (bd : bundle) (p : point) :
  store s !! b = Some bd -> b_kind bd = ElbowBundle -> b_point bd = Some p ->
  point_of b s = Ret p s.
Proof. intros H Hk Hp. unfold point_of, get, mbind, M_bind, mret, M_ret. rewrite H, Hk, Hp. reflexivity. Qed.

Lemma inner_of_run (s : State) (b : bid) (bd : bundle) :
  store s !! b = Some bd -> b_kind bd = ElbowBundle -> inner_of b s = Ret (b_inner bd) s.
Proof. intros H Hk. unfold inner_of, get, mbind, M_bind, mret, M_ret. rewrite H, Hk. reflexivity. Qed.

(** [ElbowBundle.is_closer_than(self, eb)] on two elbow bundles: it raises
    [Exception] (changing nothing) when their points differ; otherwise a
    terminal [self] is closer ([True]), a terminal [eb] with a non-terminal
    [self] is not ([False]), so of two terminal bundles at one point each
    is closer than the other. Between two non-terminal bundles, [self] is
    not closer than its own [inner] bundle, and is closer than a bundle
    whose [inner] it is when it has no [inner] itself (the [inner] chains
    are walked on a fuel bound, here at least 1). *)
Theorem elbow_is_closer_than_cases (fuel : nat) (s : State) (self eb : bid)
  (bs be : bundle) (ps pe : point) :
  store s !! self = Some bs -> b_kind bs = ElbowBundle -> b_point bs = Some ps ->
  store s !! eb = Some be -> b_kind be = ElbowBundle -> b_point be = Some pe ->
  (pt_is ps pe = false ->
   elbow_is_closer_than fuel self eb s = Raise (Exception "different points") s) /\
  (pt_is ps pe = true -> b_is_terminal bs = true ->
   elbow_is_closer_than fuel self eb s = Ret true s) /\
  (pt_is ps pe = true -> b_is_terminal bs = false -> b_is_terminal be = true ->
   elbow_is_closer_than fuel self eb s = Ret false s) /\
  (pt_is ps pe = true -> b_is_terminal bs = false -> b_is_terminal be = false -> (0 < fuel)%nat ->
   b_inner bs = Some eb -> elbow_is_closer_than fuel self eb s = Ret false s) /\
  (pt_is ps pe = true -> b_is_terminal bs = false -> b_is_terminal be = false -> (0 < fuel)%nat ->
   b_inner bs = None -> b_inner be = Some self -> elbow_is_closer_than fuel self eb s = Ret true s).
Proof.
  intros Hs Hks Hps He Hke Hpe. unfold elbow_is_closer_than.
  rewrite (bind_step _ _ s _ s (point_of_run s self bs ps Hs Hks Hps)); cbv beta.
  rewrite (bind_step _ _ s _ s (point_of_run s eb be pe He Hke Hpe)); cbv beta.
  split; [|split; [|split; [|split]]]; intros Hpt; rewrite Hpt; cbv [negb];
    try reflexivity; intros Hts; try intros Hte;
    rewrite (bind_step _ _ s _ s (is_terminal_of_run s self bs Hs)), Hts; cbv beta iota;
    try reflexivity;
    rewrite (bind_step _ _ s _ s (is_terminal_of_run s eb be He)), Hte; cbv beta iota;
    try reflexivity;
    rewrite (bind_step _ _ s _ s (inner_of_run s self bs Hs Hks)); cbv beta.
  - intros Hf Hi. rewrite Hi. destruct fuel as [|n]; [lia|].
    rewrite (bind_step _ _ s true s); [reflexivity|].
    cbn [chain_contains]. rewrite Nat.eqb_refl. reflexivity.
  - intros Hf Hi Hei. rewrite Hi. destruct fuel as [|n]; [lia|].
    rewrite (bind_step _ _ s false s); [|reflexivity]. cbv beta iota.
    rewrite (bind_step _ _ s _ s (inner_of_run s eb be He Hke)), Hei; cbv beta.
    rewrite (bind_step _ _ s true s); [reflexivity|].
    cbn [chain_contains]. rewrite Nat.eqb_refl. reflexivity.
Qed.

Lemma elbow_is_closer_than_cases_witness :
  elbow_is_closer_than 5 0%nat 1%nat ex4_state = Ret false ex4_state /\
  elbow_is_closer_than 5 1%nat 0%nat ex4_state = Ret true ex4_state.
Proof.
  set (b0 := mkBundle ElbowBundle (Some p_a) None None (Some 1%nat) (Some 1%Z) (Some 1) (Some 1) false 1).
  set (b1 := mkBundle ElbowBundle (Some p_a) None None None (Some 1%Z) (Some 1) (Some 0) false 1).
  assert (H0 : store ex4_state !! 0%nat = Some b0) by (vm_compute; reflexivity).
  assert (H1 : store ex4_state !! 1%nat = Some b1) by (vm_compute; reflexivity).
  split.
  - destruct (elbow_is_closer_than_cases 5 ex4_state 0%nat 1%nat b0 b1 p_a p_a
                H0 eq_refl eq_refl H1 eq_refl eq_refl) as (_ & _ & _ & H4 & _).
    apply H4; [vm_compute; reflexivity | reflexivity | reflexivity | lia | reflexivity].
  - destruct (elbow_is_closer_than_cases 5 ex4_state 1%nat 0%nat b1 b0 p_a p_a
                H1 eq_refl eq_refl H0 eq_refl eq_refl) as (_ & _ & _ & _ & H5).
    apply H5; [vm_compute; reflexivity | reflexivity | reflexivity | lia | reflexivity | reflexivity].
Defined.
